(** * Template data of the Azure Functions extension

    A shallow embedding of [TemplateData.getTemplates], of the template cache
    and feed readers and of [getTemplateData], followed by the properties of
    the template-resolution pipeline.

    JavaScript strings are modelled as [string] (sequences of 8-bit
    characters); a JavaScript object used as a dictionary is a [gmap string];
    a promise is its completion ([Normal] when it resolves, [Throw] when it
    rejects). *)

From Stdlib Require Import Ascii String List Bool Arith Lia.
From stdpp Require Import base option list gmap strings.
Import ListNotations.

Local Open Scope string_scope.
Local Open Scope list_scope.

(** ** Completions of (async) calls *)

Inductive Completion (A : Type) : Type :=
| Normal (a : A)
| Throw (e : string).
Arguments Normal {A} a.
Arguments Throw {A} e.

(** ** JavaScript string primitives used by the code *)

Module JsString.

(** [String.prototype.toLowerCase], on the ASCII letters. *)
Definition toLowerCase_char (c : ascii) : ascii :=
  let n := nat_of_ascii c in
  if (65 <=? n)%nat && (n <=? 90)%nat then ascii_of_nat (n + 32) else c.

Fixpoint toLowerCase (s : string) : string :=
  match s with
  | EmptyString => EmptyString
  | String c r => String (toLowerCase_char c) (toLowerCase r)
  end.

(** [s.split(sep)] for a separator of one character: the pieces between
    the occurrences of [sep]; never the empty array. *)
Fixpoint split (sep : ascii) (s : string) : list string :=
  match s with
  | EmptyString => [EmptyString]
  | String c r =>
      if Ascii.eqb c sep then EmptyString :: split sep r
      else match split sep r with
           | h :: t => String c h :: t
           | [] => [String c EmptyString]
           end
  end.

(** [s.includes(needle)]. *)
Fixpoint includes (needle s : string) : bool :=
  String.prefix needle s ||
  match s with
  | EmptyString => false
  | String _ r => includes needle r
  end.

(** Truthiness of a string value: only the empty string is falsy. *)
Definition truthy (s : string) : bool := negb (String.eqb s "").

(** The characters of [s] before the first occurrence of [sep] (all of
    [s] when there is none). *)
Fixpoint before_first (sep : ascii) (s : string) : string :=
  match s with
  | EmptyString => EmptyString
  | String c r => if Ascii.eqb c sep then EmptyString
                  else String c (before_first sep r)
  end.

End JsString.

(** ** Plain JavaScript objects used as maps *)

Module JsObject.

(** The properties every plain object inherits from [Object.prototype]. *)
Definition prototypeNames : list string := [
  "constructor"; "__defineGetter__"; "__defineSetter__"; "hasOwnProperty";
  "__lookupGetter__"; "__lookupSetter__"; "isPrototypeOf"; "propertyIsEnumerable";
  "toString"; "valueOf"; "__proto__"; "toLocaleString"
].

(** What [object[key]] finds: an own property, a property inherited from
    [Object.prototype] (a function, or the prototype itself for
    '__proto__': an object, truthy and not [undefined]), or nothing, which
    reads as [undefined]. *)
Inductive Property (A : Type) : Type :=
| Own (a : A)
| Inherited
| Missing.
Arguments Own {A} a.
Arguments Inherited {A}.
Arguments Missing {A}.

(** [object[key]], the object being given by its own properties. *)
Definition get {A} (own : gmap string A) (key : string) : Property A :=
  match own !! key with
  | Some a => Own a
  | None => if bool_decide (key ∈ prototypeNames) then Inherited else Missing
  end.

(** [object[key] = value] on an object built by assignments: the key
    '__proto__' reaches the setter of [Object.prototype] and adds no own
    property. *)
Definition set {A} (key : string) (value : A) (own : gmap string A) : gmap string A :=
  if String.eqb key "__proto__" then own else <[key := value]> own.

End JsObject.

(** [Array.prototype.find]: the first element satisfying the callback, or
    [undefined]. *)
Definition Array_find {A} (p : A -> bool) (l : list A) : option A := List.find p l.

(** Truthiness of [string | undefined], as [filter] applies it to the value
    its callback returns. *)
Definition truthy_opt (o : option string) : bool :=
  match o with
  | Some s => JsString.truthy s
  | None => false
  end.

(** ** Templates *)

(** [IFunctionTemplate], with the fields the code reads; a setting is
    represented by its name, a category by its enum string. *)
Module Template.
Record IFunctionTemplate := {
  id : string;
  name : string;
  language : string;
  isHttpTrigger : bool;
  userPromptedSettings : list string;
  categories : list string
}.
End Template.
Abbreviation IFunctionTemplate := Template.IFunctionTemplate.

(** The enum members and release constants imported from [../constants] and
    [./IFunctionTemplate]; their declarations are taken as parameters. *)
Record Constants := {
  ProjectRuntime_one : string;
  ProjectRuntime_beta : string;
  ProjectLanguage_Java : string;
  ProjectLanguage_JavaScript : string;
  TemplateFilter_All : string;
  TemplateFilter_Core : string;
  TemplateFilter_Verified : string;
  TemplateCategory_Core : string;
  v1ReleaseVersion : string;
  betaReleaseVersion : string
}.

Definition verifiedV1Templates : list string := [
  "BlobTrigger-JavaScript";
  "GenericWebHook-JavaScript";
  "GitHubWebHook-JavaScript";
  "HttpTrigger-JavaScript";
  "HttpTriggerWithParameters-JavaScript";
  "ManualTrigger-JavaScript";
  "QueueTrigger-JavaScript";
  "TimerTrigger-JavaScript";
  "Azure.Function.CSharp.HttpTrigger.1.x";
  "Azure.Function.CSharp.BlobTrigger.1.x";
  "Azure.Function.CSharp.QueueTrigger.1.x";
  "Azure.Function.CSharp.TimerTrigger.1.x"
].

Definition verifiedV2Templates : list string := [
  "BlobTrigger-JavaScript";
  "HttpTrigger-JavaScript";
  "QueueTrigger-JavaScript";
  "TimerTrigger-JavaScript";
  "Azure.Function.CSharp.HttpTrigger.2.x";
  "Azure.Function.CSharp.BlobTrigger.2.x";
  "Azure.Function.CSharp.QueueTrigger.2.x";
  "Azure.Function.CSharp.TimerTrigger.2.x"
].

Definition verifiedJavaTemplates : list string := [
  "HttpTrigger";
  "BlobTrigger";
  "QueueTrigger";
  "TimerTrigger"
].

Definition removeLanguageFromId (id : string) : string :=
  hd EmptyString (JsString.split "-"%char id).

(** ** The [TemplateData] class *)

Record TemplateData := {
  _templatesMap : gmap string (list IFunctionTemplate);
  _noInternetErrMsg : string
}.

Definition retryInternet : string :=
  "There was an error in retrieving the templates.  Recheck your internet connection and try again.".

Definition filterIsNotAFunction : string :=
  "TypeError: templates.filter is not a function".

(** [new TemplateData(templatesMap)]. *)
Definition TemplateData_new (templatesMap : gmap string (list IFunctionTemplate)) : TemplateData :=
  {| _templatesMap := templatesMap; _noInternetErrMsg := retryInternet |}.

Section TemplateData.

Context (K : Constants).

(** [getTemplates(language, runtime = ProjectRuntime.one, templateFilter?)],
    a method: it is given the object and returns its completion together
    with the object as the call leaves it. An omitted argument is [None].
    In the [switch], [case TemplateFilter.Verified] shares the body of
    [default], so every filter other than [All] and [Core] reaches it.
    [_templatesMap] is a plain object: for a runtime that names an inherited
    property the guard [!templates] is passed and the call of
    [templates.filter] throws a [TypeError]. *)
Definition getTemplates (this : TemplateData) (language : string)
    (runtime : option string) (templateFilter : option string)
  : Completion (list IFunctionTemplate) * TemplateData :=
  let runtime := default (ProjectRuntime_one K) runtime in
  match JsObject.get (_templatesMap this) runtime with
  | JsObject.Missing => (Throw (_noInternetErrMsg this), this)
  | JsObject.Inherited => (Throw filterIsNotAFunction, this)
  | JsObject.Own templates =>
      if String.eqb language (ProjectLanguage_Java K) then
        let javaTemplates :=
          List.filter (fun t => String.eqb (Template.language t) (ProjectLanguage_JavaScript K))
            templates in
        (Normal
           (List.filter
              (fun t => truthy_opt
                 (Array_find (fun vt => String.eqb vt (removeLanguageFromId (Template.id t)))
                    verifiedJavaTemplates))
              javaTemplates),
         this)
      else
        let filterTemplates :=
          List.filter
            (fun t => String.eqb (JsString.toLowerCase (Template.language t))
                        (JsString.toLowerCase language))
            templates in
        let verified :=
          let verifiedTemplates :=
            if String.eqb runtime (ProjectRuntime_one K)
            then verifiedV1Templates else verifiedV2Templates in
          List.filter
            (fun t => truthy_opt
               (Array_find (fun vt => String.eqb vt (Template.id t)) verifiedTemplates))
            filterTemplates in
        let filterTemplates :=
          match templateFilter with
          | Some f =>
              if String.eqb f (TemplateFilter_All K) then filterTemplates
              else if String.eqb f (TemplateFilter_Core K) then
                List.filter
                  (fun t => bool_decide
                     (Array_find (fun c => String.eqb c (TemplateCategory_Core K))
                        (Template.categories t) <> None))
                  filterTemplates
              else verified
          | None => verified
          end in
        (Normal filterTemplates, this)
  end.

End TemplateData.

(** The constants of the sample runs: the enum strings are the values the
    extension's settings use; the two release versions stand for the
    hard-coded backup releases. *)
Definition extensionConstants : Constants := {|
  ProjectRuntime_one := "~1";
  ProjectRuntime_beta := "beta";
  ProjectLanguage_Java := "Java";
  ProjectLanguage_JavaScript := "JavaScript";
  TemplateFilter_All := "All";
  TemplateFilter_Core := "Core";
  TemplateFilter_Verified := "Verified";
  TemplateCategory_Core := "$temp_category_core";
  v1ReleaseVersion := "1.3.0";
  betaReleaseVersion := "2.3.1"
|}.

Definition mkTemplate (i l : string) (cats : list string) : IFunctionTemplate :=
  {| Template.id := i; Template.name := i; Template.language := l;
     Template.isHttpTrigger := String.prefix "HttpTrigger" i;
     Template.userPromptedSettings := []; Template.categories := cats |}.

Definition sampleTemplates : list IFunctionTemplate := [
  mkTemplate "HttpTrigger-JavaScript" "JavaScript" ["$temp_category_core"];
  mkTemplate "HttpTrigger-CSharp" "C#Script" ["$temp_category_core"];
  mkTemplate "BlobTrigger-JavaScript" "JavaScript" [];
  mkTemplate "EventGridTrigger-JavaScript" "JavaScript" [];
  mkTemplate "Azure.Function.CSharp.HttpTrigger.2.x" "C#" []
].

Definition sampleData : TemplateData :=
  TemplateData_new (<["~1" := sampleTemplates]> (<["beta" := sampleTemplates]> ∅)).

(** ** JSON values: the content of the feed files and of the persisted store *)

#[local] Set Warnings "-register-all".
Inductive Json : Type :=
| JNull
| JBool (b : bool)
| JNum (n : Z)
| JStr (s : string)
| JArr (l : list Json)
| JObj (l : list (string * Json)).

Module JsValue.
(** Truthiness of a stored value ([undefined] is [None]). *)
Definition truthy (v : option Json) : bool :=
  match v with
  | None | Some JNull => false
  | Some (JBool b) => b
  | Some (JNum n) => negb (Z.eqb n 0)
  | Some (JStr s) => JsString.truthy s
  | Some (JArr _) | Some (JObj _) => true
  end.

(** [v === s] for a stored value [v] and [s : string | undefined]. *)
Definition strictEq_string (v : option Json) (s : option string) : bool :=
  match v, s with
  | None, None => true
  | Some (JStr a), Some b => String.eqb a b
  | _, _ => false
  end.
End JsValue.

(** ** The feed and the outside world *)

(** [cliFeedJsonResponse]: the fields the code reads. *)
Record Release := {
  templateApiZip : string;
  itemTemplates : string;
  projectTemplates : string
}.

Record CliFeedJson := {
  tags : gmap string string;
  releases : gmap string Release
}.

(** The files read back from the scratch directory after extraction. *)
Inductive TempFile := ResourcesJson | TemplatesJson | BindingsJson.

(** What the network, the file system and the .NET CLI do during one call of
    [tryGetParsedTemplateDataFromCliFeed]: [downloadFile] by url, [extract],
    [dotnetUtils.validateDotnetInstalled] (the CLI is installed or not for
    the whole call), the parsed output of the dotnet 'list' command,
    [fse.readJSON] by file, [fse.pathExists] and [fse.remove] of the scratch
    directory. *)
Record FeedIO := {
  io_downloadFile : string -> Completion unit;
  io_extract : Completion unit;
  io_validateDotnetInstalled : Completion unit;
  io_dotnetTemplateList : Completion Json;
  io_readJSON : TempFile -> Completion Json;
  io_pathExists : bool;
  io_remove : Completion unit
}.

(** The four sources of [getTemplateData], named by the [templateSource]
    telemetry value each one records. *)
Inductive Tier := MatchingCache | CliFeed | MismatchCache | BackupCliFeed.

#[global] Instance Tier_eq_dec : EqDecision Tier.
Proof. solve_decision. Defined.

(** The outside world during one run of [getTemplateData]: what
    [tryGetCliFeedJson] returns, what [tryGetTemplateVersionSetting] resolves
    for each runtime (it depends on the user's settings and answers, and
    returns [undefined] when it fails), and the I/O of each feed attempt. *)
Record World := {
  w_cliFeedJson : option CliFeedJson;
  w_templateVersion : string -> option string;
  w_feedIO : Tier -> string -> FeedIO
}.

(** The handle of the host's key-value store ([vscode.Memento]); its content
    lives in the state, so that every holder of the handle sees one store. *)
Inductive Memento := hostMemento.

Abbreviation Parsed := (option (list IFunctionTemplate)).

(** One call of a reader by [getTemplateData]: the runtime it was made for,
    the tier, and how the call completed. *)
Record Attempt := {
  at_runtime : string;
  at_tier : Tier;
  at_completion : Completion Parsed
}.

Abbreviation Trace := (list Attempt).

Record State := {
  persisted : gmap string Json;
  properties : list (string * string);
  outputChannel : list string;
  templatesMap : gmap string (list IFunctionTemplate);
  telemetry : list (string * list (string * string));
  attempts : Trace
}.

Definition initialState (store : gmap string Json) : State :=
  {| persisted := store; properties := []; outputChannel := [];
     templatesMap := ∅; telemetry := []; attempts := [] |}.

Definition set_persisted (f : gmap string Json -> gmap string Json) (st : State) : State :=
  {| persisted := f (persisted st); properties := properties st;
     outputChannel := outputChannel st; templatesMap := templatesMap st;
     telemetry := telemetry st; attempts := attempts st |}.

Definition set_properties (f : list (string * string) -> list (string * string)) (st : State) : State :=
  {| persisted := persisted st; properties := f (properties st);
     outputChannel := outputChannel st; templatesMap := templatesMap st;
     telemetry := telemetry st; attempts := attempts st |}.

Definition set_outputChannel (f : list string -> list string) (st : State) : State :=
  {| persisted := persisted st; properties := properties st;
     outputChannel := f (outputChannel st); templatesMap := templatesMap st;
     telemetry := telemetry st; attempts := attempts st |}.

Definition set_templatesMap
    (f : gmap string (list IFunctionTemplate) -> gmap string (list IFunctionTemplate))
    (st : State) : State :=
  {| persisted := persisted st; properties := properties st;
     outputChannel := outputChannel st; templatesMap := f (templatesMap st);
     telemetry := telemetry st; attempts := attempts st |}.

Definition set_telemetry
    (f : list (string * list (string * string)) -> list (string * list (string * string)))
    (st : State) : State :=
  {| persisted := persisted st; properties := properties st;
     outputChannel := outputChannel st; templatesMap := templatesMap st;
     telemetry := f (telemetry st); attempts := attempts st |}.

Definition set_attempts (f : Trace -> Trace) (st : State) : State :=
  {| persisted := persisted st; properties := properties st;
     outputChannel := outputChannel st; templatesMap := templatesMap st;
     telemetry := telemetry st; attempts := f (attempts st) |}.

(** ** Stateful computations that may throw *)

Definition M (A : Type) : Type := State -> Completion A * State.

Definition ret {A} (a : A) : M A := fun st => (Normal a, st).

Definition bind {A B} (m : M A) (k : A -> M B) : M B :=
  fun st =>
    match m st with
    | (Normal a, st') => k a st'
    | (Throw e, st') => (Throw e, st')
    end.

Definition throw {A} (e : string) : M A := fun st => (Throw e, st).

(** An awaited call whose outcome the outside world decides. *)
Definition await {A} (c : Completion A) : M A := fun st => (c, st).

(** [try { body } catch (error) { handler }]. *)
Definition try_catch {A} (body : M A) (handler : string -> M A) : M A :=
  fun st =>
    match body st with
    | (Normal a, st') => (Normal a, st')
    | (Throw e, st') => handler e st'
    end.

(** [try { body } finally { fin }]: [fin] always runs, and a throw from it
    replaces the completion of [body]. *)
Definition try_finally {A} (body : M A) (fin : M unit) : M A :=
  fun st =>
    let '(c, st') := body st in
    match fin st' with
    | (Normal _, st'') => (c, st'')
    | (Throw e, st'') => (Throw e, st'')
    end.

Notation "x <- m ;; k" := (bind m (fun x => k))
  (at level 100, m at next level, right associativity).
Notation "m ;;; k" := (bind m (fun _ => k))
  (at level 100, right associativity).

Fixpoint forEach {A} (l : list A) (body : A -> M unit) : M unit :=
  match l with
  | [] => ret tt
  | a :: rest => body a ;;; forEach rest body
  end.

(** [context.properties.key = value]: the assignments are kept in order. *)
Definition setProperty (key value : string) : M unit :=
  fun st => (Normal tt, set_properties (fun ps => ps ++ [(key, value)]) st).

Definition appendLine (line : string) : M unit :=
  fun st => (Normal tt, set_outputChannel (fun ls => ls ++ [line]) st).

Definition Memento_get (globalState : Memento) (key : string) : M (option Json) :=
  fun st => (Normal (persisted st !! key), st).

Definition Memento_update (globalState : Memento) (key : string) (value : Json) : M unit :=
  fun st => (Normal tt, set_persisted (fun m => <[key := value]> m) st).

(** Runs a reader and appends the call to the log of attempts; the log is
    read by no program variable. *)
Definition attempt (runtime : string) (t : Tier) (call : M Parsed) : M Parsed :=
  fun st =>
    let '(c, st') := call st in
    (c, set_attempts
          (fun a => a ++ [{| at_runtime := runtime; at_tier := t; at_completion := c |}]) st').

(** [callWithTelemetryAndErrorHandling] of vscode-azureextensionui: the
    callback runs on a fresh context; an error it throws is recorded in the
    context and, [rethrowError] being unset, not thrown again; the context
    is then sent as a telemetry event. *)
Definition callWithTelemetryAndErrorHandling (callbackId : string) (callback : M unit) : M unit :=
  fun st =>
    let '(c, st') := callback (set_properties (fun _ => []) st) in
    let st'' :=
      match c with
      | Normal _ => st'
      | Throw e =>
          set_properties (fun ps => ps ++ [("result", "Failed"); ("errorMessage", e)]) st'
      end in
    (Normal tt, set_telemetry (fun t => t ++ [(callbackId, properties st'')]) st'').

(** ** Keys of the persisted store *)

Definition templatesKey : string := "FunctionTemplates".
Definition configKey : string := "FunctionTemplateConfig".
Definition resourcesKey : string := "FunctionTemplateResources".
Definition dotnetTemplatesKey : string := "DotnetTemplates".
Definition templateVersionKey : string := "templateVersion".

Definition dquote : string := String (ascii_of_nat 34) EmptyString.

Definition failedToVerifiedTemplate (verifiedTemplateId : string) : string :=
  "Failed to find verified template with id " +:+ dquote +:+ verifiedTemplateId +:+ dquote +:+ ".".

Definition downloadTemplates (templateVersion : string) : string :=
  "Downloading " +:+ dquote +:+ "v" +:+ templateVersion +:+ dquote +:+ " templates. . .".

(** ** Reading templates from the cache and from the feed *)

Section Pipeline.

Context (K : Constants).

(** The two parsers, imported from [./parseScriptTemplates] and
    [./parseDotnetTemplates]; either may throw. *)
Context (parseScriptTemplates : Json -> Json -> Json -> Completion (list IFunctionTemplate)).
Context (parseDotnetTemplates : Json -> string -> Completion (list IFunctionTemplate)).

Definition getRuntimeKey (baseKey runtime : string) : string :=
  if String.eqb runtime (ProjectRuntime_one K) then baseKey
  else baseKey +:+ "." +:+ runtime.

(** The template literal [`${templateVersionKey}-${runtime}`]. *)
Definition versionKey (runtime : string) : string :=
  templateVersionKey +:+ "-" +:+ runtime.

(** The [for] loop of [verifyTemplatesByRuntime]: throws at the first
    verified id that no template carries. *)
Fixpoint verifyEach (templates : list IFunctionTemplate) (verifiedTemplates : list string)
  : Completion unit :=
  match verifiedTemplates with
  | [] => Normal tt
  | verifiedTemplateId :: rest =>
      if negb (existsb (fun t => String.eqb (Template.id t) verifiedTemplateId) templates)
      then Throw (failedToVerifiedTemplate verifiedTemplateId)
      else verifyEach templates rest
  end.

Definition verifyTemplatesByRuntime (io : FeedIO) (templates : list IFunctionTemplate)
    (runtime : string) : M unit :=
  let verifiedTemplates :=
    if String.eqb runtime (ProjectRuntime_one K)
    then verifiedV1Templates else verifiedV2Templates in
  verifiedTemplates <-
    try_catch
      (await (io_validateDotnetInstalled io) ;;; ret verifiedTemplates)
      (fun _ =>
         ret (List.filter (fun id => negb (JsString.includes "CSharp" id)) verifiedTemplates)) ;;
  await (verifyEach templates verifiedTemplates).

(** The [try] block of [tryGetParsedTemplateDataFromCache]; its value is
    the local variable [templates] as the block leaves it. *)
Definition cache_try (runtime : string) (globalState : Memento)
  : M (list IFunctionTemplate) :=
  let templates : list IFunctionTemplate := [] in
  cachedResources <- Memento_get globalState (getRuntimeKey resourcesKey runtime) ;;
  cachedTemplates <- Memento_get globalState (getRuntimeKey templatesKey runtime) ;;
  cachedConfig <- Memento_get globalState (getRuntimeKey configKey runtime) ;;
  templates <-
    match cachedResources, cachedTemplates, cachedConfig with
    | Some r, Some t, Some c =>
        if JsValue.truthy (Some r) && JsValue.truthy (Some t) && JsValue.truthy (Some c)
        then parsed <- await (parseScriptTemplates r t c) ;; ret (templates ++ parsed)
        else ret templates
    | _, _, _ => ret templates
    end ;;
  cachedDotnetTemplates <- Memento_get globalState (getRuntimeKey dotnetTemplatesKey runtime) ;;
  match cachedDotnetTemplates with
  | Some d =>
      if JsValue.truthy (Some d)
      then parsed <- await (parseDotnetTemplates d runtime) ;; ret (templates ++ parsed)
      else ret templates
  | None => ret templates
  end.

(** After the [try] statement the function ends with [return undefined]:
    the [templates] built by the block are not used. *)
Definition tryGetParsedTemplateDataFromCache (runtime : string) (globalState : Memento)
  : M Parsed :=
  try_catch
    (cache_try runtime globalState ;;; ret tt)
    (fun error => setProperty "cacheError" error) ;;;
  ret None.

(** [cliFeedJson.releases[templateVersion].field]: reading a field of a
    release the feed does not list throws a [TypeError]. *)
Definition releaseField (cliFeedJson : CliFeedJson) (templateVersion : string)
    (field : Release -> string) : M string :=
  match releases cliFeedJson !! templateVersion with
  | Some release => ret (field release)
  | None => throw "TypeError: Cannot read property of undefined"
  end.

Definition downloadAndExtractTemplates (io : FeedIO) (templateUrl release : string) : M unit :=
  await (io_downloadFile io templateUrl) ;;;
  await (io_extract io).

Definition downloadAndExtractCSharpTemplates (io : FeedIO) (cliFeedJson : CliFeedJson)
    (templateVersion runtime : string) : M Json :=
  installed <-
    try_catch
      (await (io_validateDotnetInstalled io) ;;; ret true)
      (fun _ =>
         appendLine "Skipping download of C# templates because the .NET CLI is not installed." ;;;
         ret false) ;;
  if negb installed then ret (JArr [])
  else
    url <- releaseField cliFeedJson templateVersion projectTemplates ;;
    await (io_downloadFile io url) ;;;
    url <- releaseField cliFeedJson templateVersion itemTemplates ;;
    await (io_downloadFile io url) ;;;
    await (io_dotnetTemplateList io).

(** The [try] block of [tryGetParsedTemplateDataFromCliFeed]. *)
Definition cliFeed_try (io : FeedIO) (cliFeedJson : CliFeedJson)
    (templateVersion runtime : string) (globalState : option Memento) : M Parsed :=
  setProperty "templateVersion" templateVersion ;;;
  appendLine (downloadTemplates templateVersion) ;;;
  url <- releaseField cliFeedJson templateVersion templateApiZip ;;
  downloadAndExtractTemplates io url templateVersion ;;;
  rawCSharpTemplates <-
    downloadAndExtractCSharpTemplates io cliFeedJson templateVersion runtime ;;
  appendLine "Finished downloading templates." ;;;
  rawResources <- await (io_readJSON io ResourcesJson) ;;
  rawTemplates <- await (io_readJSON io TemplatesJson) ;;
  rawConfig <- await (io_readJSON io BindingsJson) ;;
  templates <- await (parseScriptTemplates rawResources rawTemplates rawConfig) ;;
  dotnetTemplates <- await (parseDotnetTemplates rawCSharpTemplates runtime) ;;
  let templates := templates ++ dotnetTemplates in
  verifyTemplatesByRuntime io templates runtime ;;;
  match globalState with
  | Some globalState =>
      Memento_update globalState (versionKey runtime) (JStr templateVersion) ;;;
      Memento_update globalState (getRuntimeKey templatesKey runtime) rawTemplates ;;;
      Memento_update globalState (getRuntimeKey configKey runtime) rawConfig ;;;
      Memento_update globalState (getRuntimeKey resourcesKey runtime) rawResources ;;;
      Memento_update globalState (getRuntimeKey dotnetTemplatesKey runtime) rawCSharpTemplates
  | None => ret tt
  end ;;;
  ret (Some templates).

(** The [finally] block: the scratch directory is removed when it exists. *)
Definition cliFeed_finally (io : FeedIO) : M unit :=
  if io_pathExists io then await (io_remove io) else ret tt.

Definition tryGetParsedTemplateDataFromCliFeed (io : FeedIO) (cliFeedJson : CliFeedJson)
    (templateVersion runtime : string) (globalState : option Memento) : M Parsed :=
  try_finally
    (try_catch
       (cliFeed_try io cliFeedJson templateVersion runtime globalState)
       (fun error =>
          setProperty "cliFeedError" error ;;;
          ret None))
    (cliFeed_finally io).

(** ** [getTemplateData] *)

Definition templateSource (t : Tier) : string :=
  match t with
  | MatchingCache => "matchingCache"
  | CliFeed => "cliFeed"
  | MismatchCache => "mismatchCache"
  | BackupCliFeed => "backupCliFeed"
  end.

(** The callback run once per runtime. [parsedTemplatesByRuntime] is
    threaded through the four [if] statements; an array, even an empty
    one, is truthy, so [!parsedTemplatesByRuntime] holds exactly for
    [undefined]. ([suppressErrorDisplay] only silences the error dialog of
    the wrapper and is not modelled.) *)
Definition getTemplateData_callback (w : World) (globalState : option Memento)
    (cliFeedJson : option CliFeedJson) (runtime : string) : M unit :=
  setProperty "isActivationEvent" "true" ;;;
  setProperty "runtime" runtime ;;;
  let templateVersion := w_templateVersion w runtime in
  let parsedTemplatesByRuntime : Parsed := None in
  parsedTemplatesByRuntime <-
    match globalState with
    | Some gs =>
        cachedVersion <- Memento_get gs (versionKey runtime) ;;
        if JsValue.strictEq_string cachedVersion templateVersion then
          parsed <- attempt runtime MatchingCache (tryGetParsedTemplateDataFromCache runtime gs) ;;
          setProperty "templateSource" (templateSource MatchingCache) ;;;
          ret parsed
        else ret parsedTemplatesByRuntime
    | None => ret parsedTemplatesByRuntime
    end ;;
  parsedTemplatesByRuntime <-
    match parsedTemplatesByRuntime, cliFeedJson, templateVersion with
    | None, Some feed, Some version =>
        if JsString.truthy version then
          parsed <- attempt runtime CliFeed
            (tryGetParsedTemplateDataFromCliFeed (w_feedIO w CliFeed runtime)
               feed version runtime globalState) ;;
          setProperty "templateSource" (templateSource CliFeed) ;;;
          ret parsed
        else ret parsedTemplatesByRuntime
    | _, _, _ => ret parsedTemplatesByRuntime
    end ;;
  parsedTemplatesByRuntime <-
    match parsedTemplatesByRuntime, globalState with
    | None, Some gs =>
        parsed <- attempt runtime MismatchCache (tryGetParsedTemplateDataFromCache runtime gs) ;;
        setProperty "templateSource" (templateSource MismatchCache) ;;;
        ret parsed
    | _, _ => ret parsedTemplatesByRuntime
    end ;;
  parsedTemplatesByRuntime <-
    match parsedTemplatesByRuntime, cliFeedJson with
    | None, Some feed =>
        let backupVersion :=
          if String.eqb runtime (ProjectRuntime_one K)
          then v1ReleaseVersion K else betaReleaseVersion K in
        parsed <- attempt runtime BackupCliFeed
          (tryGetParsedTemplateDataFromCliFeed (w_feedIO w BackupCliFeed runtime)
             feed backupVersion runtime globalState) ;;
        setProperty "templateSource" (templateSource BackupCliFeed) ;;;
        ret parsed
    | _, _ => ret parsedTemplatesByRuntime
    end ;;
  match parsedTemplatesByRuntime with
  | Some templates =>
      fun st => (Normal tt, set_templatesMap (fun m => <[runtime := templates]> m) st)
  | None => setProperty "templateSource" "None"
  end.

(** [Object.keys(ProjectRuntime)] mapped through the enum: its two
    members, in declaration order. *)
Definition projectRuntimes : list string :=
  [ProjectRuntime_one K; ProjectRuntime_beta K].

Definition getTemplateData (w : World) (globalState : option Memento) : M TemplateData :=
  (fun st => (Normal tt, set_templatesMap (fun _ => ∅) st)) ;;;
  let cliFeedJson := w_cliFeedJson w in
  forEach projectRuntimes
    (fun runtime =>
       callWithTelemetryAndErrorHandling "azureFunctions.getTemplateData"
         (getTemplateData_callback w globalState cliFeedJson runtime)) ;;;
  fun st => (Normal (TemplateData_new (templatesMap st)), st).

End Pipeline.

(** ** Sample inputs *)

(** A stand-in for the two parsers: it reads the [id] and [language] of each
    raw template and throws on anything else. *)
Definition jsonField (key : string) (j : Json) : option Json :=
  match j with
  | JObj fields => snd <$> List.find (fun kv => String.eqb (fst kv) key) fields
  | _ => None
  end.

Definition sampleParseTemplate (j : Json) : option IFunctionTemplate :=
  match jsonField "id" j, jsonField "language" j with
  | Some (JStr i), Some (JStr l) => Some (mkTemplate i l [])
  | _, _ => None
  end.

Definition sampleParse (raw : Json) : Completion (list IFunctionTemplate) :=
  match raw with
  | JArr items =>
      match mapM sampleParseTemplate items with
      | Some templates => Normal templates
      | None => Throw "TypeError: Cannot read property of undefined"
      end
  | _ => Throw "TypeError: rawTemplates is not iterable"
  end.

Definition sampleParseScriptTemplates (resources templates config : Json)
  : Completion (list IFunctionTemplate) := sampleParse templates.

Definition sampleParseDotnetTemplates (raw : Json) (runtime : string)
  : Completion (list IFunctionTemplate) := sampleParse raw.

Definition rawTemplate (l i : string) : Json :=
  JObj [("id", JStr i); ("language", JStr l)].

(** The JavaScript templates of a feed release: every verified id. *)
Definition sampleRawTemplates : Json :=
  JArr (map (rawTemplate "JavaScript")
          (List.filter (fun i => negb (JsString.includes "CSharp" i)) verifiedV1Templates)).

Definition sampleReadJSON (f : TempFile) : Completion Json :=
  match f with
  | TemplatesJson => Normal sampleRawTemplates
  | ResourcesJson | BindingsJson => Normal (JObj [("en", JObj [])])
  end.

(** A machine without the .NET CLI, on which a feed attempt succeeds. *)
Definition onlineIO : FeedIO := {|
  io_downloadFile := fun _ => Normal tt;
  io_extract := Normal tt;
  io_validateDotnetInstalled := Throw "dotnet: command not found";
  io_dotnetTemplateList := Normal (JArr []);
  io_readJSON := sampleReadJSON;
  io_pathExists := true;
  io_remove := Normal tt
|}.

(** No network: the download fails before the scratch directory exists. *)
Definition offlineIO : FeedIO := {|
  io_downloadFile := fun _ => Throw "getaddrinfo ENOTFOUND";
  io_extract := Normal tt;
  io_validateDotnetInstalled := Throw "dotnet: command not found";
  io_dotnetTemplateList := Normal (JArr []);
  io_readJSON := sampleReadJSON;
  io_pathExists := false;
  io_remove := Normal tt
|}.



Definition sampleRelease (version : string) : Release := {|
  templateApiZip := "https://functionscdn.azureedge.net/public/" +:+ version +:+ "/templates.zip";
  itemTemplates := "https://functionscdn.azureedge.net/public/" +:+ version +:+ "/item.nupkg";
  projectTemplates := "https://functionscdn.azureedge.net/public/" +:+ version +:+ "/project.nupkg"
|}.

Definition sampleFeed : CliFeedJson := {|
  tags := <["v1" := "1.4.0"]> (<["v2" := "2.4.0"]> ∅);
  releases :=
    <["1.4.0" := sampleRelease "1.4.0"]> (<["2.4.0" := sampleRelease "2.4.0"]>
    (<["1.3.0" := sampleRelease "1.3.0"]> (<["2.3.1" := sampleRelease "2.3.1"]> ∅)))
|}.

Definition sampleVersion (runtime : string) : option string :=
  if String.eqb runtime "~1" then Some "1.4.0" else Some "2.4.0".

(** A store filled by an earlier successful run at the current versions. *)
Definition sampleStore : gmap string Json :=
  <["templateVersion-~1" := JStr "1.4.0"]> (
  <["FunctionTemplates" := sampleRawTemplates]> (
  <["FunctionTemplateConfig" := JObj [("bindings", JArr [])]]> (
  <["FunctionTemplateResources" := JObj [("en", JObj [])]]> (
  <["DotnetTemplates" := JArr []]> (
  <["templateVersion-beta" := JStr "2.4.0"]> (
  <["FunctionTemplates.beta" := sampleRawTemplates]> (
  <["FunctionTemplateConfig.beta" := JObj [("bindings", JArr [])]]> (
  <["FunctionTemplateResources.beta" := JObj [("en", JObj [])]]> (
  <["DotnetTemplates.beta" := JArr []]> ∅))))))))).

Definition onlineWorld : World := {|
  w_cliFeedJson := Some sampleFeed;
  w_templateVersion := sampleVersion;
  w_feedIO := fun _ _ => onlineIO
|}.

(** The feed manifest was fetched, but every template download fails. *)
Definition offlineWorld : World := {|
  w_cliFeedJson := Some sampleFeed;
  w_templateVersion := sampleVersion;
  w_feedIO := fun _ _ => offlineIO
|}.

(** The templates parsed from [sampleRawTemplates]. *)
Definition sampleParsed : list IFunctionTemplate :=
  map (fun i => mkTemplate i "JavaScript" [])
    (List.filter (fun i => negb (JsString.includes "CSharp" i)) verifiedV1Templates).


(** * Vocabulary of the properties *)

Section Vocabulary.

Context (K : Constants).
Context (parseScriptTemplates : Json -> Json -> Json -> Completion (list IFunctionTemplate)).
Context (parseDotnetTemplates : Json -> string -> Completion (list IFunctionTemplate)).

(** The runtime a call of [getTemplates] is about: the argument, or its
    default. *)
Definition effectiveRuntime (runtime : option string) : string :=
  default (ProjectRuntime_one K) runtime.

(** The selection of the Java branch. *)
Definition javaSelected (t : IFunctionTemplate) : bool :=
  String.eqb (Template.language t) (ProjectLanguage_JavaScript K)
  && bool_decide (JsString.before_first "-"%char (Template.id t)
                    ∈ ["HttpTrigger"; "BlobTrigger"; "QueueTrigger"; "TimerTrigger"]).

(** The language test of the other branch. *)
Definition sameLanguage (language : string) (t : IFunctionTemplate) : bool :=
  String.eqb (JsString.toLowerCase (Template.language t)) (JsString.toLowerCase language).

(** The five entries written after a successful feed attempt. *)
Definition cacheEntries (runtime templateVersion : string)
    (rawTemplates rawConfig rawResources rawCSharpTemplates : Json)
    (store : gmap string Json) : gmap string Json :=
  <[getRuntimeKey K dotnetTemplatesKey runtime := rawCSharpTemplates]> (
  <[getRuntimeKey K resourcesKey runtime := rawResources]> (
  <[getRuntimeKey K configKey runtime := rawConfig]> (
  <[getRuntimeKey K templatesKey runtime := rawTemplates]> (
  <[versionKey runtime := JStr templateVersion]> store)))).

(** What a completed [try] block of the feed reader establishes. *)
Record FeedSuccess (io : FeedIO) (cliFeedJson : CliFeedJson)
    (templateVersion runtime : string) (templates : list IFunctionTemplate)
    (rawTemplates rawConfig rawResources rawCSharpTemplates : Json) : Prop := {
  fs_downloaded :
    exists release,
      releases cliFeedJson !! templateVersion = Some release
      /\ io_downloadFile io (templateApiZip release) = Normal tt;
  fs_extracted : io_extract io = Normal tt;
  fs_resources : io_readJSON io ResourcesJson = Normal rawResources;
  fs_templates : io_readJSON io TemplatesJson = Normal rawTemplates;
  fs_config : io_readJSON io BindingsJson = Normal rawConfig;
  fs_parsed :
    exists scriptTemplates dotnetTemplates,
      parseScriptTemplates rawResources rawTemplates rawConfig = Normal scriptTemplates
      /\ parseDotnetTemplates rawCSharpTemplates runtime = Normal dotnetTemplates
      /\ templates = scriptTemplates ++ dotnetTemplates;
  fs_verified :
    (verifyTemplatesByRuntime K io templates runtime (initialState ∅)).1 = Normal tt
}.

(** The completion of the [finally] block. *)
Definition cleanup (io : FeedIO) : Completion unit :=
  if io_pathExists io then io_remove io else Normal tt.

End Vocabulary.

(** Some template carries the id. *)
Definition carries (templates : list IFunctionTemplate) (verifiedTemplateId : string) : Prop :=
  exists t, In t templates /\ Template.id t = verifiedTemplateId.

(** The ids checked: all of them when the .NET CLI is installed, those
    without 'CSharp' otherwise. *)
Definition idsToVerify (io : FeedIO) (verifiedTemplates : list string) : list string :=
  match io_validateDotnetInstalled io with
  | Normal _ => verifiedTemplates
  | Throw _ => List.filter (fun id => negb (JsString.includes "CSharp" id)) verifiedTemplates
  end.

(** Fields of the state no reader touches. *)
Definition sameRun (st st' : State) : Prop :=
  templatesMap st' = templatesMap st
  /\ telemetry st' = telemetry st
  /\ attempts st' = attempts st.

Definition tierOrder : list Tier := [MatchingCache; CliFeed; MismatchCache; BackupCliFeed].

(** The tiers of a trace appear in the order of [tierOrder], each at most
    once. *)
Definition inTierOrder (trace : Trace) : Prop := map at_tier trace `sublist_of` tierOrder.

(** Every attempt followed by another one produced no result. *)
Definition laterOnlyAfterNothing (trace : Trace) : Prop :=
  forall before a after,
    trace = before ++ a :: after -> after <> [] -> at_completion a = Normal None.

(** The first non-empty list of templates yielded along a trace. *)
Fixpoint firstNonEmpty (trace : Trace) : Parsed :=
  match trace with
  | [] => None
  | a :: rest =>
      match at_completion a with
      | Normal (Some (t :: l)) => Some (t :: l)
      | _ => firstNonEmpty rest
      end
  end.

(** No attempt yielded the empty list. *)
Definition noEmptyResult (trace : Trace) : Prop :=
  Forall (fun a => at_completion a <> Normal (Some [])) trace.

(** Every attempt of the trace was made for the runtime. *)
Definition forRuntime (runtime : string) (trace : Trace) : Prop :=
  Forall (fun a => at_runtime a = runtime) trace.

(** After a feed attempt at the requested version that yields nothing, the
    stale cache is tried when a store was supplied, and the backup feed is
    tried. *)
Definition feedFailureDegrades (globalState : option Memento) (trace : Trace) : Prop :=
  forall a,
    In a trace -> at_tier a = CliFeed -> at_completion a = Normal None ->
    (is_Some globalState -> Exists (fun b => at_tier b = MismatchCache) trace)
    /\ Exists (fun b => at_tier b = BackupCliFeed) trace.

(** What one run of the callback does to the map being filled. *)
Definition storeResult (runtime : string) (trace : Trace)
    (m : gmap string (list IFunctionTemplate)) : gmap string (list IFunctionTemplate) :=
  match firstNonEmpty trace with
  | Some templates => <[runtime := templates]> m
  | None => m
  end.

(** What the attempts made for one runtime look like. *)
Record TierDiscipline (globalState : option Memento) (runtime : string) (trace : Trace)
  : Prop := {
  td_runtime : forRuntime runtime trace;
  td_order : inTierOrder trace;
  td_later : laterOnlyAfterNothing trace;
  td_nonempty : noEmptyResult trace;
  td_degrades : feedFailureDegrades globalState trace
}.

(** ** The sources of a runtime *)

Section Sources.

Context (K : Constants).
Context (parseScriptTemplates : Json -> Json -> Json -> Completion (list IFunctionTemplate)).
Context (parseDotnetTemplates : Json -> string -> Completion (list IFunctionTemplate)).

(** The completion of a feed attempt. No step of the attempt reads the
    state, so the state it is run from here plays no part. *)
Definition feedOutcome (io : FeedIO) (cliFeedJson : CliFeedJson)
    (templateVersion runtime : string) (globalState : option Memento) : Completion Parsed :=
  (tryGetParsedTemplateDataFromCliFeed K parseScriptTemplates parseDotnetTemplates
     io cliFeedJson templateVersion runtime globalState (initialState ∅)).1.

(** The hard-coded release of the last source. *)
Definition backupVersion (runtime : string) : string :=
  if String.eqb runtime (ProjectRuntime_one K)
  then v1ReleaseVersion K else betaReleaseVersion K.

Definition attemptOf (runtime : string) (t : Tier) (c : Completion Parsed) : Attempt :=
  {| at_runtime := runtime; at_tier := t; at_completion := c |}.

(** The sources that come into question for a runtime, in the order of the
    specification, each with the completion of its attempt: the cache when
    a store is supplied and the version it holds for the runtime is the
    requested one; the feed at the requested version when there is a feed
    and a version; the cache again when a store is supplied; the feed at the
    backup version when there is a feed. [store] is the persisted store when
    the runtime is taken up. An attempt on the cache completes with
    [undefined] whatever the store holds. *)
Definition candidates (w : World) (globalState : option Memento) (store : gmap string Json)
    (runtime : string) : Trace :=
  let templateVersion := w_templateVersion w runtime in
  (match globalState with
   | Some _ =>
       if JsValue.strictEq_string (store !! versionKey runtime) templateVersion
       then [attemptOf runtime MatchingCache (Normal None)] else []
   | None => []
   end)
  ++ (match w_cliFeedJson w, templateVersion with
      | Some cliFeedJson, Some version =>
          if JsString.truthy version
          then [attemptOf runtime CliFeed
                  (feedOutcome (w_feedIO w CliFeed runtime) cliFeedJson version runtime
                     globalState)]
          else []
      | _, _ => []
      end)
  ++ (match globalState with
      | Some _ => [attemptOf runtime MismatchCache (Normal None)]
      | None => []
      end)
  ++ (match w_cliFeedJson w with
      | Some cliFeedJson =>
          [attemptOf runtime BackupCliFeed
             (feedOutcome (w_feedIO w BackupCliFeed runtime) cliFeedJson
                (backupVersion runtime) runtime globalState)]
      | None => []
      end).

End Sources.

(** The attempts actually made among those that come into question: they
    go on as long as each one produces nothing, and end with the first one
    that returns a list or throws. *)
Fixpoint untilResult (trace : Trace) : Trace :=
  match trace with
  | [] => []
  | a :: later =>
      a :: match at_completion a with
           | Normal None => untilResult later
           | _ => []
           end
  end.

(** * Further code of the extension *)

(** ** Computations over any state *)

Definition Eff (S A : Type) : Type := S -> Completion A * S.

Definition eret {S A} (a : A) : Eff S A := fun s => (Normal a, s).

Definition ebind {S A B} (m : Eff S A) (k : A -> Eff S B) : Eff S B :=
  fun s =>
    match m s with
    | (Normal a, s') => k a s'
    | (Throw e, s') => (Throw e, s')
    end.

Definition ethrow {S A} (e : string) : Eff S A := fun s => (Throw e, s).

Definition eawait {S A} (c : Completion A) : Eff S A := fun s => (c, s).

Definition etry_catch {S A} (body : Eff S A) (handler : string -> Eff S A) : Eff S A :=
  fun s =>
    match body s with
    | (Normal a, s') => (Normal a, s')
    | (Throw e, s') => handler e s'
    end.

Notation "x <~ m ;; k" := (ebind m (fun x => k))
  (at level 100, m at next level, right associativity).
Notation "m ;;~ k" := (ebind m (fun _ => k))
  (at level 100, right associativity).

(** ** [tryGetTemplateVersionSetting] *)

(** The item of the warning the user clicks. *)
Inductive VersionChoice := SelectVersion | UseLatest.

(** The user and the settings store during one call: the answer to the
    warning (a dismissed dialog throws), the label picked among the labels
    offered, and whether writing the global setting succeeds. *)
Record VersionUI := {
  ui_showWarningMessage : Completion VersionChoice;
  ui_showQuickPick : list string -> Completion string;
  ui_updateGlobalSetting : string -> Completion unit
}.

(** The [azureFunctions.templateVersion] setting and the telemetry
    properties of the running action. *)
Record SettingsState := {
  templateVersionSetting : option string;
  contextProperties : list (string * string)
}.

Definition setContextProperty (key value : string) : Eff SettingsState unit :=
  fun s => (Normal tt,
            {| templateVersionSetting := templateVersionSetting s;
               contextProperties := contextProperties s ++ [(key, value)] |}).

Definition getFuncExtensionSetting : Eff SettingsState (option string) :=
  fun s => (Normal (templateVersionSetting s), s).

Definition updateGlobalSetting (ui : VersionUI) (value : string) : Eff SettingsState unit :=
  fun s =>
    match ui_updateGlobalSetting ui value with
    | Normal _ =>
        (Normal tt,
         {| templateVersionSetting := Some value; contextProperties := contextProperties s |})
    | Throw e => (Throw e, s)
    end.

(** [cliFeedJson.tags[feedRuntime].release]: a missing tag throws a
    [TypeError]; a property inherited from [Object.prototype] has no
    [release], which reads as [undefined]. *)
Definition tagRelease (cliFeedJson : CliFeedJson) (feedRuntime : string)
  : Eff SettingsState (option string) :=
  match JsObject.get (tags cliFeedJson) feedRuntime with
  | JsObject.Own release => eret (Some release)
  | JsObject.Inherited => eret None
  | JsObject.Missing => ethrow "TypeError: Cannot read property 'release' of undefined"
  end.

(** A value used as a property key: [undefined] is the key 'undefined'. *)
Definition propertyKey (value : option string) : string := default "undefined" value.

(** [Object.keys(cliFeedJson.releases)]; the order of the keys is not
    represented. *)
Definition releaseKeys (cliFeedJson : CliFeedJson) : list string :=
  (map_to_list (releases cliFeedJson)).*1.

Section TemplateVersionSetting.

(** [getFeedRuntime], imported from [../utils/getCliFeedJson]. *)
Context (getFeedRuntime : string -> Completion string).

(** [cliFeedJson.releases] is a plain object: the test
    [!cliFeedJson.releases[templateVersion]] fails for a listed release and
    also for the name of a property that every object inherits. *)
Definition tryGetTemplateVersionSetting (ui : VersionUI) (cliFeedJson : option CliFeedJson)
    (runtime : string) : Eff SettingsState (option string) :=
  feedRuntime <~ eawait (getFeedRuntime runtime) ;;
  userTemplateVersion <~ getFuncExtensionSetting ;;
  etry_catch
    ((match userTemplateVersion with
      | Some v => if JsString.truthy v then setContextProperty "userTemplateVersion" v
                  else eret tt
      | None => eret tt
      end) ;;~
     match cliFeedJson with
     | Some feed =>
         templateVersion <~
           (match userTemplateVersion with
            | Some v => if JsString.truthy v then eret (Some v) else tagRelease feed feedRuntime
            | None => tagRelease feed feedRuntime
            end) ;;
         match JsObject.get (releases feed) (propertyKey templateVersion) with
         | JsObject.Missing =>
             warningInput <~ eawait (ui_showWarningMessage ui) ;;
             match warningInput with
             | SelectVersion =>
                 input <~ eawait (ui_showQuickPick ui (releaseKeys feed)) ;;
                 updateGlobalSetting ui input ;;~
                 eret (Some input)
             | UseLatest =>
                 templateVersion <~ tagRelease feed feedRuntime ;;
                 updateGlobalSetting ui "" ;;~
                 eret templateVersion
             end
         | _ => eret templateVersion
         end
     | None => eret None
     end)
    (fun error =>
       setContextProperty "userTemplateVersion" error ;;~
       eret None).

End TemplateVersionSetting.

(** ** [installFuncCoreTools] *)

(** The [PackageManager] enum; [otherPackageManager] stands for a value
    outside the enum, which reaches the [default] of the [switch], with the
    text the message shows for it. *)
Inductive PackageManager := npm | brew | otherPackageManager (shown : string).

(** The button of the version dialog the user clicks. *)
Inductive VersionButton := ButtonV1 | ButtonV2 | ButtonLearnMore.

(** What surrounds a call of [installFuncCoreTools]: whether
    [process.platform] is [Platform.Windows], the title of
    [DialogResponses.learnMore], the constant [funcPackageName], and whether
    [opn] and [cpUtils.executeCommand] succeed. *)
Record InstallEnv := {
  onWindows : bool;
  learnMoreTitle : string;
  funcPackageName : string;
  env_opn : string -> Completion unit;
  env_executeCommand : list string -> Completion unit
}.

(** The clicks the user has still to make (a dialog shown when none is
    left is dismissed, which throws), and what the call has done so far:
    links opened, output channel shown, command lines run. *)
Record InstallState := {
  clicks : list VersionButton;
  openedLinks : list string;
  outputShown : bool;
  executed : list (list string)
}.

Definition v1 : string := "v1 (.NET Framework)".
Definition v2 : string := "v2 Preview (.NET Standard)".
Definition learnMoreLink : string := "https://aka.ms/AA1tpij".

Section InstallFuncCoreTools.

Context (env : InstallEnv).

Definition buttonTitle (b : VersionButton) : string :=
  match b with
  | ButtonV1 => v1
  | ButtonV2 => v2
  | ButtonLearnMore => learnMoreTitle env
  end.

(** [ext.ui.showWarningMessage(..., v1MsgItm, v2MsgItm, DialogResponses.learnMore)]. *)
Definition showVersionDialog : Eff InstallState VersionButton :=
  fun s =>
    match clicks s with
    | b :: rest =>
        (Normal b,
         {| clicks := rest; openedLinks := openedLinks s; outputShown := outputShown s;
            executed := executed s |})
    | [] => (Throw "UserCancelledError", s)
    end.

Definition opn (link : string) : Eff InstallState unit :=
  fun s =>
    (env_opn env link,
     {| clicks := clicks s; openedLinks := openedLinks s ++ [link];
        outputShown := outputShown s; executed := executed s |}).

Definition outputChannel_show : Eff InstallState unit :=
  fun s =>
    (Normal tt,
     {| clicks := clicks s; openedLinks := openedLinks s; outputShown := true;
        executed := executed s |}).

Definition executeCommand (command : list string) : Eff InstallState unit :=
  fun s =>
    (env_executeCommand env command,
     {| clicks := clicks s; openedLinks := openedLinks s; outputShown := outputShown s;
        executed := executed s ++ [command] |}).

(** The [do ... while] loop, one iteration per dialog; it ends with the
    first title that is not the one of 'Learn more'. The recursion follows
    the clicks the user makes. *)
Fixpoint askRuntimeVersion (fuel : nat) : Eff InstallState string :=
  match fuel with
  | 0 => ethrow "UserCancelledError"
  | S fuel' =>
      button <~ showVersionDialog ;;
      let runtimeVersion := buttonTitle button in
      (if String.eqb runtimeVersion (learnMoreTitle env) then opn learnMoreLink
       else eret tt) ;;~
      if String.eqb runtimeVersion (learnMoreTitle env) then askRuntimeVersion fuel'
      else eret runtimeVersion
  end.

Definition installFuncCoreTools (packageManager : PackageManager)
    (runtimeVersion : option string) : Eff InstallState unit :=
  runtimeVersion <~
    (if negb (onWindows env) then eret v2
     else
       match runtimeVersion with
       | Some version =>
           if JsString.truthy version then eret version
           else fun s => askRuntimeVersion (S (length (clicks s))) s
       | None => fun s => askRuntimeVersion (S (length (clicks s))) s
       end) ;;
  outputChannel_show ;;~
  match packageManager with
  | npm =>
      if String.eqb runtimeVersion v1 then
        executeCommand ["npm"; "install"; "-g"; funcPackageName env]
      else if String.eqb runtimeVersion v2 then
        executeCommand ["npm"; "install"; "-g"; funcPackageName env +:+ "@core";
                        "--unsafe-perm"; "true"]
      else ethrow ("RangeError: Invalid runtime " +:+ dquote +:+ runtimeVersion +:+ dquote +:+ ".")
  | brew =>
      executeCommand ["brew"; "tap"; "azure/functions"] ;;~
      executeCommand ["brew"; "install"; funcPackageName env]
  | otherPackageManager shown =>
      ethrow ("RangeError: Invalid package manager " +:+ dquote +:+ shown +:+ dquote +:+ ".")
  end.

End InstallFuncCoreTools.

(** ** [createFunction]: the settings given by the caller *)

(** [caseSensitiveFunctionSettings], as the list of its keys, in the order
    of [Object.keys], each with its value. *)
Abbreviation SettingsObject := (list (string * option string)).

(** The first statements of [createFunction]: every key is entered in
    lower case; a later key overwrites an earlier one that lower-cases to
    the same string. [functionSettings] is a plain object: a key that
    lower-cases to '__proto__' adds no property to it. *)
Definition lowerCaseSettings (caseSensitiveFunctionSettings : option SettingsObject)
  : gmap string (option string) :=
  match caseSensitiveFunctionSettings with
  | Some entries =>
      fold_left
        (fun functionSettings kv => JsObject.set (JsString.toLowerCase kv.1) kv.2 functionSettings)
        entries ∅
  | None => ∅
  end.

(** The own property [key] of [functionSettings]: an absent key and a key
    holding [undefined] both read as [undefined]. *)
Definition settingOf (functionSettings : gmap string (option string)) (key : string)
  : option string :=
  mjoin (functionSettings !! key).

(** What [functionSettings[key]] and [userSettings[key]] can hold: a string,
    or the object that every object inherits under the name [key]. *)
Inductive SettingValue :=
| StringValue (s : string)
| PrototypeValue (name : string).

(** [functionSettings[key]], where [None] is [undefined]: the own property
    when there is one, or else what [Object.prototype] has under [key]. *)
Definition readSetting (functionSettings : gmap string (option string)) (key : string)
  : option SettingValue :=
  match JsObject.get functionSettings key with
  | JsObject.Own value => StringValue <$> value
  | JsObject.Inherited => Some (PrototypeValue key)
  | JsObject.Missing => None
  end.

(** [settingValue ? settingValue : '']: an object is truthy. *)
Definition orEmpty (settingValue : SettingValue) : SettingValue :=
  match settingValue with
  | StringValue s => if JsString.truthy s then StringValue s else StringValue ""
  | PrototypeValue name => PrototypeValue name
  end.

(** The loop over [template.userPromptedSettings]. The state is the list of
    the settings prompted so far; [promptForSetting] may throw (a dismissed
    prompt). [userSettings] is a plain object too. *)
Fixpoint collectUserSettings (promptForSetting : string -> Completion string)
    (functionSettings : gmap string (option string)) (settings : list string)
    (userSettings : gmap string SettingValue)
  : Eff (list string) (gmap string SettingValue) :=
  match settings with
  | [] => eret userSettings
  | setting :: rest =>
      settingValue <~
        (match readSetting functionSettings (JsString.toLowerCase setting) with
         | Some value => eret value
         | None =>
             fun prompted =>
               (match promptForSetting setting with
                | Normal typed => Normal (StringValue typed)
                | Throw e => Throw e
                end,
                prompted ++ [setting])
         end) ;;
      collectUserSettings promptForSetting functionSettings rest
        (JsObject.set setting (orEmpty settingValue) userSettings)
  end.

Definition templateNotFound (language runtime templateId : string) : string :=
  "Could not find template with language " +:+ dquote +:+ language +:+ dquote
  +:+ ", runtime " +:+ dquote +:+ runtime +:+ dquote
  +:+ ", and id " +:+ dquote +:+ templateId +:+ dquote +:+ ".".

(** The choice of the template in [createFunction]. Without a [templateId]
    (it is [undefined] or empty) the template is the one the user picks:
    [promptForTemplate] stands for the awaited [getTemplateFilter] and
    [promptForTemplate]. With one, the templates of the language and
    runtime, with the filter [All], are searched for the id. *)
Definition createFunction_findTemplate (K : Constants) (templateData : TemplateData)
    (promptForTemplate : Completion IFunctionTemplate)
    (language runtime : string) (templateId : option string)
  : Completion IFunctionTemplate :=
  if negb (truthy_opt templateId) then promptForTemplate
  else
    let templateId := default "" templateId in
    match (getTemplates K templateData language (Some runtime)
             (Some (TemplateFilter_All K))).1 with
    | Normal templates =>
        match Array_find (fun t => String.eqb (Template.id t) templateId) templates with
        | Some foundTemplate => Normal foundTemplate
        | None => Throw (templateNotFound language runtime templateId)
        end
    | Throw e => Throw e
    end.

(** ** [tryGetCsprojFile] *)

Module JsStringMore.

(** [s.endsWith(suffix)]: some tail of [s] is [suffix]. *)
Fixpoint endsWith (suffix s : string) : bool :=
  String.eqb s suffix ||
  match s with
  | EmptyString => false
  | String _ r => endsWith suffix r
  end.

End JsStringMore.

(** [fse.readdir] is given by its completion. *)
Definition tryGetCsprojFile (readdir : Completion (list string)) : Completion (option string) :=
  match readdir with
  | Normal files =>
      let projectFiles := List.filter (fun f => JsStringMore.endsWith ".csproj" f) files in
      Normal (if Nat.eqb (length projectFiles) 1 then nth_error projectFiles 0 else None)
  | Throw e => Throw e
  end.

(** ** [validateFuncCoreToolsIsLatest] *)

(** The [dist-tags] of the npm registry, as [JSON.parse] gives them; a tag
    that is absent reads as [undefined]. *)
Module DistTags.
Record t := { core : option string; docker : option string; latest : option string }.
End DistTags.

(** The items of the warning about outdated tools. *)
Inductive ToolsWarningItem := ItemUpdate | ItemLearnMore | ItemDontWarnAgain.

(** The functions of other modules and packages the check calls:
    [getLocalFuncCoreToolsVersion], [getProjectRuntimeFromVersion],
    [getFuncPackageManager], [request], the result of [brewInfo.match] with
    the version pattern, [JSON.parse] of the npm answer, [semver.gt], [opn],
    [updateFuncCoreTools], whether [updateGlobalSetting] succeeds, and what
    [callWithTelemetryAndErrorHandling] writes into the properties of the
    context for an error. *)
Record ToolsEnv := {
  te_getLocalFuncCoreToolsVersion : Completion (option string);
  te_getProjectRuntimeFromVersion : string -> option string;
  te_getFuncPackageManager : Completion (option PackageManager);
  te_request : string -> Completion string;
  te_brewVersionMatch : string -> option (list string);
  te_parseDistTags : string -> Completion DistTags.t;
  te_semver_gt : string -> string -> Completion bool;
  te_opn : string -> Completion unit;
  te_updateFuncCoreTools : option PackageManager -> string -> Completion unit;
  te_updateGlobalSetting : Completion unit;
  te_recordError : string -> list (string * string) -> list (string * string)
}.

Inductive ToolsEvent :=
| Requested (uri : string)
| Warned (message : string) (updateOffered : bool)
| Opened (link : string)
| UpdateFuncCoreTools (packageManager : option PackageManager) (projectRuntime : string).

(** The setting 'showCoreToolsWarning', the properties of the action
    context, the items the user has still to click (a warning shown when
    none is left is dismissed), and what the check has done so far. *)
Record ToolsState := {
  showCoreToolsWarning : bool;
  toolsProperties : list (string * string);
  toolsClicks : list ToolsWarningItem;
  toolsEvents : list ToolsEvent
}.

Definition set_showCoreToolsWarning (b : bool) (s : ToolsState) : ToolsState :=
  {| showCoreToolsWarning := b; toolsProperties := toolsProperties s;
     toolsClicks := toolsClicks s; toolsEvents := toolsEvents s |}.

Definition set_toolsProperties (f : list (string * string) -> list (string * string))
    (s : ToolsState) : ToolsState :=
  {| showCoreToolsWarning := showCoreToolsWarning s; toolsProperties := f (toolsProperties s);
     toolsClicks := toolsClicks s; toolsEvents := toolsEvents s |}.

Definition set_toolsClicks (l : list ToolsWarningItem) (s : ToolsState) : ToolsState :=
  {| showCoreToolsWarning := showCoreToolsWarning s; toolsProperties := toolsProperties s;
     toolsClicks := l; toolsEvents := toolsEvents s |}.

Definition logEvent (e : ToolsEvent) (s : ToolsState) : ToolsState :=
  {| showCoreToolsWarning := showCoreToolsWarning s; toolsProperties := toolsProperties s;
     toolsClicks := toolsClicks s; toolsEvents := toolsEvents s ++ [e] |}.

Definition brewRegistryUri : string := "https://aka.ms/AA1t7go".
Definition npmRegistryUri : string := "https://aka.ms/W2mvv3".
Definition outdatedLink : string := "https://aka.ms/azFuncOutdated".

Section ValidateFuncCoreToolsIsLatest.

Context (K : Constants) (env : ToolsEnv).

Definition setToolsProperty (key value : string) : Eff ToolsState unit :=
  fun s => (Normal tt, set_toolsProperties (fun ps => ps ++ [(key, value)]) s).

Definition request (uri : string) : Eff ToolsState string :=
  fun s => (te_request env uri, logEvent (Requested uri) s).

Definition getNewestFunctionRuntimeVersion (packageManager : option PackageManager)
    (projectRuntime : string) : Eff ToolsState (option string) :=
  etry_catch
    (match packageManager with
     | Some brew =>
         brewInfo <~ request brewRegistryUri ;;
         match te_brewVersionMatch env brewInfo with
         | Some matches =>
             if Nat.ltb 1 (List.length matches) then eret (nth_error matches 1) else eret None
         | None => eret None
         end
     | _ =>
         response <~ request npmRegistryUri ;;
         distTags <~ eawait (te_parseDistTags env response) ;;
         if String.eqb projectRuntime (ProjectRuntime_one K) then eret (DistTags.latest distTags)
         else if String.eqb projectRuntime (ProjectRuntime_beta K) then
           eret (DistTags.core distTags)
         else eret None
     end)
    (fun error => setToolsProperty "latestRuntimeError" error ;;~ eret None).

Definition outdatedMessage (localVersion newestVersion projectRuntime : string) : string :=
  let message :=
    "Update your Azure Functions Core Tools (" +:+ localVersion +:+ ") to the latest ("
    +:+ newestVersion +:+ ") for the best experience." in
  if String.eqb projectRuntime (ProjectRuntime_beta K) then
    message +:+ " "
    +:+ "v2 is in preview and may have breaking changes (which are automatically applied to Azure)."
  else message.

(** [ext.ui.showWarningMessage]: 'Update' is among the items when a
    package manager was found. *)
Definition showOutdatedWarning (message : string) (updateOffered : bool)
  : Eff ToolsState ToolsWarningItem :=
  fun s =>
    match toolsClicks s with
    | item :: rest => (Normal item, set_toolsClicks rest (logEvent (Warned message updateOffered) s))
    | [] => (Throw "UserCancelledError", logEvent (Warned message updateOffered) s)
    end.

Definition updateShowCoreToolsWarning (value : bool) : Eff ToolsState unit :=
  fun s =>
    match te_updateGlobalSetting env with
    | Normal _ => (Normal tt, set_showCoreToolsWarning value s)
    | Throw e => (Throw e, s)
    end.

(** The [do ... while] loop: one iteration per warning shown. *)
Fixpoint warnUntilAnswered (message : string) (packageManager : option PackageManager)
    (projectRuntime : string) (fuel : nat) : Eff ToolsState unit :=
  match fuel with
  | 0 => ethrow "UserCancelledError"
  | S fuel' =>
      result <~ showOutdatedWarning message (bool_decide (packageManager <> None)) ;;
      match result with
      | ItemLearnMore =>
          (fun s => (te_opn env outdatedLink, logEvent (Opened outdatedLink) s)) ;;~
          warnUntilAnswered message packageManager projectRuntime fuel'
      | ItemUpdate =>
          fun s =>
            (te_updateFuncCoreTools env packageManager projectRuntime,
             logEvent (UpdateFuncCoreTools packageManager projectRuntime) s)
      | ItemDontWarnAgain => updateShowCoreToolsWarning false
      end
  end.

Definition validateFuncCoreToolsIsLatest_callback : Eff ToolsState unit :=
  setToolsProperty "isActivationEvent" "true" ;;~
  fun s0 =>
    (if showCoreToolsWarning s0 then
       localVersion <~ eawait (te_getLocalFuncCoreToolsVersion env) ;;
       if truthy_opt localVersion then
         let localVersion := default "" localVersion in
         setToolsProperty "localVersion" localVersion ;;~
         match te_getProjectRuntimeFromVersion env localVersion with
         | None => eret tt
         | Some projectRuntime =>
             packageManager <~ eawait (te_getFuncPackageManager env) ;;
             newestVersion <~ getNewestFunctionRuntimeVersion packageManager projectRuntime ;;
             if truthy_opt newestVersion then
               let newestVersion := default "" newestVersion in
               outdated <~ eawait (te_semver_gt env newestVersion localVersion) ;;
               if outdated : bool then
                 fun s =>
                   warnUntilAnswered
                     (outdatedMessage localVersion newestVersion projectRuntime)
                     packageManager projectRuntime (S (length (toolsClicks s))) s
               else eret tt
             else eret tt
         end
       else eret tt
     else eret tt) s0.

(** [callWithTelemetryAndErrorHandling]: the callback runs on a fresh
    context; what it throws is recorded and not thrown again. *)
Definition validateFuncCoreToolsIsLatest : Eff ToolsState unit :=
  fun s =>
    let '(c, s') := validateFuncCoreToolsIsLatest_callback (set_toolsProperties (fun _ => []) s) in
    (Normal tt,
     match c with
     | Normal _ => s'
     | Throw e => set_toolsProperties (te_recordError env e) s'
     end).

End ValidateFuncCoreToolsIsLatest.

(** ** [CSharpProjectCreator]: [confirmOverwriteExisting] and [addNonVSCodeFiles] *)

(** The constants [gitignoreFileName], [localSettingsFileName] and
    [hostFileName]; [fse.pathExists] by the name of the file in the folder
    of the project; [ui.showWarningMessage] by its message (it throws when
    the user cancels); [tryGetLocalRuntimeVersion], [promptForProjectRuntime]
    and [executeDotnetTemplateCommand]. *)
Record ProjectEnv := {
  gitignoreFileName : string;
  localSettingsFileName : string;
  hostFileName : string;
  pe_pathExists : string -> bool;
  pe_showWarningMessage : string -> Completion unit;
  pe_tryGetLocalRuntimeVersion : Completion (option string);
  pe_promptForProjectRuntime : Completion string;
  pe_executeDotnetTemplateCommand : string -> list string -> Completion unit
}.

Inductive ProjectEvent :=
| AskedToOverwrite (message : string)
| DotnetTemplateCommand (runtime : string) (args : list string).

Section CSharpProjectCreator.

Context (K : Constants) (env : ProjectEnv).

Definition filesToCheck (csProjName : string) : list string :=
  [csProjName; gitignoreFileName env; localSettingsFileName env; hostFileName env].

Definition overwriteExistingFiles (existingFiles : list string) : string :=
  "Overwrite existing files?: " +:+ String.concat ", " existingFiles.

Definition confirmOverwriteExisting (csProjName : string) : Eff (list ProjectEvent) bool :=
  let existingFiles := List.filter (pe_pathExists env) (filesToCheck csProjName) in
  if Nat.ltb 0 (List.length existingFiles) then
    (fun events =>
       (pe_showWarningMessage env (overwriteExistingFiles existingFiles),
        events ++ [AskedToOverwrite (overwriteExistingFiles existingFiles)])) ;;~
    eret true
  else eret false.

(** [projectName] is [path.basename(this.functionAppPath)]. *)
Definition addNonVSCodeFiles (projectName : string) : Eff (list ProjectEvent) unit :=
  let csProjName := projectName +:+ ".csproj" in
  confirmOverwriteExisting csProjName ;;~
  localRuntime <~ eawait (pe_tryGetLocalRuntimeVersion env) ;;
  runtime <~
    (if truthy_opt localRuntime then eret (default "" localRuntime)
     else eawait (pe_promptForProjectRuntime env)) ;;
  let identity :=
    if String.eqb runtime (ProjectRuntime_one K)
    then "Microsoft.AzureFunctions.ProjectTemplate.CSharp.1.x"
    else "Microsoft.AzureFunctions.ProjectTemplate.CSharp.2.x" in
  let args := ["create"; "--identity"; identity; "--arg:name"; projectName] in
  fun events =>
    (pe_executeDotnetTemplateCommand env runtime args,
     events ++ [DotnetTemplateCommand runtime args]).

End CSharpProjectCreator.

(** ** Vocabulary of the further properties *)

(** The version [tryGetTemplateVersionSetting] starts from: the user's
    setting when it is a non-empty string, the release tagged for the
    runtime otherwise. *)
Definition requestedVersion (feed : CliFeedJson) (feedRuntime : string)
    (setting : option string) : option string :=
  match setting with
  | Some v => if JsString.truthy v then Some v else tags feed !! feedRuntime
  | None => tags feed !! feedRuntime
  end.

(** The same, with what the tag lookup does when the feed has no such tag:
    it throws, or yields [undefined] for an inherited name. *)
Definition startVersion (feed : CliFeedJson) (feedRuntime : string)
    (setting : option string) : Completion (option string) :=
  if truthy_opt setting then Normal setting
  else
    match JsObject.get (tags feed) feedRuntime with
    | JsObject.Own release => Normal (Some release)
    | JsObject.Inherited => Normal None
    | JsObject.Missing => Throw "TypeError: Cannot read property 'release' of undefined"
    end.

(** The three ways a version is resolved, with the setting each one leaves:
    the version the call starts from passes the test on the releases; it
    does not and the user picks another one; it does not and the user asks
    for the latest. *)
Inductive Resolution (ui : VersionUI) (feed : CliFeedJson) (feedRuntime : string)
    (setting : option string) : string -> option string -> Prop :=
| resolution_listed version :
    startVersion feed feedRuntime setting = Normal (Some version) ->
    JsObject.get (releases feed) version <> JsObject.Missing ->
    Resolution ui feed feedRuntime setting version setting
| resolution_picked requested version :
    startVersion feed feedRuntime setting = Normal requested ->
    JsObject.get (releases feed) (propertyKey requested) = JsObject.Missing ->
    ui_showWarningMessage ui = Normal SelectVersion ->
    ui_showQuickPick ui (releaseKeys feed) = Normal version ->
    ui_updateGlobalSetting ui version = Normal tt ->
    Resolution ui feed feedRuntime setting version (Some version)
| resolution_latest requested version :
    startVersion feed feedRuntime setting = Normal requested ->
    JsObject.get (releases feed) (propertyKey requested) = JsObject.Missing ->
    ui_showWarningMessage ui = Normal UseLatest ->
    tags feed !! feedRuntime = Some version ->
    ui_updateGlobalSetting ui "" = Normal tt ->
    Resolution ui feed feedRuntime setting version (Some "").

(** The quick pick returns one of the labels it was given. *)
Definition picksOffered (ui : VersionUI) : Prop :=
  forall labels label, ui_showQuickPick ui labels = Normal label -> label ∈ labels.

(** The keys of the persisted store that belong to a runtime. *)
Definition cacheKeys (K : Constants) (runtime : string) : list string :=
  [ versionKey runtime;
    getRuntimeKey K templatesKey runtime;
    getRuntimeKey K configKey runtime;
    getRuntimeKey K resourcesKey runtime;
    getRuntimeKey K dotnetTemplatesKey runtime ].

(** The string has no occurrence of the character. *)
Fixpoint lacks (c : ascii) (s : string) : Prop :=
  match s with
  | EmptyString => True
  | String d r => d <> c /\ lacks c r
  end.

(** The files of a feed release and the output of the dotnet 'list' command
    hold objects or arrays (truthy values). *)
Definition feedFilesTruthy (io : FeedIO) : Prop :=
  (forall f j, io_readJSON io f = Normal j -> JsValue.truthy (Some j) = true)
  /\ (forall j, io_dotnetTemplateList io = Normal j -> JsValue.truthy (Some j) = true).

(** The verified ids that carry no 'CSharp'; they are required whether or
    not the .NET CLI is installed, for either generation. *)
Definition commonVerifiedIds : list string :=
  ["BlobTrigger-JavaScript"; "HttpTrigger-JavaScript"; "QueueTrigger-JavaScript";
   "TimerTrigger-JavaScript"].

(** The feed manifest could not be fetched. *)
Definition noFeedWorld : World := {|
  w_cliFeedJson := None;
  w_templateVersion := fun _ => None;
  w_feedIO := fun _ _ => offlineIO
|}.

(** Sample inputs of [tryGetTemplateVersionSetting]. *)
Definition sampleGetFeedRuntime (runtime : string) : Completion string :=
  if String.eqb runtime "~1" then Normal "v1"
  else if String.eqb runtime "beta" then Normal "v2"
  else Throw "RangeError: Invalid runtime".

Definition useLatestUI : VersionUI := {|
  ui_showWarningMessage := Normal UseLatest;
  ui_showQuickPick := fun labels => Throw "UserCancelledError";
  ui_updateGlobalSetting := fun _ => Normal tt
|}.

Definition dismissingUI : VersionUI := {|
  ui_showWarningMessage := Throw "UserCancelledError";
  ui_showQuickPick := fun labels => Throw "UserCancelledError";
  ui_updateGlobalSetting := fun _ => Normal tt
|}.

(** ** Vocabulary of the properties of the further commands *)

(** The state after [n] rounds of 'Learn more' and one more click. *)
Definition afterLearnMore (n : nat) (rest : list VersionButton) (s : InstallState)
  : InstallState :=
  {| clicks := rest; openedLinks := openedLinks s ++ replicate n learnMoreLink;
     outputShown := outputShown s; executed := executed s |}.

(** The command lines [installFuncCoreTools] can run. *)
Definition npmInstallV1 (env : InstallEnv) : list string :=
  ["npm"; "install"; "-g"; funcPackageName env].
Definition npmInstallV2 (env : InstallEnv) : list string :=
  ["npm"; "install"; "-g"; funcPackageName env +:+ "@core"; "--unsafe-perm"; "true"].
Definition brewTap : list string := ["brew"; "tap"; "azure/functions"].
Definition brewInstall (env : InstallEnv) : list string :=
  ["brew"; "install"; funcPackageName env].

(** Whether [functionSettings] has a value for the setting (one given by
    the caller, or an inherited one), and the value the loop of
    [createFunction] stores for it. *)
Definition settingGiven (functionSettings : gmap string (option string)) (setting : string)
  : bool :=
  match readSetting functionSettings (JsString.toLowerCase setting) with
  | Some _ => true
  | None => false
  end.

Definition valueFor (promptForSetting : string -> Completion string)
    (functionSettings : gmap string (option string)) (setting : string)
  : Completion SettingValue :=
  match readSetting functionSettings (JsString.toLowerCase setting) with
  | Some value => Normal value
  | None =>
      match promptForSetting setting with
      | Normal typed => Normal (StringValue typed)
      | Throw e => Throw e
      end
  end.

(** The templates [createFunction] accepts for a given id. *)
Definition creatable (K : Constants) (language templateId : string) (t : IFunctionTemplate)
  : bool :=
  String.eqb (Template.id t) templateId
  && (if String.eqb language (ProjectLanguage_Java K) then javaSelected K t
      else sameLanguage language t).

(** [file] is [stem] followed by [extension]. *)
Definition hasExtension (extension file : string) : Prop :=
  exists stem, file = stem +:+ extension.

(** What one run of the warning loop, from [s] to [s'], can have done. *)
Definition WarningLoop (env : ToolsEnv) (packageManager : option PackageManager)
    (projectRuntime : string) (s s' : ToolsState) : Prop :=
  exists new,
    toolsEvents s' = toolsEvents s ++ new
    /\ (forall uri, Requested uri ∉ new)
    /\ (forall pm rt, UpdateFuncCoreTools pm rt ∈ new ->
          pm = packageManager /\ rt = projectRuntime /\ ItemUpdate ∈ toolsClicks s)
    /\ (showCoreToolsWarning s' <> showCoreToolsWarning s ->
          showCoreToolsWarning s' = false
          /\ ItemDontWarnAgain ∈ toolsClicks s
          /\ te_updateGlobalSetting env = Normal tt).

(** The three ways a check can go: nothing is asked of the registry; the
    registry is asked and no warning follows; the tools are outdated and the
    warning is shown. *)
Inductive CheckOutcome (env : ToolsEnv) (s s' : ToolsState) : Prop :=
| check_quiet :
    toolsEvents s' = toolsEvents s ->
    toolsClicks s' = toolsClicks s ->
    showCoreToolsWarning s' = showCoreToolsWarning s ->
    CheckOutcome env s s'
| check_requested uri :
    showCoreToolsWarning s = true ->
    toolsEvents s' = toolsEvents s ++ [Requested uri] ->
    toolsClicks s' = toolsClicks s ->
    showCoreToolsWarning s' = showCoreToolsWarning s ->
    CheckOutcome env s s'
| check_warned uri localVersion newestVersion projectRuntime packageManager s1 :
    showCoreToolsWarning s = true ->
    te_getLocalFuncCoreToolsVersion env = Normal (Some localVersion) ->
    te_getProjectRuntimeFromVersion env localVersion = Some projectRuntime ->
    te_getFuncPackageManager env = Normal packageManager ->
    (exists response, te_request env uri = Normal response) ->
    te_semver_gt env newestVersion localVersion = Normal true ->
    toolsEvents s1 = toolsEvents s ++ [Requested uri] ->
    toolsClicks s1 = toolsClicks s ->
    showCoreToolsWarning s1 = true ->
    WarningLoop env packageManager projectRuntime s1 s' ->
    CheckOutcome env s s'.

(** The files of a new C# project that exist already. *)
Definition existingProjectFiles (env : ProjectEnv) (projectName : string) : list string :=
  List.filter (pe_pathExists env) (filesToCheck env (projectName +:+ ".csproj")).

(** Sample inputs of the further commands. *)

Definition sampleInstallEnv : InstallEnv :=
  {| onWindows := true;
     learnMoreTitle := "Learn more";
     funcPackageName := "azure-functions-core-tools";
     env_opn := fun _ => Normal tt;
     env_executeCommand := fun _ => Normal tt |}.

Definition installStart (userClicks : list VersionButton) : InstallState :=
  {| clicks := userClicks; openedLinks := []; outputShown := false; executed := [] |}.

Definition sampleSettings : SettingsObject :=
  [("Name", Some "HttpTrigger1"); ("AuthLevel", Some "function"); ("Route", None)].

Definition samplePrompt (setting : string) : Completion string :=
  if String.eqb setting "connection" then Throw "UserCancelledError" else Normal "typed".

Definition sampleToolsEnv : ToolsEnv :=
  {| te_getLocalFuncCoreToolsVersion := Normal (Some "2.0.1");
     te_getProjectRuntimeFromVersion := fun _ => Some "beta";
     te_getFuncPackageManager := Normal (Some npm);
     te_request := fun _ => Normal "dist-tags";
     te_brewVersionMatch := fun _ => None;
     te_parseDistTags := fun _ =>
       Normal {| DistTags.core := Some "2.4.0"; DistTags.docker := None;
                 DistTags.latest := Some "1.4.0" |};
     te_semver_gt := fun _ _ => Normal true;
     te_opn := fun _ => Normal tt;
     te_updateFuncCoreTools := fun _ _ => Normal tt;
     te_updateGlobalSetting := Normal tt;
     te_recordError := fun e ps => ps ++ [("result", "Failed"); ("errorMessage", e)] |}.

Definition offlineToolsEnv : ToolsEnv :=
  {| te_getLocalFuncCoreToolsVersion := Normal (Some "2.0.1");
     te_getProjectRuntimeFromVersion := fun _ => Some "beta";
     te_getFuncPackageManager := Normal (Some npm);
     te_request := fun _ => Throw "getaddrinfo ENOTFOUND";
     te_brewVersionMatch := fun _ => None;
     te_parseDistTags := fun _ => Throw "Unexpected end of JSON input";
     te_semver_gt := fun _ _ => Normal true;
     te_opn := fun _ => Normal tt;
     te_updateFuncCoreTools := fun _ _ => Normal tt;
     te_updateGlobalSetting := Normal tt;
     te_recordError := fun e ps => ps ++ [("result", "Failed"); ("errorMessage", e)] |}.

Definition toolsStart (userClicks : list ToolsWarningItem) : ToolsState :=
  {| showCoreToolsWarning := true; toolsProperties := []; toolsClicks := userClicks;
     toolsEvents := [] |}.

Definition sampleProjectEnv : ProjectEnv :=
  {| gitignoreFileName := ".gitignore";
     localSettingsFileName := "local.settings.json";
     hostFileName := "host.json";
     pe_pathExists := fun f => String.eqb f "host.json";
     pe_showWarningMessage := fun _ => Normal tt;
     pe_tryGetLocalRuntimeVersion := Normal (Some "beta");
     pe_promptForProjectRuntime := Normal "~1";
     pe_executeDotnetTemplateCommand := fun _ _ => Normal tt |}.

(** * Properties *)

(** ** String and array primitives *)

Lemma split_not_nil sep s : JsString.split sep s <> [].
Proof.
  destruct s as [|c r]; simpl; [discriminate|].
  destruct (Ascii.eqb c sep); [discriminate|].
  destruct (JsString.split sep r); discriminate.
Qed.

Lemma split_hd sep s : hd EmptyString (JsString.split sep s) = JsString.before_first sep s.
Proof.
  induction s as [|c r IH]; simpl; [reflexivity|].
  destruct (Ascii.eqb c sep); [reflexivity|].
  pose proof (split_not_nil sep r) as Hne.
  destruct (JsString.split sep r) as [|h t]; [congruence|].
  simpl in *. by rewrite IH.
Qed.

Lemma removeLanguageFromId_before_first i :
  removeLanguageFromId i = JsString.before_first "-"%char i.
Proof. apply split_hd. Qed.

Lemma truthy_nonempty s : JsString.truthy s = true <-> s <> "".
Proof.
  unfold JsString.truthy. rewrite negb_true_iff.
  destruct (String.eqb_spec s ""); split; congruence.
Qed.

(** On a list without the empty string, the truthiness of what [find]
    returns is membership. *)
Lemma find_truthy_In (x : string) (l : list string) :
  Forall (fun s => s <> "") l ->
  truthy_opt (Array_find (fun vt => String.eqb vt x) l) = true <-> In x l.
Proof.
  unfold Array_find. induction 1 as [|y l Hy _ IH]; simpl.
  - split; [discriminate | tauto].
  - destruct (String.eqb_spec y x) as [->|Hne]; simpl.
    + rewrite truthy_nonempty. tauto.
    + rewrite IH. split; [tauto | intros [?|?]; congruence].
Qed.

Lemma verifiedV1_nonempty_strings : Forall (fun s => s <> "") verifiedV1Templates.
Proof. unfold verifiedV1Templates. repeat constructor; discriminate. Qed.

Lemma verifiedV2_nonempty_strings : Forall (fun s => s <> "") verifiedV2Templates.
Proof. unfold verifiedV2Templates. repeat constructor; discriminate. Qed.

Lemma verifiedJava_nonempty_strings : Forall (fun s => s <> "") verifiedJavaTemplates.
Proof. unfold verifiedJavaTemplates. repeat constructor; discriminate. Qed.

Lemma find_truthy_bool (x : string) (l : list string) :
  Forall (fun s => s <> "") l ->
  truthy_opt (Array_find (fun vt => String.eqb vt x) l) = bool_decide (x ∈ l).
Proof.
  intros Hl. apply eq_true_iff_eq. rewrite find_truthy_In by done.
  by rewrite bool_decide_eq_true, list_elem_of_In.
Qed.

Lemma filter_ext_in {A} (p q : A -> bool) (l : list A) :
  (forall x, In x l -> p x = q x) -> List.filter p l = List.filter q l.
Proof.
  induction l as [|a l IH]; simpl; intros H; [reflexivity|].
  rewrite (H a) by auto. rewrite IH by auto. reflexivity.
Qed.

Lemma filter_filter {A} (p q : A -> bool) (l : list A) :
  List.filter q (List.filter p l) = List.filter (fun x => p x && q x) l.
Proof.
  induction l as [|a l IH]; simpl; [reflexivity|].
  destruct (p a); simpl; [destruct (q a)|]; by rewrite IH.
Qed.

Lemma filter_sublist {A} (p : A -> bool) (l : list A) : List.filter p l `sublist_of` l.
Proof.
  induction l as [|a l IH]; simpl; [constructor|].
  destruct (p a); by constructor.
Qed.

(** ** [TemplateData.getTemplates] *)

Section GetTemplates.

Context (K : Constants).

Lemma get_own {A} (own : gmap string A) key a :
  own !! key = Some a -> JsObject.get own key = JsObject.Own a.
Proof. unfold JsObject.get. by intros ->. Qed.

Lemma get_not_own {A} (own : gmap string A) key :
  own !! key = None ->
  JsObject.get own key
  = if bool_decide (key ∈ JsObject.prototypeNames) then JsObject.Inherited
    else JsObject.Missing.
Proof. unfold JsObject.get. by intros ->. Qed.

Lemma get_own_inv {A} (own : gmap string A) key a :
  JsObject.get own key = JsObject.Own a -> own !! key = Some a.
Proof.
  unfold JsObject.get. destruct (own !! key); [congruence|].
  by destruct (bool_decide _).
Qed.

Lemma getTemplates_missing this language runtime templateFilter :
  JsObject.get (_templatesMap this) (effectiveRuntime K runtime) = JsObject.Missing ->
  getTemplates K this language runtime templateFilter = (Throw (_noInternetErrMsg this), this).
Proof. unfold getTemplates, effectiveRuntime. by intros ->. Qed.

Lemma getTemplates_inherited this language runtime templateFilter :
  JsObject.get (_templatesMap this) (effectiveRuntime K runtime) = JsObject.Inherited ->
  getTemplates K this language runtime templateFilter = (Throw filterIsNotAFunction, this).
Proof. unfold getTemplates, effectiveRuntime. by intros ->. Qed.

Lemma getTemplates_java this runtime templateFilter templates :
  _templatesMap this !! effectiveRuntime K runtime = Some templates ->
  getTemplates K this (ProjectLanguage_Java K) runtime templateFilter
  = (Normal (List.filter (javaSelected K) templates), this).
Proof.
  unfold getTemplates, effectiveRuntime. intros ->%get_own.
  rewrite String.eqb_refl. cbv zeta. rewrite filter_filter.
  do 2 f_equal. apply filter_ext_in. intros t _. unfold javaSelected. f_equal.
  rewrite removeLanguageFromId_before_first.
  apply (find_truthy_bool _ _ verifiedJava_nonempty_strings).
Qed.

Lemma getTemplates_frame this language runtime templateFilter :
  (getTemplates K this language runtime templateFilter).2 = this.
Proof.
  unfold getTemplates. destruct (JsObject.get _ _); [|reflexivity..].
  destruct (String.eqb language _); reflexivity.
Qed.

Lemma getTemplates_sublist this language runtime templateFilter result :
  (getTemplates K this language runtime templateFilter).1 = Normal result ->
  exists templates,
    _templatesMap this !! effectiveRuntime K runtime = Some templates
    /\ result `sublist_of` templates.
Proof.
  unfold getTemplates, effectiveRuntime.
  destruct (JsObject.get _ _) as [templates| |] eqn:Hget; [|discriminate..].
  intros H. exists templates. split; [by apply get_own_inv|].
  destruct (String.eqb language _); simpl in H.
  - injection H as <-. etrans; apply filter_sublist.
  - destruct templateFilter as [f|]; [destruct (String.eqb f _); [|destruct (String.eqb f _)]|];
      injection H as <-; repeat (etrans; [apply filter_sublist|]); done.
Qed.

Lemma getTemplates_other this language runtime templateFilter templates :
  language <> ProjectLanguage_Java K ->
  _templatesMap this !! effectiveRuntime K runtime = Some templates ->
  exists result,
    (getTemplates K this language runtime templateFilter).1 = Normal result
    /\ result `sublist_of` List.filter (sameLanguage language) templates
    /\ (templateFilter = Some (TemplateFilter_All K) ->
        result = List.filter (sameLanguage language) templates).
Proof.
  intros Hlang Hmap. unfold getTemplates. fold (effectiveRuntime K runtime).
  rewrite (get_own _ _ _ Hmap).
  destruct (String.eqb_spec language (ProjectLanguage_Java K)) as [|_]; [done|].
  cbv zeta. fold (sameLanguage language).
  eexists. split; [reflexivity|]. split.
  - destruct templateFilter as [f|];
      [destruct (String.eqb f _); [|destruct (String.eqb f _)]|];
      first [done | apply filter_sublist].
  - intros ->. by rewrite String.eqb_refl.
Qed.

(** The verified branch of the [switch], for either list of verified ids. *)
Lemma getTemplates_verified this language runtime templateFilter templates :
  language <> ProjectLanguage_Java K ->
  templateFilter <> Some (TemplateFilter_All K) ->
  templateFilter <> Some (TemplateFilter_Core K) ->
  _templatesMap this !! effectiveRuntime K runtime = Some templates ->
  (getTemplates K this language runtime templateFilter).1
  = Normal
      (List.filter
         (fun t => sameLanguage language t
                   && bool_decide
                        (Template.id t ∈
                           if String.eqb (effectiveRuntime K runtime) (ProjectRuntime_one K)
                           then verifiedV1Templates else verifiedV2Templates))
         templates).
Proof.
  intros Hlang HAll HCore Hmap. unfold getTemplates. fold (effectiveRuntime K runtime).
  rewrite (get_own _ _ _ Hmap).
  destruct (String.eqb_spec language (ProjectLanguage_Java K)) as [|_]; [done|].
  cbv zeta. fold (sameLanguage language).
  assert (Hv : forall V, Forall (fun s => s <> "") V ->
            List.filter (fun t => truthy_opt (Array_find (fun vt => String.eqb vt (Template.id t)) V))
              (List.filter (sameLanguage language) templates)
            = List.filter (fun t => sameLanguage language t && bool_decide (Template.id t ∈ V))
                templates).
  { intros V HV. rewrite filter_filter. apply filter_ext_in. intros t _.
    by rewrite find_truthy_bool. }
  assert (Hsel : Forall (fun s => s <> "")
            (if String.eqb (effectiveRuntime K runtime) (ProjectRuntime_one K)
             then verifiedV1Templates else verifiedV2Templates)).
  { destruct (String.eqb _ _);
      [apply verifiedV1_nonempty_strings | apply verifiedV2_nonempty_strings]. }
  simpl. f_equal.
  destruct templateFilter as [f|]; [|by apply Hv].
  destruct (String.eqb_spec f (TemplateFilter_All K)) as [->|_]; [done|].
  destruct (String.eqb_spec f (TemplateFilter_Core K)) as [->|_]; [done|].
  by apply Hv.
Qed.

End GetTemplates.

(** ** [verifyTemplatesByRuntime] *)

Lemma verifyEach_ok templates verifiedTemplates :
  verifyEach templates verifiedTemplates = Normal tt
  <-> Forall (carries templates) verifiedTemplates.
Proof.
  induction verifiedTemplates as [|v l IH]; simpl.
  - split; [constructor | reflexivity].
  - destruct (existsb _ templates) eqn:E; simpl.
    + apply existsb_exists in E as (t & Hin & Heq%String.eqb_eq).
      rewrite IH. split; [intros H; constructor; [by exists t | done] | by inversion 1].
    + split; [discriminate|]. inversion 1 as [|? ? (t & Hin & Heq) _]; subst.
      assert (existsb (fun t0 => String.eqb (Template.id t0) (Template.id t)) templates = true)
        as E'; [|congruence].
      apply existsb_exists. exists t. by rewrite String.eqb_refl.
Qed.

Lemma verifyTemplatesByRuntime_eq (K : Constants) io templates runtime st :
  verifyTemplatesByRuntime K io templates runtime st
  = (verifyEach templates
       (idsToVerify io
          (if String.eqb runtime (ProjectRuntime_one K)
           then verifiedV1Templates else verifiedV2Templates)),
     st).
Proof.
  unfold verifyTemplatesByRuntime, idsToVerify, bind, try_catch, await, ret.
  destruct (io_validateDotnetInstalled io); reflexivity.
Qed.

(** C6. Verified templates come in two generations: [getTemplates], in the
    branch shared by [Verified] and [default], and [verifyTemplatesByRuntime]
    both use the V1 id list when the runtime is [ProjectRuntime.one] and the
    V2 id list for every other runtime. *)
Theorem verified_ids_by_runtime_generation
    (K : Constants) (this : TemplateData) (language : string)
    (runtime templateFilter : option string) (templates : list IFunctionTemplate)
    (io : FeedIO) (parsed : list IFunctionTemplate) (feedRuntime : string) (st : State) :
  language <> ProjectLanguage_Java K ->
  templateFilter <> Some (TemplateFilter_All K) ->
  templateFilter <> Some (TemplateFilter_Core K) ->
  _templatesMap this !! effectiveRuntime K runtime = Some templates ->
  (effectiveRuntime K runtime = ProjectRuntime_one K ->
   (getTemplates K this language runtime templateFilter).1
   = Normal (List.filter
               (fun t => sameLanguage language t
                         && bool_decide (Template.id t ∈ verifiedV1Templates))
               templates))
  /\ (effectiveRuntime K runtime <> ProjectRuntime_one K ->
      (getTemplates K this language runtime templateFilter).1
      = Normal (List.filter
                  (fun t => sameLanguage language t
                            && bool_decide (Template.id t ∈ verifiedV2Templates))
                  templates))
  /\ (feedRuntime = ProjectRuntime_one K ->
      verifyTemplatesByRuntime K io parsed feedRuntime st
      = (verifyEach parsed (idsToVerify io verifiedV1Templates), st))
  /\ (feedRuntime <> ProjectRuntime_one K ->
      verifyTemplatesByRuntime K io parsed feedRuntime st
      = (verifyEach parsed (idsToVerify io verifiedV2Templates), st)).
Proof.
  intros Hlang HAll HCore Hmap.
  pose proof (getTemplates_verified K this language runtime templateFilter templates
                Hlang HAll HCore Hmap) as Hget.
  pose proof (verifyTemplatesByRuntime_eq K io parsed feedRuntime st) as Hver.
  repeat split.
  - intros Hr. rewrite Hget, Hr, String.eqb_refl. reflexivity.
  - intros Hr. rewrite Hget. by destruct (String.eqb_spec (effectiveRuntime K runtime)
                                            (ProjectRuntime_one K)).
  - intros ->. by rewrite Hver, String.eqb_refl.
  - intros Hr. rewrite Hver. by destruct (String.eqb_spec feedRuntime (ProjectRuntime_one K)).
Qed.

Lemma verified_ids_by_runtime_generation_witness :
  (getTemplates extensionConstants sampleData "C#" (Some "beta") (Some "Verified")).1
  = Normal [mkTemplate "Azure.Function.CSharp.HttpTrigger.2.x" "C#" []]
  /\ verifyTemplatesByRuntime extensionConstants onlineIO sampleTemplates "~1" (initialState ∅)
     = (Throw (failedToVerifiedTemplate "GenericWebHook-JavaScript"), initialState ∅).
Proof.
  destruct (verified_ids_by_runtime_generation extensionConstants sampleData "C#"
              (Some "beta") (Some "Verified") sampleTemplates onlineIO sampleTemplates "~1"
              (initialState ∅))
    as (_ & HV2 & HV1 & _);
    [discriminate | discriminate | discriminate | reflexivity |].
  split.
  - rewrite HV2 by discriminate. reflexivity.
  - rewrite HV1 by reflexivity. reflexivity.
Defined.

(** C5 (as amended). For a language other than Java and a runtime with an
    entry, [getTemplates] returns only stored templates whose language tag
    equals the requested language once both are lower-cased, and with the
    filter [All] it returns exactly those. *)
Theorem getTemplates_language_ignoring_case
    (K : Constants) (this : TemplateData) (language : string)
    (runtime templateFilter : option string) (templates : list IFunctionTemplate) :
  language <> ProjectLanguage_Java K ->
  _templatesMap this !! effectiveRuntime K runtime = Some templates ->
  exists result,
    (getTemplates K this language runtime templateFilter).1 = Normal result
    /\ (forall t, In t result ->
          In t templates
          /\ JsString.toLowerCase (Template.language t) = JsString.toLowerCase language)
    /\ (templateFilter = Some (TemplateFilter_All K) ->
        result = List.filter (sameLanguage language) templates).
Proof.
  intros Hlang Hmap.
  destruct (getTemplates_other K this language runtime templateFilter templates Hlang Hmap)
    as (result & Hres & Hsub & HAll).
  exists result. split; [done|]. split; [|done].
  intros t Ht.
  assert (Hin : In t (List.filter (sameLanguage language) templates)).
  { apply list_elem_of_In. eapply elem_of_sublist; [|done]. by apply list_elem_of_In. }
  apply filter_In in Hin as [Hin Hsame]. split; [done|].
  unfold sameLanguage in Hsame. by apply String.eqb_eq.
Qed.

Lemma getTemplates_language_ignoring_case_witness :
  "javascript" <> ProjectLanguage_Java extensionConstants
  /\ exists result,
       (getTemplates extensionConstants sampleData "javascript" None (Some "All")).1
       = Normal result
       /\ (forall t, In t result ->
             In t sampleTemplates
             /\ JsString.toLowerCase (Template.language t) = JsString.toLowerCase "javascript")
       /\ (Some "All" = Some (TemplateFilter_All extensionConstants) ->
           result = List.filter (sameLanguage "javascript") sampleTemplates).
Proof.
  split; [discriminate|].
  apply (getTemplates_language_ignoring_case extensionConstants sampleData "javascript"
           None (Some "All") sampleTemplates); [discriminate | reflexivity].
Defined.

(** C5 (counterexample). Asked for "javascript" with the filter [All], the
    sample data yields the template tagged "JavaScript": it is included
    although its language string differs from the requested one. *)
Lemma getTemplates_language_not_string_equal :
  "javascript" <> ProjectLanguage_Java extensionConstants
  /\ exists t result,
       (getTemplates extensionConstants sampleData "javascript" (Some "~1") (Some "All")).1
       = Normal result
       /\ In t result
       /\ Template.language t <> "javascript".
Proof.
  split; [discriminate|].
  exists (mkTemplate "HttpTrigger-JavaScript" "JavaScript" ["$temp_category_core"]).
  eexists. split; [vm_compute; reflexivity|]. split; [by left | discriminate].
Qed.

(** C7. [getTemplates] only reads the parsed model: the object is unchanged
    by the call, a returned list is a subsequence of the list stored for the
    requested runtime, and the same call on the object as the first call
    left it completes the same way. *)
Theorem getTemplates_read_only
    (K : Constants) (this : TemplateData) (language : string)
    (runtime templateFilter : option string) :
  (getTemplates K this language runtime templateFilter).2 = this
  /\ match (getTemplates K this language runtime templateFilter).1 with
     | Normal result =>
         exists templates,
           _templatesMap this !! effectiveRuntime K runtime = Some templates
           /\ result `sublist_of` templates
     | Throw _ => True
     end
  /\ getTemplates K (getTemplates K this language runtime templateFilter).2
       language runtime templateFilter
     = getTemplates K this language runtime templateFilter.
Proof.
  split; [apply getTemplates_frame|]. split.
  - destruct (getTemplates K this language runtime templateFilter).1 as [result|e] eqn:E;
      [|done]. by eapply getTemplates_sublist.
  - by rewrite getTemplates_frame.
Qed.



(** C9. For the language Java the filter argument plays no part, and with an
    entry for the runtime the call returns exactly the stored templates
    tagged JavaScript whose id, cut before its first '-', is HttpTrigger,
    BlobTrigger, QueueTrigger or TimerTrigger. *)
Theorem getTemplates_java_ignores_filter
    (K : Constants) (this : TemplateData) (runtime : option string) :
  (forall templateFilter templateFilter',
     getTemplates K this (ProjectLanguage_Java K) runtime templateFilter
     = getTemplates K this (ProjectLanguage_Java K) runtime templateFilter')
  /\ match _templatesMap this !! effectiveRuntime K runtime with
     | Some templates =>
         forall templateFilter,
           (getTemplates K this (ProjectLanguage_Java K) runtime templateFilter).1
           = Normal (List.filter (javaSelected K) templates)
     | None => True
     end.
Proof.
  split.
  - intros f f'. unfold getTemplates.
    destruct (JsObject.get _ _); [|reflexivity..]. by rewrite String.eqb_refl.
  - destruct (_templatesMap this !! effectiveRuntime K runtime) as [templates|] eqn:E; [|done].
    intros f. by rewrite (getTemplates_java K this runtime f templates E).
Qed.

(** ** The cache and feed readers *)

Ltac run_monad :=
  cbv beta iota zeta delta
    [bind ret await throw try_catch try_finally setProperty appendLine
     Memento_get Memento_update attempt fst snd].

Ltac case_completion :=
  match goal with
  | |- context [match ?c with Normal _ => _ | Throw _ => _ end] => destruct c eqn:?
  | |- context [match ?o with Some _ => _ | None => _ end] => destruct o eqn:?
  | |- context [if ?b then _ else _] => destruct b eqn:?
  | |- context [let (_, _) := ?p in _] => destruct p eqn:?
  end.

Section Readers.

Context (K : Constants).
Context (parseScriptTemplates : Json -> Json -> Json -> Completion (list IFunctionTemplate)).
Context (parseDotnetTemplates : Json -> string -> Completion (list IFunctionTemplate)).

Local Abbreviation tryCache :=
  (tryGetParsedTemplateDataFromCache K parseScriptTemplates parseDotnetTemplates).
Local Abbreviation tryFeed :=
  (tryGetParsedTemplateDataFromCliFeed K parseScriptTemplates parseDotnetTemplates).
Local Abbreviation feedTry := (cliFeed_try K parseScriptTemplates parseDotnetTemplates).

Lemma cache_try_state runtime gs st :
  (cache_try K parseScriptTemplates parseDotnetTemplates runtime gs st).2 = st.
Proof.
  unfold cache_try. run_monad. repeat case_completion; reflexivity.
Qed.

(** Whatever the store holds, the cache reader returns [undefined]; it
    leaves everything but the telemetry properties as it was. *)
Lemma tryCache_undefined runtime gs st :
  (tryCache runtime gs st).1 = Normal None
  /\ persisted (tryCache runtime gs st).2 = persisted st
  /\ sameRun st (tryCache runtime gs st).2.
Proof.
  unfold tryGetParsedTemplateDataFromCache, sameRun.
  pose proof (cache_try_state runtime gs st) as Hst.
  run_monad.
  destruct (cache_try K parseScriptTemplates parseDotnetTemplates runtime gs st)
    as [[templates|e] st'] eqn:E; simpl in Hst; subst st'; simpl; auto.
Qed.

Lemma downloadAndExtractCSharpTemplates_sameRun io feed version runtime st :
  sameRun st (downloadAndExtractCSharpTemplates io feed version runtime st).2
  /\ persisted (downloadAndExtractCSharpTemplates io feed version runtime st).2 = persisted st.
Proof.
  unfold downloadAndExtractCSharpTemplates, releaseField, sameRun. run_monad.
  repeat case_completion; simpl; auto.
Qed.

Lemma feedTry_cases io feed version runtime gs st :
  sameRun st (feedTry io feed version runtime gs st).2
  /\ match (feedTry io feed version runtime gs st).1 with
     | Throw _ => persisted (feedTry io feed version runtime gs st).2 = persisted st
     | Normal None => False
     | Normal (Some templates) =>
         exists rawTemplates rawConfig rawResources rawCSharpTemplates,
           FeedSuccess K parseScriptTemplates parseDotnetTemplates io feed version runtime templates
             rawTemplates rawConfig rawResources rawCSharpTemplates
           /\ persisted (feedTry io feed version runtime gs st).2
              = match gs with
                | Some _ =>
                    cacheEntries K runtime version
                      rawTemplates rawConfig rawResources rawCSharpTemplates (persisted st)
                | None => persisted st
                end
     end.
Proof.
  unfold cliFeed_try, downloadAndExtractTemplates, releaseField.
  run_monad.
  destruct (releases feed !! version) as [release|] eqn:Hrel; [|by simpl].
  destruct (io_downloadFile io (templateApiZip release)) as [[]|e] eqn:Hdl; [|by simpl].
  destruct (io_extract io) as [[]|e] eqn:Hext; [|by simpl].
  match goal with
  | |- context [downloadAndExtractCSharpTemplates io feed version runtime ?s] =>
      pose proof (downloadAndExtractCSharpTemplates_sameRun io feed version runtime s)
        as [Hsame Hpers];
      destruct (downloadAndExtractCSharpTemplates io feed version runtime s)
        as [[rawCSharp|e] st1]
  end; simpl in Hsame, Hpers; [|by simpl].
  destruct (io_readJSON io ResourcesJson) as [rawResources|e] eqn:HR;
    [|simpl; by rewrite Hpers].
  destruct (io_readJSON io TemplatesJson) as [rawTemplates|e] eqn:HT;
    [|simpl; by rewrite Hpers].
  destruct (io_readJSON io BindingsJson) as [rawConfig|e] eqn:HC;
    [|simpl; by rewrite Hpers].
  destruct (parseScriptTemplates rawResources rawTemplates rawConfig)
    as [scriptTemplates|e] eqn:HpS; [|simpl; by rewrite Hpers].
  destruct (parseDotnetTemplates rawCSharp runtime) as [dotnetTemplates|e] eqn:HpD;
    [|simpl; by rewrite Hpers].
  rewrite verifyTemplatesByRuntime_eq.
  destruct (verifyEach _ _) as [[]|e] eqn:Hver; [|simpl; by rewrite Hpers].
  assert (HS : FeedSuccess K parseScriptTemplates parseDotnetTemplates io feed version runtime (scriptTemplates ++ dotnetTemplates)
                 rawTemplates rawConfig rawResources rawCSharp).
  { constructor; eauto. by rewrite verifyTemplatesByRuntime_eq. }
  destruct gs as [[]|]; simpl; (split; [done|]);
    exists rawTemplates, rawConfig, rawResources, rawCSharp; (split; [done|]);
    unfold cacheEntries; simpl; by rewrite Hpers.
Qed.

Lemma blobTrigger_verified io runtime :
  In "BlobTrigger-JavaScript"
    (idsToVerify io
       (if String.eqb runtime (ProjectRuntime_one K)
        then verifiedV1Templates else verifiedV2Templates)).
Proof.
  unfold idsToVerify.
  destruct (io_validateDotnetInstalled io), (String.eqb runtime _); vm_compute; auto.
Qed.

(** A verified list of templates is never empty. *)
Lemma FeedSuccess_nonempty io feed version runtime templates rT rC rR rD :
  FeedSuccess K parseScriptTemplates parseDotnetTemplates io feed version runtime templates rT rC rR rD -> templates <> [].
Proof.
  intros [_ _ _ _ _ _ Hver]. rewrite verifyTemplatesByRuntime_eq in Hver. simpl in Hver.
  apply verifyEach_ok in Hver. rewrite Forall_forall in Hver.
  destruct (Hver _ (proj2 (list_elem_of_In _ _) (blobTrigger_verified io runtime)))
    as (t & Hin & _).
  intros ->. inversion Hin.
Qed.

Lemma tryFeed_eq io feed version runtime gs st :
  sameRun st (tryFeed io feed version runtime gs st).2
  /\ persisted (tryFeed io feed version runtime gs st).2
     = persisted (feedTry io feed version runtime gs st).2
  /\ (tryFeed io feed version runtime gs st).1
     = match cleanup io with
       | Normal _ =>
           match (feedTry io feed version runtime gs st).1 with
           | Normal parsed => Normal parsed
           | Throw _ => Normal None
           end
       | Throw e => Throw e
       end.
Proof.
  pose proof (feedTry_cases io feed version runtime gs st) as [Hsame _].
  unfold tryGetParsedTemplateDataFromCliFeed, cliFeed_finally, cleanup.
  run_monad.
  destruct (feedTry io feed version runtime gs st) as [[parsed|e] st1];
    simpl in Hsame; unfold sameRun in *;
    destruct (io_pathExists io); [destruct (io_remove io)| |destruct (io_remove io)|];
    simpl; auto.
Qed.


(** A feed attempt yields a non-empty list, nothing, or the error of its
    [finally] block. *)
Lemma tryFeed_outcome io feed version runtime gs st :
  sameRun st (tryFeed io feed version runtime gs st).2
  /\ ((tryFeed io feed version runtime gs st).1 = Normal None
      \/ (exists t l, (tryFeed io feed version runtime gs st).1 = Normal (Some (t :: l)))
      \/ (exists e, (tryFeed io feed version runtime gs st).1 = Throw e)).
Proof.
  destruct (tryFeed_eq io feed version runtime gs st) as (Hsame & _ & ->).
  split; [done|].
  destruct (cleanup io); [|eauto].
  pose proof (feedTry_cases io feed version runtime gs st) as [_ Hbody].
  destruct (feedTry io feed version runtime gs st).1 as [[templates|]|e]; auto.
  destruct Hbody as (rT & rC & rR & rD & HS & _).
  apply FeedSuccess_nonempty in HS. destruct templates; [done | eauto].
Qed.

End Readers.


(** ** Keys of the persisted store *)

Lemma app_cons (c : ascii) (a b : string) : String c a +:+ b = String c (a +:+ b).
Proof. reflexivity. Qed.

Lemma length_app (a b : string) :
  String.length (a +:+ b) = String.length a + String.length b.
Proof.
  induction a as [|c a' IH]; [reflexivity|]. rewrite app_cons. simpl. by rewrite IH.
Qed.

Lemma app_empty_r (a : string) : a +:+ "" = a.
Proof. induction a as [|c a' IH]; [reflexivity|]. by rewrite app_cons, IH. Qed.

Lemma prefix_app (a b : string) : String.prefix a (a +:+ b) = true.
Proof.
  induction a as [|c a' IH]; [by destruct b|]. rewrite app_cons. simpl.
  destruct (ascii_dec c c); [done | congruence].
Qed.

(** Two prefixes of one string: one is a prefix of the other. *)
Lemma prefix_comparable (a b s : string) :
  String.prefix a s = true -> String.prefix b s = true ->
  String.prefix a b = true \/ String.prefix b a = true.
Proof.
  revert a b. induction s as [|c s' IH]; intros [|x a] [|y b]; simpl; auto;
    [discriminate|].
  destruct (ascii_dec x c) as [Hx|]; [|discriminate].
  destruct (ascii_dec y c) as [Hy|]; [|discriminate].
  destruct (ascii_dec x y); [|congruence].
  destruct (ascii_dec y x); [|congruence]. apply IH.
Qed.

Section Keys.

Context (K : Constants).

Lemma getRuntimeKey_prefix base runtime :
  String.prefix base (getRuntimeKey K base runtime) = true.
Proof.
  unfold getRuntimeKey. destruct (String.eqb runtime _); [|apply prefix_app].
  pose proof (prefix_app base "") as H. by rewrite app_empty_r in H.
Qed.

Lemma versionKey_prefix runtime : String.prefix "templateVersion-" (versionKey runtime) = true.
Proof. apply prefix_app. Qed.

Lemma getRuntimeKey_inj base runtime runtime' :
  getRuntimeKey K base runtime = getRuntimeKey K base runtime' -> runtime = runtime'.
Proof.
  unfold getRuntimeKey.
  destruct (String.eqb_spec runtime (ProjectRuntime_one K)) as [->|Hr],
           (String.eqb_spec runtime' (ProjectRuntime_one K)) as [->|Hr']; intros H.
  - reflexivity.
  - apply (f_equal String.length) in H. rewrite !length_app in H. simpl in H. lia.
  - apply (f_equal String.length) in H. rewrite !length_app in H. simpl in H. lia.
  - apply (inj (String.append base)) in H. by injection H.
Qed.

Lemma versionKey_inj runtime runtime' :
  versionKey runtime = versionKey runtime' -> runtime = runtime'.
Proof.
  unfold versionKey. intros H. apply (inj (String.append templateVersionKey)) in H.
  by injection H.
Qed.

(** Keys built on two bases of which neither is a prefix of the other
    differ, whatever the runtimes. *)
Lemma keys_of_unrelated_bases base base' key key' :
  String.prefix base key = true -> String.prefix base' key' = true ->
  String.prefix base base' = false -> String.prefix base' base = false ->
  key <> key'.
Proof.
  intros Hk Hk' Hbb' Hb'b ->.
  destruct (prefix_comparable base base' key' Hk Hk'); congruence.
Qed.

Lemma cacheKeys_NoDup runtime : NoDup (cacheKeys K runtime).
Proof.
  unfold cacheKeys.
  pose proof (versionKey_prefix runtime) as Hv.
  pose proof (getRuntimeKey_prefix templatesKey runtime) as Ht.
  pose proof (getRuntimeKey_prefix configKey runtime) as Hc.
  pose proof (getRuntimeKey_prefix resourcesKey runtime) as Hr.
  pose proof (getRuntimeKey_prefix dotnetTemplatesKey runtime) as Hd.
  repeat (apply NoDup_cons; split; [rewrite ?elem_of_cons, elem_of_nil|]);
    [..|apply NoDup_nil_2];
    intros H; repeat (destruct H as [H|H]); try done;
    revert H; eapply keys_of_unrelated_bases; eauto.
Qed.

Lemma cacheKeys_disjoint runtime runtime' key :
  runtime <> runtime' -> key ∈ cacheKeys K runtime -> key ∉ cacheKeys K runtime'.
Proof.
  unfold cacheKeys. intros Hne Hin Hin'.
  pose proof (versionKey_prefix runtime) as Hv.
  pose proof (getRuntimeKey_prefix templatesKey runtime) as Ht.
  pose proof (getRuntimeKey_prefix configKey runtime) as Hc.
  pose proof (getRuntimeKey_prefix resourcesKey runtime) as Hr.
  pose proof (getRuntimeKey_prefix dotnetTemplatesKey runtime) as Hd.
  pose proof (versionKey_prefix runtime') as Hv'.
  pose proof (getRuntimeKey_prefix templatesKey runtime') as Ht'.
  pose proof (getRuntimeKey_prefix configKey runtime') as Hc'.
  pose proof (getRuntimeKey_prefix resourcesKey runtime') as Hr'.
  pose proof (getRuntimeKey_prefix dotnetTemplatesKey runtime') as Hd'.
  rewrite !elem_of_cons, elem_of_nil in Hin, Hin'.
  repeat (destruct Hin as [Hin|Hin]); try done; subst key;
    repeat (destruct Hin' as [Hin'|Hin']); try done;
    first [ by apply versionKey_inj in Hin'
          | by apply getRuntimeKey_inj in Hin'
          | revert Hin'; eapply keys_of_unrelated_bases; eauto ].
Qed.

End Keys.

Section CacheRoundTrip.

Context (K : Constants).
Context (parseScriptTemplates : Json -> Json -> Json -> Completion (list IFunctionTemplate)).
Context (parseDotnetTemplates : Json -> string -> Completion (list IFunctionTemplate)).

Local Abbreviation tryFeed :=
  (tryGetParsedTemplateDataFromCliFeed K parseScriptTemplates parseDotnetTemplates).
Local Abbreviation feedTry := (cliFeed_try K parseScriptTemplates parseDotnetTemplates).

Lemma cacheEntries_other runtime version rT rC rR rD store key :
  key ∉ cacheKeys K runtime ->
  cacheEntries K runtime version rT rC rR rD store !! key = store !! key.
Proof.
  unfold cacheKeys, cacheEntries. rewrite !not_elem_of_cons.
  intros (? & ? & ? & ? & ? & _). by rewrite !lookup_insert_ne.
Qed.

Lemma cacheEntries_lookups runtime version rT rC rR rD store :
  let store' := cacheEntries K runtime version rT rC rR rD store in
  store' !! versionKey runtime = Some (JStr version)
  /\ store' !! getRuntimeKey K templatesKey runtime = Some rT
  /\ store' !! getRuntimeKey K configKey runtime = Some rC
  /\ store' !! getRuntimeKey K resourcesKey runtime = Some rR
  /\ store' !! getRuntimeKey K dotnetTemplatesKey runtime = Some rD.
Proof.
  pose proof (cacheKeys_NoDup K runtime) as Hnd. unfold cacheKeys in Hnd.
  repeat (apply NoDup_cons in Hnd as [?%not_elem_of_cons Hnd] ||
          apply NoDup_cons in Hnd as [_ Hnd]).
  cbv zeta. unfold cacheEntries.
  repeat match goal with H : _ /\ _ |- _ => destruct H end.
  repeat match goal with H : _ ∉ _ :: _ |- _ => apply not_elem_of_cons in H as [? ?] end.
  repeat split;
    repeat first [rewrite lookup_insert_eq; reflexivity
                 | rewrite lookup_insert_ne by congruence].
Qed.

(** The origin of what a completed [try] block hands to the parsers. *)
Lemma feedTry_success io feed version runtime gs st templates :
  (feedTry io feed version runtime gs st).1 = Normal (Some templates) ->
  exists rT rC rR rD scriptTemplates dotnetTemplates,
    io_readJSON io ResourcesJson = Normal rR
    /\ io_readJSON io TemplatesJson = Normal rT
    /\ io_readJSON io BindingsJson = Normal rC
    /\ (rD = JArr [] \/ io_dotnetTemplateList io = Normal rD)
    /\ parseScriptTemplates rR rT rC = Normal scriptTemplates
    /\ parseDotnetTemplates rD runtime = Normal dotnetTemplates
    /\ templates = scriptTemplates ++ dotnetTemplates
    /\ Forall (carries templates) commonVerifiedIds
    /\ persisted (feedTry io feed version runtime gs st).2
       = match gs with
         | Some _ => cacheEntries K runtime version rT rC rR rD (persisted st)
         | None => persisted st
         end.
Proof.
  unfold cliFeed_try, downloadAndExtractTemplates, downloadAndExtractCSharpTemplates,
    releaseField.
  run_monad.
  destruct (releases feed !! version) as [release|]; [|by simpl].
  destruct (io_downloadFile io (templateApiZip release)) as [[]|e]; [|by simpl].
  destruct (io_extract io) as [[]|e]; [|by simpl].
  assert (Hcommon : forall l,
            verifyEach l
              (idsToVerify io
                 (if String.eqb runtime (ProjectRuntime_one K)
                  then verifiedV1Templates else verifiedV2Templates)) = Normal tt ->
            Forall (carries l) commonVerifiedIds).
  { intros l Hver%verifyEach_ok. rewrite Forall_forall in Hver |- *.
    intros i Hi. apply Hver. apply list_elem_of_In.
    unfold commonVerifiedIds in Hi. rewrite !elem_of_cons, elem_of_nil in Hi.
    unfold idsToVerify.
    destruct (io_validateDotnetInstalled io), (String.eqb runtime _);
      repeat (destruct Hi as [->|Hi]; [vm_compute; tauto|]); done. }
  destruct (io_validateDotnetInstalled io) as [[]|e0] eqn:Hdotnet; simpl.
  - destruct (io_downloadFile io (projectTemplates release)) as [[]|e]; [|by simpl].
    destruct (io_downloadFile io (itemTemplates release)) as [[]|e]; [|by simpl].
    destruct (io_dotnetTemplateList io) as [rD|e] eqn:HD; [|by simpl]. simpl.
    destruct (io_readJSON io ResourcesJson) as [rR|e]; [|by simpl].
    destruct (io_readJSON io TemplatesJson) as [rT|e]; [|by simpl].
    destruct (io_readJSON io BindingsJson) as [rC|e]; [|by simpl].
    destruct (parseScriptTemplates rR rT rC) as [scripts|e] eqn:HpS; [|by simpl].
    destruct (parseDotnetTemplates rD runtime) as [dn|e] eqn:HpD; [|by simpl].
    rewrite verifyTemplatesByRuntime_eq.
    destruct (verifyEach _ _) as [[]|e] eqn:Hver; [|by simpl].
    intros Hres. exists rT, rC, rR, rD, scripts, dn.
    destruct gs as [[]|]; simpl in *; injection Hres as <-; auto 12.
  - destruct (io_readJSON io ResourcesJson) as [rR|e]; [|by simpl].
    destruct (io_readJSON io TemplatesJson) as [rT|e]; [|by simpl].
    destruct (io_readJSON io BindingsJson) as [rC|e]; [|by simpl].
    destruct (parseScriptTemplates rR rT rC) as [scripts|e] eqn:HpS; [|by simpl].
    destruct (parseDotnetTemplates (JArr []) runtime) as [dn|e] eqn:HpD; [|by simpl].
    rewrite verifyTemplatesByRuntime_eq.
    destruct (verifyEach _ _) as [[]|e] eqn:Hver; [|by simpl].
    intros Hres. exists rT, rC, rR, (JArr []), scripts, dn.
    destruct gs as [[]|]; simpl in *; injection Hres as <-; auto 12.
Qed.

Lemma tryFeed_success io feed version runtime gs st templates :
  (tryFeed io feed version runtime gs st).1 = Normal (Some templates) ->
  (feedTry io feed version runtime gs st).1 = Normal (Some templates).
Proof.
  destruct (tryFeed_eq K parseScriptTemplates parseDotnetTemplates
              io feed version runtime gs st) as (_ & _ & ->).
  destruct (cleanup io); [|discriminate].
  by destruct (feedTry io feed version runtime gs st).1.
Qed.

End CacheRoundTrip.

(** A feed attempt writes nothing outside the five keys of its runtime. *)
Lemma tryFeed_store_frame
    (K : Constants)
    (parseScriptTemplates : Json -> Json -> Json -> Completion (list IFunctionTemplate))
    (parseDotnetTemplates : Json -> string -> Completion (list IFunctionTemplate))
    (io : FeedIO) (cliFeedJson : CliFeedJson) (templateVersion runtime : string)
    (globalState : option Memento) (st : State) (key : string) :
  key ∉ cacheKeys K runtime ->
  persisted
    (tryGetParsedTemplateDataFromCliFeed K parseScriptTemplates parseDotnetTemplates
       io cliFeedJson templateVersion runtime globalState st).2 !! key
  = persisted st !! key.
Proof.
  intros Hout.
  destruct (tryFeed_eq K parseScriptTemplates parseDotnetTemplates
              io cliFeedJson templateVersion runtime globalState st) as (_ & -> & _).
  pose proof (feedTry_cases K parseScriptTemplates parseDotnetTemplates
                io cliFeedJson templateVersion runtime globalState st) as [_ Hbody].
  destruct (cliFeed_try K parseScriptTemplates parseDotnetTemplates
              io cliFeedJson templateVersion runtime globalState st) as [[[l|]|e] st1];
    simpl in *; [|done|by rewrite Hbody].
  destruct Hbody as (rT & rC & rR & rD & _ & ->).
  destruct globalState; [|done]. by apply cacheEntries_other.
Qed.

(** ** The per-runtime callback of [getTemplateData] *)

Lemma laterOnlyAfterNothing_nil : laterOnlyAfterNothing [].
Proof. intros [|b before] a after H; discriminate. Qed.

Lemma laterOnlyAfterNothing_one a : laterOnlyAfterNothing [a].
Proof.
  intros [|b before] a' after H Hne; simpl in H.
  - injection H as _ <-. done.
  - injection H as _ H. by destruct before.
Qed.

Lemma laterOnlyAfterNothing_cons r t trace :
  trace <> [] -> laterOnlyAfterNothing trace ->
  laterOnlyAfterNothing
    ({| at_runtime := r; at_tier := t; at_completion := Normal None |} :: trace).
Proof.
  intros _ Htr [|b before] a after H Hne; simpl in H.
  - by injection H as <- _.
  - injection H as _ H. by eapply Htr.
Qed.

Ltac use_cache :=
  match goal with
  | |- context [tryGetParsedTemplateDataFromCache ?K ?pS ?pD ?r ?g ?s] =>
      let H := fresh "Hcache" in
      pose proof (tryCache_undefined K pS pD r g s) as H;
      destruct (tryGetParsedTemplateDataFromCache K pS pD r g s) as [? ?];
      simpl in H; destruct H as (-> & ? & ? & ? & ?)
  end.

Ltac use_feed :=
  match goal with
  | |- context [tryGetParsedTemplateDataFromCliFeed ?K ?pS ?pD ?io ?f ?v ?r ?g ?s] =>
      let H := fresh "Hfeed" in
      pose proof (tryFeed_outcome K pS pD io f v r g s) as H;
      destruct (tryGetParsedTemplateDataFromCliFeed K pS pD io f v r g s) as [? ?];
      simpl in H; destruct H as ((? & ? & ?) & [-> | [(? & ? & ->) | (? & ->)]])
  end.

Ltac degrade_facts :=
  let a := fresh "a" in
  let Hin := fresh "Hin" in
  let Ht := fresh "Ht" in
  let Hc := fresh "Hc" in
  intros a Hin Ht Hc; simpl in Hin;
  repeat match goal with
    | H : _ \/ _ |- _ => destruct H as [<- | H]
    | H : False |- _ => destruct H
    end;
  simpl in Ht, Hc; try discriminate;
  (split;
   [ intros Hgs; try (by destruct Hgs as [? [=]]) |];
   repeat first [by apply Exists_cons_hd | apply Exists_cons_tl]).

Ltac trace_facts :=
  split; [reflexivity|];
  split; [reflexivity|];
  split; [unfold inTierOrder, tierOrder; simpl;
          by repeat first [apply sublist_nil | apply sublist_skip | apply sublist_cons]|];
  split; [repeat first [ apply laterOnlyAfterNothing_nil | apply laterOnlyAfterNothing_one
                       | apply laterOnlyAfterNothing_cons; [discriminate|] ]|];
  split; [unfold noEmptyResult; repeat constructor; simpl; discriminate|];
  split; [unfold forRuntime; repeat constructor | degrade_facts].

Section Callback.

Context (K : Constants).
Context (parseScriptTemplates : Json -> Json -> Json -> Completion (list IFunctionTemplate)).
Context (parseDotnetTemplates : Json -> string -> Completion (list IFunctionTemplate)).

Local Abbreviation callback :=
  (getTemplateData_callback K parseScriptTemplates parseDotnetTemplates).

Lemma callback_trace w gs feed runtime st :
  exists trace : Trace,
    attempts (callback w gs feed runtime st).2 = attempts st ++ trace
    /\ telemetry (callback w gs feed runtime st).2 = telemetry st
    /\ templatesMap (callback w gs feed runtime st).2
       = storeResult runtime trace (templatesMap st)
    /\ inTierOrder trace
    /\ laterOnlyAfterNothing trace
    /\ noEmptyResult trace
    /\ forRuntime runtime trace
    /\ feedFailureDegrades gs trace.
Proof.
  unfold getTemplateData_callback. run_monad.
  destruct gs as [[]|], feed as [feed|], (w_templateVersion w runtime) as [version|].
  all: repeat first [use_cache | use_feed | case_completion]; simpl.
  all: simpl in *;
    repeat match goal with
      | H : attempts ?s = _ |- context [attempts ?s] => rewrite H
      | H : telemetry ?s = _ |- context [telemetry ?s] => rewrite H
      | H : templatesMap ?s = _ |- context [templatesMap ?s] => rewrite H
      end;
    rewrite <- ?app_assoc; simpl;
    first [ eexists; split; [reflexivity|]
          | exists []; split; [by rewrite app_nil_r|] ];
    trace_facts.
Qed.

(** When the stored version is the resolved one, the matching cache is
    tried first and yields nothing; with a feed and a version, the feed is
    tried next. *)
Lemma matching_cache_then_feed w feed runtime version st :
  w_templateVersion w runtime = Some version ->
  JsString.truthy version = true ->
  JsValue.strictEq_string (persisted st !! versionKey runtime) (Some version) = true ->
  exists completion rest,
    attempts (callback w (Some hostMemento) (Some feed) runtime st).2
    = attempts st
      ++ {| at_runtime := runtime; at_tier := MatchingCache; at_completion := Normal None |}
      :: {| at_runtime := runtime; at_tier := CliFeed; at_completion := completion |}
      :: rest.
Proof.
  intros Hversion Htruthy Hguard.
  unfold getTemplateData_callback. run_monad. simpl. rewrite Hversion, Hguard.
  use_cache. simpl. rewrite Htruthy.
  repeat first [use_cache | use_feed | case_completion]; simpl in *;
    repeat match goal with
      | H : attempts ?s = _ |- context [attempts ?s] => rewrite H
      end;
    rewrite <- ?app_assoc; simpl; eauto.
Qed.

End Callback.

(** ** [getTemplateData] *)

Ltac use_callback :=
  match goal with
  | |- context [getTemplateData_callback ?K ?pS ?pD ?w ?g ?f ?r ?s] =>
      let H := fresh "Hcb" in
      let trace := fresh "trace" in
      pose proof (callback_trace K pS pD w g f r s) as H;
      destruct (getTemplateData_callback K pS pD w g f r s) as [? ?];
      simpl in H; destruct H as (trace & ? & ? & ? & ? & ? & ? & ? & ?)
  end.

Section GetTemplateData.

Context (K : Constants).
Context (parseScriptTemplates : Json -> Json -> Json -> Completion (list IFunctionTemplate)).
Context (parseDotnetTemplates : Json -> string -> Completion (list IFunctionTemplate)).

Local Abbreviation getData :=
  (getTemplateData K parseScriptTemplates parseDotnetTemplates).

Lemma getTemplateData_run w gs st :
  exists traceOne traceBeta : Trace,
    (getData w gs st).1
    = Normal (TemplateData_new
                (storeResult (ProjectRuntime_beta K) traceBeta
                   (storeResult (ProjectRuntime_one K) traceOne ∅)))
    /\ attempts (getData w gs st).2 = attempts st ++ traceOne ++ traceBeta
    /\ TierDiscipline gs (ProjectRuntime_one K) traceOne
    /\ TierDiscipline gs (ProjectRuntime_beta K) traceBeta.
Proof.
  unfold getTemplateData, projectRuntimes, forEach, callWithTelemetryAndErrorHandling.
  run_monad.
  use_callback.
  match goal with c : Completion () |- _ => destruct c end; simpl.
  all: use_callback.
  all: match goal with c : Completion () |- _ => destruct c end; simpl in *.
  all: exists trace, trace0.
  all: repeat match goal with
      | H : attempts ?s = _ |- context [attempts ?s] => rewrite H
      | H : templatesMap ?s = _ |- context [templatesMap ?s] => rewrite H
      end; simpl.
  all: rewrite <- ?app_assoc; split; [reflexivity|]; split; [reflexivity|];
    split; by constructor.
Qed.

End GetTemplateData.

Lemma storeResult_lookup runtime trace m :
  storeResult runtime trace m !! runtime
  = match firstNonEmpty trace with Some templates => Some templates | None => m !! runtime end.
Proof. unfold storeResult. destruct (firstNonEmpty trace); [apply lookup_insert_eq | done]. Qed.

Lemma storeResult_lookup_ne runtime runtime' trace m :
  runtime <> runtime' -> storeResult runtime trace m !! runtime' = m !! runtime'.
Proof.
  intros Hne. unfold storeResult. destruct (firstNonEmpty trace); [|done].
  by apply lookup_insert_ne.
Qed.

(** ** The tiers of [getTemplateData] *)

Lemma untilResult_sublist trace : untilResult trace `sublist_of` trace.
Proof.
  induction trace as [|a later IH]; [constructor|]. simpl. apply sublist_skip.
  destruct (at_completion a) as [[l|]|e]; [apply sublist_nil_l | exact IH | apply sublist_nil_l].
Qed.

Lemma untilResult_later trace : laterOnlyAfterNothing (untilResult trace).
Proof.
  induction trace as [|a later IH]; [apply laterOnlyAfterNothing_nil|]. simpl.
  destruct (at_completion a) as [[l|]|e] eqn:E;
    [apply laterOnlyAfterNothing_one | | apply laterOnlyAfterNothing_one].
  intros before b after Heq Hne. destruct before as [|b0 before]; simpl in Heq.
  - injection Heq as <- <-. exact E.
  - injection Heq as <- Heq. by apply (IH before b after).
Qed.

Section Tiers.

Context (K : Constants).
Context (parseScriptTemplates : Json -> Json -> Json -> Completion (list IFunctionTemplate)).
Context (parseDotnetTemplates : Json -> string -> Completion (list IFunctionTemplate)).

Local Abbreviation tryFeed :=
  (tryGetParsedTemplateDataFromCliFeed K parseScriptTemplates parseDotnetTemplates).
Local Abbreviation feedTry := (cliFeed_try K parseScriptTemplates parseDotnetTemplates).
Local Abbreviation callback :=
  (getTemplateData_callback K parseScriptTemplates parseDotnetTemplates).
Local Abbreviation getData :=
  (getTemplateData K parseScriptTemplates parseDotnetTemplates).
Local Abbreviation outcome := (feedOutcome K parseScriptTemplates parseDotnetTemplates).
Local Abbreviation sources := (candidates K parseScriptTemplates parseDotnetTemplates).

(** No step of the [try] block reads the state. *)
Lemma feedTry_completion io feed version runtime gs st st' :
  (feedTry io feed version runtime gs st).1 = (feedTry io feed version runtime gs st').1.
Proof.
  unfold cliFeed_try, downloadAndExtractTemplates, downloadAndExtractCSharpTemplates,
    releaseField.
  run_monad.
  destruct (releases feed !! version) as [release|]; [|reflexivity].
  destruct (io_downloadFile io (templateApiZip release)) as [[]|e]; [|reflexivity].
  destruct (io_extract io) as [[]|e]; [|reflexivity].
  destruct (io_validateDotnetInstalled io) as [[]|e0] eqn:Hdotnet; simpl.
  - destruct (io_downloadFile io (projectTemplates release)) as [[]|e]; [|reflexivity].
    destruct (io_downloadFile io (itemTemplates release)) as [[]|e]; [|reflexivity].
    destruct (io_dotnetTemplateList io) as [rD|e] eqn:HD; [|reflexivity]. simpl.
    destruct (io_readJSON io ResourcesJson) as [rR|e]; [|reflexivity].
    destruct (io_readJSON io TemplatesJson) as [rT|e]; [|reflexivity].
    destruct (io_readJSON io BindingsJson) as [rC|e]; [|reflexivity].
    destruct (parseScriptTemplates rR rT rC) as [scripts|e] eqn:HpS; [|reflexivity].
    destruct (parseDotnetTemplates rD runtime) as [dn|e] eqn:HpD; [|reflexivity].
    rewrite !verifyTemplatesByRuntime_eq.
    destruct (verifyEach _ _) as [[]|e] eqn:Hver; [|reflexivity].
    destruct gs as [[]|]; reflexivity.
  - destruct (io_readJSON io ResourcesJson) as [rR|e]; [|reflexivity].
    destruct (io_readJSON io TemplatesJson) as [rT|e]; [|reflexivity].
    destruct (io_readJSON io BindingsJson) as [rC|e]; [|reflexivity].
    destruct (parseScriptTemplates rR rT rC) as [scripts|e] eqn:HpS; [|reflexivity].
    destruct (parseDotnetTemplates (JArr []) runtime) as [dn|e] eqn:HpD; [|reflexivity].
    rewrite !verifyTemplatesByRuntime_eq.
    destruct (verifyEach _ _) as [[]|e] eqn:Hver; [|reflexivity].
    destruct gs as [[]|]; reflexivity.
Qed.

Lemma outcome_cases io feed version runtime gs :
  outcome io feed version runtime gs = Normal None
  \/ (exists t l, outcome io feed version runtime gs = Normal (Some (t :: l)))
  \/ (exists e, outcome io feed version runtime gs = Throw e).
Proof.
  unfold feedOutcome.
  by destruct (tryFeed_outcome K parseScriptTemplates parseDotnetTemplates io feed version
                 runtime gs (initialState ∅)) as [_ H].
Qed.

(** A feed attempt from any state: its completion, and what it leaves. *)
Lemma tryFeed_exact io feed version runtime gs st :
  (tryFeed io feed version runtime gs st).1 = outcome io feed version runtime gs
  /\ sameRun st (tryFeed io feed version runtime gs st).2
  /\ (forall key,
        key ∉ cacheKeys K runtime ->
        persisted (tryFeed io feed version runtime gs st).2 !! key = persisted st !! key).
Proof.
  unfold feedOutcome.
  destruct (tryFeed_eq K parseScriptTemplates parseDotnetTemplates
              io feed version runtime gs st) as (Hsame & _ & ->).
  destruct (tryFeed_eq K parseScriptTemplates parseDotnetTemplates
              io feed version runtime gs (initialState ∅)) as (_ & _ & ->).
  rewrite (feedTry_completion io feed version runtime gs st (initialState ∅)).
  split; [reflexivity|]. split; [exact Hsame|].
  intros key Hkey. by apply tryFeed_store_frame.
Qed.

Ltac use_feed_exact :=
  match goal with
  | |- context [tryGetParsedTemplateDataFromCliFeed ?K ?pS ?pD ?io ?f ?v ?r ?g ?s] =>
      let Hc := fresh "Hcompletion" in
      let Hm := fresh "Hmap" in
      let Ht := fresh "Htelemetry" in
      let Ha := fresh "Hattempts" in
      let Hp := fresh "Hstore" in
      let Ho := fresh "Houtcome" in
      pose proof (tryFeed_exact io f v r g s) as (Hc & (Hm & Ht & Ha) & Hp);
      destruct (tryGetParsedTemplateDataFromCliFeed K pS pD io f v r g s) as [? ?];
      simpl in Hc, Hm, Ht, Ha, Hp; rewrite Hc;
      destruct (outcome_cases io f v r g) as [Ho | [(? & ? & Ho) | (? & Ho)]];
      rewrite Ho in *
  end.

Lemma callback_exact w gs runtime st :
  attempts (callback w gs (w_cliFeedJson w) runtime st).2
  = attempts st ++ untilResult (sources w gs (persisted st) runtime)
  /\ templatesMap (callback w gs (w_cliFeedJson w) runtime st).2
     = storeResult runtime (untilResult (sources w gs (persisted st) runtime))
         (templatesMap st)
  /\ (forall key,
        key ∉ cacheKeys K runtime ->
        persisted (callback w gs (w_cliFeedJson w) runtime st).2 !! key
        = persisted st !! key).
Proof.
  unfold getTemplateData_callback, candidates, backupVersion, attemptOf, storeResult.
  run_monad.
  destruct gs as [[]|], (w_cliFeedJson w) as [feed|], (w_templateVersion w runtime)
    as [version|].
  all: repeat first [use_cache | use_feed_exact | case_completion]; simpl in *.
  all: try discriminate; try congruence.
  all: repeat match goal with H : Some _ = Some _ |- _ => injection H as <- end.
  all: repeat match goal with
         | H : attempts ?s = _ |- context [attempts ?s] => rewrite H
         | H : templatesMap ?s = _ |- context [templatesMap ?s] => rewrite H
         end;
       rewrite <- ?app_assoc, ?app_nil_r; simpl.
  all: (split; [reflexivity|]); (split; [reflexivity|]).
  all: intros key Hkey;
       repeat match goal with
         | H : forall k, k ∉ _ -> persisted ?s !! k = _ |- context [persisted ?s !! _] =>
             rewrite (H _ Hkey)
         | H : persisted ?s = _ |- context [persisted ?s] => rewrite H
         end; reflexivity.
Qed.

Lemma candidates_store w gs store store' runtime :
  store !! versionKey runtime = store' !! versionKey runtime ->
  sources w gs store runtime = sources w gs store' runtime.
Proof. unfold candidates. by intros ->. Qed.

Lemma versionKey_other_runtime runtime runtime' :
  runtime <> runtime' -> versionKey runtime' ∉ cacheKeys K runtime.
Proof.
  intros Hne. apply (cacheKeys_disjoint K runtime' runtime); [done|].
  unfold cacheKeys. left.
Qed.

Lemma getTemplateData_exact w gs st :
  ProjectRuntime_one K <> ProjectRuntime_beta K ->
  (getData w gs st).1
  = Normal (TemplateData_new
              (storeResult (ProjectRuntime_beta K)
                 (untilResult (sources w gs (persisted st) (ProjectRuntime_beta K)))
                 (storeResult (ProjectRuntime_one K)
                    (untilResult (sources w gs (persisted st) (ProjectRuntime_one K))) ∅)))
  /\ attempts (getData w gs st).2
     = attempts st
       ++ untilResult (sources w gs (persisted st) (ProjectRuntime_one K))
       ++ untilResult (sources w gs (persisted st) (ProjectRuntime_beta K)).
Proof.
  intros Hne.
  unfold getTemplateData, projectRuntimes, forEach, callWithTelemetryAndErrorHandling.
  run_monad.
  match goal with
  | |- context [getTemplateData_callback ?K ?pS ?pD ?w ?g ?f ?r ?s] =>
      pose proof (callback_exact w g r s) as (Ha1 & Hm1 & Hp1);
      destruct (getTemplateData_callback K pS pD w g f r s) as [c1 s1]
  end.
  simpl in Ha1, Hm1, Hp1.
  assert (Hstep : forall (sa : State),
            persisted sa = persisted s1 -> templatesMap sa = templatesMap s1 ->
            attempts sa = attempts s1 ->
            let r2 := callback w gs (w_cliFeedJson w) (ProjectRuntime_beta K)
                        (set_properties (fun _ => []) sa) in
            templatesMap r2.2
            = storeResult (ProjectRuntime_beta K)
                (untilResult (sources w gs (persisted st) (ProjectRuntime_beta K)))
                (storeResult (ProjectRuntime_one K)
                   (untilResult (sources w gs (persisted st) (ProjectRuntime_one K))) ∅)
            /\ attempts r2.2
               = attempts st
                 ++ untilResult (sources w gs (persisted st) (ProjectRuntime_one K))
                 ++ untilResult (sources w gs (persisted st) (ProjectRuntime_beta K))).
  { intros sa Hp Hm Ha. cbv zeta.
    destruct (callback_exact w gs (ProjectRuntime_beta K) (set_properties (fun _ => []) sa))
      as (Ha2 & Hm2 & _).
    simpl in Ha2, Hm2.
    rewrite (candidates_store w gs (persisted sa) (persisted st)) in Ha2, Hm2
      by (rewrite Hp; apply Hp1; by apply versionKey_other_runtime).
    rewrite Ha2, Hm2, Hm, Hm1, Ha, Ha1. by rewrite <- app_assoc. }
  destruct c1 as [[]|e1]; simpl.
  all: match goal with
       | |- context [getTemplateData_callback _ _ _ _ _ _ _ (set_properties _ ?sa)] =>
           specialize (Hstep sa eq_refl eq_refl eq_refl)
       end;
    cbv zeta in Hstep;
    match goal with
    | |- context [getTemplateData_callback ?K ?pS ?pD ?w ?g ?f ?r ?s] =>
        destruct (getTemplateData_callback K pS pD w g f r s) as [[[]|e2] s2]
    end; simpl in *; destruct Hstep as [-> ->]; split; reflexivity.
Qed.

(** The attempts that come into question are made for the runtime, in the
    order of the tiers, and none of them yields the empty list. *)
Lemma candidates_forRuntime w gs store runtime : forRuntime runtime (sources w gs store runtime).
Proof.
  unfold forRuntime, candidates.
  repeat (apply Forall_app; split); repeat case_match; repeat constructor.
Qed.

Lemma candidates_inTierOrder w gs store runtime : inTierOrder (sources w gs store runtime).
Proof.
  unfold inTierOrder, candidates, tierOrder. rewrite !map_app.
  change [MatchingCache; CliFeed; MismatchCache; BackupCliFeed]
    with ([MatchingCache] ++ [CliFeed] ++ [MismatchCache] ++ [BackupCliFeed]).
  repeat (apply sublist_app); repeat case_match; simpl;
    first [apply sublist_nil_l | reflexivity].
Qed.

Lemma candidates_noEmptyResult w gs store runtime :
  noEmptyResult (sources w gs store runtime).
Proof.
  unfold noEmptyResult, candidates.
  repeat (apply Forall_app; split); repeat case_match; repeat constructor; simpl;
    try discriminate.
  all: match goal with
       | |- outcome ?io ?f ?v ?r ?g <> _ =>
           destruct (outcome_cases io f v r g) as [-> | [(? & ? & ->) | (? & ->)]];
           discriminate
       end.
Qed.

End Tiers.

(** C2. For each of the two runtimes, the attempts [getTemplateData] makes
    are exactly these: of the sources that come into question for the
    runtime (the matching cache, the feed at the requested version, the
    stale cache, the feed at the backup version, in this order, each under
    its condition and with the completion of its reader), the first one is
    attempted, and each later one exactly when every earlier one completed
    with [undefined]. So the attempts follow the order of the tiers, and
    an attempt is followed by another one only when it produced no
    result. *)
Theorem getTemplateData_tiers_in_order
    (K : Constants)
    (parseScriptTemplates : Json -> Json -> Json -> Completion (list IFunctionTemplate))
    (parseDotnetTemplates : Json -> string -> Completion (list IFunctionTemplate))
    (w : World) (globalState : option Memento) (st : State) :
  ProjectRuntime_one K <> ProjectRuntime_beta K ->
  let traceOne :=
    untilResult
      (candidates K parseScriptTemplates parseDotnetTemplates w globalState (persisted st)
         (ProjectRuntime_one K)) in
  let traceBeta :=
    untilResult
      (candidates K parseScriptTemplates parseDotnetTemplates w globalState (persisted st)
         (ProjectRuntime_beta K)) in
  attempts (getTemplateData K parseScriptTemplates parseDotnetTemplates w globalState st).2
  = attempts st ++ traceOne ++ traceBeta
  /\ forRuntime (ProjectRuntime_one K) traceOne
  /\ forRuntime (ProjectRuntime_beta K) traceBeta
  /\ inTierOrder traceOne /\ laterOnlyAfterNothing traceOne
  /\ inTierOrder traceBeta /\ laterOnlyAfterNothing traceBeta.
Proof.
  intros Hne. cbv zeta.
  destruct (getTemplateData_exact K parseScriptTemplates parseDotnetTemplates w globalState st
              Hne) as [_ Hattempts].
  split; [exact Hattempts|].
  assert (Hfor : forall runtime,
            forRuntime runtime
              (untilResult
                 (candidates K parseScriptTemplates parseDotnetTemplates w globalState
                    (persisted st) runtime))).
  { intros runtime. unfold forRuntime. rewrite Forall_forall. intros a Ha.
    pose proof (candidates_forRuntime K parseScriptTemplates parseDotnetTemplates w
                  globalState (persisted st) runtime) as Hall.
    unfold forRuntime in Hall. rewrite Forall_forall in Hall. apply Hall.
    eapply elem_of_sublist; [exact Ha | apply untilResult_sublist]. }
  assert (Hord : forall runtime,
            inTierOrder
              (untilResult
                 (candidates K parseScriptTemplates parseDotnetTemplates w globalState
                    (persisted st) runtime))).
  { intros runtime. unfold inTierOrder. etrans; [|apply candidates_inTierOrder].
    apply fmap_sublist, untilResult_sublist. }
  repeat split; first [apply Hfor | apply Hord | apply untilResult_later].
Qed.

Lemma getTemplateData_tiers_in_order_witness :
  let traceOne :=
    untilResult
      (candidates extensionConstants sampleParseScriptTemplates sampleParseDotnetTemplates
         offlineWorld (Some hostMemento) (persisted (initialState sampleStore)) "~1") in
  let traceBeta :=
    untilResult
      (candidates extensionConstants sampleParseScriptTemplates sampleParseDotnetTemplates
         offlineWorld (Some hostMemento) (persisted (initialState sampleStore)) "beta") in
  attempts
    (getTemplateData extensionConstants sampleParseScriptTemplates sampleParseDotnetTemplates
       offlineWorld (Some hostMemento) (initialState sampleStore)).2
  = attempts (initialState sampleStore) ++ traceOne ++ traceBeta
  /\ forRuntime "~1" traceOne
  /\ forRuntime "beta" traceBeta
  /\ inTierOrder traceOne /\ laterOnlyAfterNothing traceOne
  /\ inTierOrder traceBeta /\ laterOnlyAfterNothing traceBeta.
Proof.
  apply (getTemplateData_tiers_in_order extensionConstants sampleParseScriptTemplates
           sampleParseDotnetTemplates offlineWorld (Some hostMemento)
           (initialState sampleStore)).
  discriminate.
Defined.

(** C3. The list stored for a runtime is the first non-empty list yielded
    by the attempts made for it, which are those of C2, and nothing is
    stored when there is none. No source ever yields the empty list: an
    attempt on the cache completes with [undefined], and a list returned by
    a feed attempt has passed the verification; so the first result that is
    not [undefined], which is what the code accepts, is the first non-empty
    one. *)
Theorem getTemplateData_first_nonempty_result
    (K : Constants)
    (parseScriptTemplates : Json -> Json -> Json -> Completion (list IFunctionTemplate))
    (parseDotnetTemplates : Json -> string -> Completion (list IFunctionTemplate))
    (w : World) (globalState : option Memento) (st : State) :
  ProjectRuntime_one K <> ProjectRuntime_beta K ->
  let sourcesOne :=
    candidates K parseScriptTemplates parseDotnetTemplates w globalState (persisted st)
      (ProjectRuntime_one K) in
  let sourcesBeta :=
    candidates K parseScriptTemplates parseDotnetTemplates w globalState (persisted st)
      (ProjectRuntime_beta K) in
  exists data : TemplateData,
    (getTemplateData K parseScriptTemplates parseDotnetTemplates w globalState st).1
    = Normal data
    /\ attempts (getTemplateData K parseScriptTemplates parseDotnetTemplates w globalState st).2
       = attempts st ++ untilResult sourcesOne ++ untilResult sourcesBeta
    /\ _templatesMap data !! ProjectRuntime_one K = firstNonEmpty (untilResult sourcesOne)
    /\ _templatesMap data !! ProjectRuntime_beta K = firstNonEmpty (untilResult sourcesBeta)
    /\ noEmptyResult sourcesOne
    /\ noEmptyResult sourcesBeta.
Proof.
  intros Hne. cbv zeta.
  destruct (getTemplateData_exact K parseScriptTemplates parseDotnetTemplates w globalState st
              Hne) as [Hres Hattempts].
  eexists. split; [exact Hres|]. split; [exact Hattempts|]. simpl.
  split; [|split; [|split]].
  - rewrite storeResult_lookup_ne by done. rewrite storeResult_lookup.
    by destruct (firstNonEmpty _).
  - rewrite storeResult_lookup. destruct (firstNonEmpty _); [done|].
    by rewrite storeResult_lookup_ne.
  - apply candidates_noEmptyResult.
  - apply candidates_noEmptyResult.
Qed.

Lemma getTemplateData_first_nonempty_result_witness :
  let sourcesOne :=
    candidates extensionConstants sampleParseScriptTemplates sampleParseDotnetTemplates
      onlineWorld (Some hostMemento) (persisted (initialState sampleStore)) "~1" in
  let sourcesBeta :=
    candidates extensionConstants sampleParseScriptTemplates sampleParseDotnetTemplates
      onlineWorld (Some hostMemento) (persisted (initialState sampleStore)) "beta" in
  exists data : TemplateData,
    (getTemplateData extensionConstants sampleParseScriptTemplates
       sampleParseDotnetTemplates onlineWorld (Some hostMemento)
       (initialState sampleStore)).1 = Normal data
    /\ attempts
         (getTemplateData extensionConstants sampleParseScriptTemplates
            sampleParseDotnetTemplates onlineWorld (Some hostMemento)
            (initialState sampleStore)).2
       = attempts (initialState sampleStore)
         ++ untilResult sourcesOne ++ untilResult sourcesBeta
    /\ _templatesMap data !! "~1" = firstNonEmpty (untilResult sourcesOne)
    /\ _templatesMap data !! "beta" = firstNonEmpty (untilResult sourcesBeta)
    /\ noEmptyResult sourcesOne
    /\ noEmptyResult sourcesBeta.
Proof.
  apply (getTemplateData_first_nonempty_result extensionConstants sampleParseScriptTemplates
           sampleParseDotnetTemplates onlineWorld (Some hostMemento) (initialState sampleStore)).
  discriminate.
Defined.

(** With a store holding the requested versions and a feed that answers,
    the matching cache is attempted first and yields nothing, and the feed
    at the requested version provides the templates that are stored. *)
Example matching_cache_then_feed_online :
  map (fun a => (at_runtime a, at_tier a))
    (attempts
       (getTemplateData extensionConstants sampleParseScriptTemplates
          sampleParseDotnetTemplates onlineWorld (Some hostMemento)
          (initialState sampleStore)).2)
  = [("~1", MatchingCache); ("~1", CliFeed); ("beta", MatchingCache); ("beta", CliFeed)]
  /\ candidates extensionConstants sampleParseScriptTemplates sampleParseDotnetTemplates
       onlineWorld (Some hostMemento) sampleStore "~1"
     = [attemptOf "~1" MatchingCache (Normal None);
        attemptOf "~1" CliFeed (Normal (Some sampleParsed));
        attemptOf "~1" MismatchCache (Normal None);
        attemptOf "~1" BackupCliFeed (Normal (Some sampleParsed))].
Proof. vm_compute. split; reflexivity. Qed.

(** ** Failures of a feed attempt *)

Section FeedFailures.

Context (K : Constants).
Context (parseScriptTemplates : Json -> Json -> Json -> Completion (list IFunctionTemplate)).
Context (parseDotnetTemplates : Json -> string -> Completion (list IFunctionTemplate)).

Local Abbreviation tryFeed :=
  (tryGetParsedTemplateDataFromCliFeed K parseScriptTemplates parseDotnetTemplates).
Local Abbreviation feedTry := (cliFeed_try K parseScriptTemplates parseDotnetTemplates).

(** Each step of the [try] block that can fail makes the block throw. *)
Lemma feedTry_release_missing io feed version runtime gs st :
  releases feed !! version = None ->
  exists e, (feedTry io feed version runtime gs st).1 = Throw e.
Proof.
  intros H. unfold cliFeed_try, releaseField. run_monad. rewrite H. simpl. eauto.
Qed.

Lemma feedTry_download_fails io feed version runtime gs st release e :
  releases feed !! version = Some release ->
  io_downloadFile io (templateApiZip release) = Throw e ->
  (feedTry io feed version runtime gs st).1 = Throw e.
Proof.
  intros H He. unfold cliFeed_try, releaseField, downloadAndExtractTemplates. run_monad.
  rewrite H. simpl. by rewrite He.
Qed.

Lemma feedTry_extract_fails io feed version runtime gs st release e :
  releases feed !! version = Some release ->
  io_downloadFile io (templateApiZip release) = Normal tt ->
  io_extract io = Throw e ->
  (feedTry io feed version runtime gs st).1 = Throw e.
Proof.
  intros H Hd He. unfold cliFeed_try, releaseField, downloadAndExtractTemplates. run_monad.
  rewrite H. simpl. by rewrite Hd, He.
Qed.

End FeedFailures.

(** With a store, a feed manifest and no network, the four tiers are tried
    in turn for each runtime, and no templates are obtained. *)
Example all_four_tiers_when_downloads_fail :
  map (fun a => (at_runtime a, at_tier a))
    (attempts
       (getTemplateData extensionConstants sampleParseScriptTemplates
          sampleParseDotnetTemplates offlineWorld (Some hostMemento)
          (initialState sampleStore)).2)
  = [("~1", MatchingCache); ("~1", CliFeed); ("~1", MismatchCache); ("~1", BackupCliFeed);
     ("beta", MatchingCache); ("beta", CliFeed); ("beta", MismatchCache);
     ("beta", BackupCliFeed)]
  /\ (getTemplateData extensionConstants sampleParseScriptTemplates
        sampleParseDotnetTemplates offlineWorld (Some hostMemento)
        (initialState sampleStore)).1 = Normal (TemplateData_new ∅).
Proof. vm_compute. split; reflexivity. Qed.

(** C1 (what the code does instead). The cache reader returns [undefined]
    for every store. At the failing input the store holds the version the
    feed announces for runtime '~1' and a complete copy of the templates:
    the [try] block of the reader parses them, the reader returns
    [undefined] all the same, and [getTemplateData] goes on to download
    from the feed. *)
Theorem matching_cache_discarded_for_feed :
  (forall K parseScriptTemplates parseDotnetTemplates runtime globalState st,
     (tryGetParsedTemplateDataFromCache K parseScriptTemplates parseDotnetTemplates
        runtime globalState st).1 = Normal None)
  /\ JsValue.strictEq_string
       (sampleStore !! versionKey "~1") (w_templateVersion onlineWorld "~1") = true
  /\ (cache_try extensionConstants sampleParseScriptTemplates sampleParseDotnetTemplates
        "~1" hostMemento (initialState sampleStore)).1 = Normal sampleParsed
  /\ length sampleParsed = 8
  /\ (tryGetParsedTemplateDataFromCache extensionConstants sampleParseScriptTemplates
        sampleParseDotnetTemplates "~1" hostMemento (initialState sampleStore)).1
     = Normal None
  /\ attempts
       (getTemplateData_callback extensionConstants sampleParseScriptTemplates
          sampleParseDotnetTemplates onlineWorld (Some hostMemento) (Some sampleFeed) "~1"
          (initialState sampleStore)).2
     = [ {| at_runtime := "~1"; at_tier := MatchingCache; at_completion := Normal None |};
         {| at_runtime := "~1"; at_tier := CliFeed;
            at_completion := Normal (Some sampleParsed) |} ].
Proof.
  split.
  - intros K pS pD runtime gs st. apply tryCache_undefined.
  - vm_compute. repeat split.
Qed.






(** * Further properties *)

(** ** [tryGetTemplateVersionSetting] *)

Ltac run_eff :=
  cbv beta iota zeta delta
    [ebind eret eawait ethrow etry_catch setContextProperty getFuncExtensionSetting
     updateGlobalSetting tagRelease fst snd].

Ltac case_eff :=
  match goal with
  | |- context [match ?c with Normal _ => _ | Throw _ => _ end] => destruct c eqn:?
  | |- context [match ?o with Some _ => _ | None => _ end] => destruct o eqn:?
  | |- context [match ?c with SelectVersion => _ | UseLatest => _ end] => destruct c eqn:?
  | |- context [match ?p with JsObject.Own _ => _ | JsObject.Inherited => _
                            | JsObject.Missing => _ end] => destruct p eqn:?
  | |- context [if ?b then _ else _] => destruct b eqn:?
  | u : unit |- _ => destruct u
  end.

Ltac start_eq :=
  unfold startVersion, truthy_opt;
  repeat match goal with H : ?l = _ |- context [?l] => rewrite H end;
  reflexivity.

Section TemplateVersionSettingFacts.

Context (getFeedRuntime : string -> Completion string).

Local Abbreviation resolve := (tryGetTemplateVersionSetting getFeedRuntime).

Lemma resolve_sound ui feed runtime feedRuntime s version :
  getFeedRuntime runtime = Normal feedRuntime ->
  (resolve ui feed runtime s).1 = Normal (Some version) ->
  exists cliFeedJson,
    feed = Some cliFeedJson
    /\ Resolution ui cliFeedJson feedRuntime (templateVersionSetting s) version
         (templateVersionSetting (resolve ui feed runtime s).2).
Proof.
  intros Hfr. unfold tryGetTemplateVersionSetting. run_eff. rewrite Hfr.
  repeat case_eff; simpl; intros [=]; subst; eexists; (split; [reflexivity|]).
  all: repeat match goal with
         | H : templateVersionSetting ?x = _ |- _ => rewrite H in *; clear H
         end.
  all: first
    [ eapply resolution_listed; [start_eq | simpl in *; congruence]
    | eapply resolution_picked; [start_eq | eauto ..]
    | eapply resolution_latest; [start_eq | eauto using get_own_inv ..] ].
Qed.

Lemma resolve_failures ui feed runtime feedRuntime s :
  getFeedRuntime runtime = Normal feedRuntime ->
  (exists result, (resolve ui feed runtime s).1 = Normal result)
  /\ match feed with
     | None => (resolve ui feed runtime s).1 = Normal None
     | Some cliFeedJson =>
         match startVersion cliFeedJson feedRuntime (templateVersionSetting s) with
         | Throw _ => (resolve ui feed runtime s).1 = Normal None
         | Normal requested =>
             JsObject.get (releases cliFeedJson) (propertyKey requested) = JsObject.Missing ->
             match ui_showWarningMessage ui with
             | Throw _ => (resolve ui feed runtime s).1 = Normal None
             | Normal SelectVersion =>
                 match ui_showQuickPick ui (releaseKeys cliFeedJson) with
                 | Throw _ => (resolve ui feed runtime s).1 = Normal None
                 | Normal input =>
                     ui_updateGlobalSetting ui input <> Normal tt ->
                     (resolve ui feed runtime s).1 = Normal None
                 end
             | Normal UseLatest =>
                 JsObject.get (tags cliFeedJson) feedRuntime = JsObject.Missing
                 \/ ui_updateGlobalSetting ui "" <> Normal tt ->
                 (resolve ui feed runtime s).1 = Normal None
             end
         end
     end
  /\ ((resolve ui feed runtime s).1 = Normal None ->
      match feed with
      | Some cliFeedJson => JsObject.get (tags cliFeedJson) feedRuntime <> JsObject.Inherited
      | None => True
      end ->
      templateVersionSetting (resolve ui feed runtime s).2 = templateVersionSetting s).
Proof.
  intros Hfr. unfold tryGetTemplateVersionSetting, startVersion, truthy_opt. run_eff.
  rewrite Hfr.
  destruct feed as [feed|]; cycle 1.
  { repeat case_eff; simpl; (split; [eauto|]); (split; [done|]); done. }
  destruct (templateVersionSetting s) as [v|] eqn:Hsetting;
    [destruct (JsString.truthy v) eqn:Htruthy|];
    destruct (JsObject.get (tags feed) feedRuntime) as [tagged| |] eqn:Htag;
    simpl;
    repeat match goal with
      | |- context [JsObject.get (releases feed) ?k] =>
          destruct (JsObject.get (releases feed) k) eqn:?
      end;
    simpl;
    destruct (ui_showWarningMessage ui) as [[|]|] eqn:Hwarn; simpl;
    try (destruct (ui_showQuickPick ui (releaseKeys feed)) as [input|] eqn:Hpick; simpl);
    try (destruct (ui_updateGlobalSetting ui input) as [[]|] eqn:Hupd; simpl);
    try (destruct (ui_updateGlobalSetting ui "") as [[]|] eqn:Hupd'; simpl);
    (split; [eauto|]);
    (split;
     [ try done; try congruence; try (intros; congruence); try (intros _ [?|?]; congruence)
     | try done; try (intros _ H; exfalso; by eapply H); try discriminate ]).
Qed.

Lemma resolve_listed ui feed runtime feedRuntime s version :
  getFeedRuntime runtime = Normal feedRuntime ->
  requestedVersion feed feedRuntime (templateVersionSetting s) = Some version ->
  is_Some (releases feed !! version) ->
  (resolve ui (Some feed) runtime s).1 = Normal (Some version)
  /\ templateVersionSetting (resolve ui (Some feed) runtime s).2 = templateVersionSetting s.
Proof.
  intros Hfr Hreq [release Hrel%get_own].
  unfold tryGetTemplateVersionSetting, requestedVersion in *. run_eff. rewrite Hfr.
  destruct (templateVersionSetting s) as [v|] eqn:Hset;
    [destruct (JsString.truthy v) eqn:Htruthy|].
  - injection Hreq as ->. simpl. by rewrite Hrel.
  - apply get_own in Hreq. rewrite Hreq. simpl. by rewrite Hrel.
  - apply get_own in Hreq. rewrite Hreq. simpl. by rewrite Hrel.
Qed.

End TemplateVersionSettingFacts.

Lemma releaseKeys_listed (feed : CliFeedJson) (version : string) :
  version ∈ releaseKeys feed <-> is_Some (releases feed !! version).
Proof.
  unfold releaseKeys. rewrite list_elem_of_fmap. split.
  - intros ([k release] & -> & Hin). apply elem_of_map_to_list in Hin. by exists release.
  - intros [release Hrel]. exists (version, release). split; [done|].
    by apply elem_of_map_to_list.
Qed.

Lemma get_listed_or_inherited {A} (own : gmap string A) key :
  JsObject.get own key <> JsObject.Missing ->
  is_Some (own !! key) \/ key ∈ JsObject.prototypeNames.
Proof.
  unfold JsObject.get. destruct (own !! key); [by left; eauto|].
  case_bool_decide; [by right | done].
Qed.

(** X1. When [tryGetTemplateVersionSetting] returns a version, a feed was
    given and the version is a release the feed lists, or the name of a
    property that every object inherits (such a name passes the test on the
    releases object), or, after the user chose 'Use latest', the release
    tagged for the runtime, the setting being reset to the empty string. *)
Theorem resolved_version_is_listed_or_latest
    (getFeedRuntime : string -> Completion string) (ui : VersionUI)
    (feed : option CliFeedJson) (runtime feedRuntime : string) (s : SettingsState)
    (version : string) :
  getFeedRuntime runtime = Normal feedRuntime ->
  picksOffered ui ->
  (tryGetTemplateVersionSetting getFeedRuntime ui feed runtime s).1
  = Normal (Some version) ->
  exists cliFeedJson,
    feed = Some cliFeedJson
    /\ (is_Some (releases cliFeedJson !! version)
        \/ version ∈ JsObject.prototypeNames
        \/ (tags cliFeedJson !! feedRuntime = Some version
            /\ ui_showWarningMessage ui = Normal UseLatest
            /\ templateVersionSetting
                 (tryGetTemplateVersionSetting getFeedRuntime ui feed runtime s).2
               = Some "")).
Proof.
  intros Hfr Hpick Hres.
  destruct (resolve_sound getFeedRuntime ui feed runtime feedRuntime s version Hfr Hres)
    as (cliFeedJson & -> & Hresolution).
  exists cliFeedJson. split; [done|].
  inversion Hresolution as [v Hreq Hlisted | requested v Hreq Hun Hwarn Hq Hupd
                           | requested v Hreq Hun Hwarn Htag Hupd]; subst.
  - destruct (get_listed_or_inherited _ _ Hlisted); auto.
  - left. apply releaseKeys_listed. by eapply Hpick.
  - right. right. auto.
Qed.

Lemma resolved_version_is_listed_or_latest_witness :
  exists cliFeedJson,
    Some sampleFeed = Some cliFeedJson
    /\ (is_Some (releases cliFeedJson !! "1.4.0")
        \/ "1.4.0" ∈ JsObject.prototypeNames
        \/ (tags cliFeedJson !! "v1" = Some "1.4.0"
            /\ ui_showWarningMessage useLatestUI = Normal UseLatest
            /\ templateVersionSetting
                 (tryGetTemplateVersionSetting sampleGetFeedRuntime useLatestUI
                    (Some sampleFeed) "~1"
                    {| templateVersionSetting := Some "0.0.1"; contextProperties := [] |}).2
               = Some "")).
Proof.
  apply (resolved_version_is_listed_or_latest sampleGetFeedRuntime useLatestUI
           (Some sampleFeed) "~1" "v1"
           {| templateVersionSetting := Some "0.0.1"; contextProperties := [] |} "1.4.0").
  - reflexivity.
  - intros labels label H. discriminate H.
  - reflexivity.
Defined.

(** X2. Once the feed runtime is known, [tryGetTemplateVersionSetting]
    never throws, and each failure gives [undefined]: no feed; no tag for
    the runtime when the tag is needed; and, when the version the call
    starts from does not pass the test on the releases, a dismissed warning,
    a dismissed quick pick, a failed write of the setting, or (after 'Use
    latest') a missing tag. An [undefined] result leaves the setting as it
    was, unless the tag of the runtime is an inherited property. *)
Theorem template_version_failures_give_undefined
    (getFeedRuntime : string -> Completion string) (ui : VersionUI)
    (feed : option CliFeedJson) (runtime feedRuntime : string) (s : SettingsState) :
  getFeedRuntime runtime = Normal feedRuntime ->
  (exists result,
     (tryGetTemplateVersionSetting getFeedRuntime ui feed runtime s).1 = Normal result)
  /\ match feed with
     | None => (tryGetTemplateVersionSetting getFeedRuntime ui feed runtime s).1 = Normal None
     | Some cliFeedJson =>
         match startVersion cliFeedJson feedRuntime (templateVersionSetting s) with
         | Throw _ =>
             (tryGetTemplateVersionSetting getFeedRuntime ui feed runtime s).1 = Normal None
         | Normal requested =>
             JsObject.get (releases cliFeedJson) (propertyKey requested) = JsObject.Missing ->
             match ui_showWarningMessage ui with
             | Throw _ =>
                 (tryGetTemplateVersionSetting getFeedRuntime ui feed runtime s).1
                 = Normal None
             | Normal SelectVersion =>
                 match ui_showQuickPick ui (releaseKeys cliFeedJson) with
                 | Throw _ =>
                     (tryGetTemplateVersionSetting getFeedRuntime ui feed runtime s).1
                     = Normal None
                 | Normal input =>
                     ui_updateGlobalSetting ui input <> Normal tt ->
                     (tryGetTemplateVersionSetting getFeedRuntime ui feed runtime s).1
                     = Normal None
                 end
             | Normal UseLatest =>
                 JsObject.get (tags cliFeedJson) feedRuntime = JsObject.Missing
                 \/ ui_updateGlobalSetting ui "" <> Normal tt ->
                 (tryGetTemplateVersionSetting getFeedRuntime ui feed runtime s).1
                 = Normal None
             end
         end
     end
  /\ ((tryGetTemplateVersionSetting getFeedRuntime ui feed runtime s).1 = Normal None ->
      match feed with
      | Some cliFeedJson =>
          JsObject.get (tags cliFeedJson) feedRuntime <> JsObject.Inherited
      | None => True
      end ->
      templateVersionSetting
        (tryGetTemplateVersionSetting getFeedRuntime ui feed runtime s).2
      = templateVersionSetting s).
Proof. apply resolve_failures. Qed.

Lemma template_version_failures_give_undefined_witness :
  (tryGetTemplateVersionSetting sampleGetFeedRuntime dismissingUI (Some sampleFeed) "beta"
     {| templateVersionSetting := Some "9.9.9"; contextProperties := [] |}).1
  = Normal None.
Proof.
  destruct (template_version_failures_give_undefined sampleGetFeedRuntime dismissingUI
              (Some sampleFeed) "beta" "v2"
              {| templateVersionSetting := Some "9.9.9"; contextProperties := [] |}
              eq_refl) as (_ & Hfail & _).
  exact (Hfail eq_refl).
Defined.

(** X3. A version that the feed lists, whether it comes from a non-empty
    user setting or from the runtime's tag, is returned as it is: no dialog
    is consulted and the setting is not written. *)
Theorem listed_version_returned_without_prompt
    (getFeedRuntime : string -> Completion string) (ui : VersionUI)
    (feed : CliFeedJson) (runtime feedRuntime : string) (s : SettingsState)
    (version : string) :
  getFeedRuntime runtime = Normal feedRuntime ->
  requestedVersion feed feedRuntime (templateVersionSetting s) = Some version ->
  is_Some (releases feed !! version) ->
  (tryGetTemplateVersionSetting getFeedRuntime ui (Some feed) runtime s).1
  = Normal (Some version)
  /\ templateVersionSetting
       (tryGetTemplateVersionSetting getFeedRuntime ui (Some feed) runtime s).2
     = templateVersionSetting s.
Proof. apply resolve_listed. Qed.

Lemma listed_version_returned_without_prompt_witness :
  (tryGetTemplateVersionSetting sampleGetFeedRuntime dismissingUI (Some sampleFeed) "beta"
     {| templateVersionSetting := Some "2.3.1"; contextProperties := [] |}).1
  = Normal (Some "2.3.1")
  /\ templateVersionSetting
       (tryGetTemplateVersionSetting sampleGetFeedRuntime dismissingUI (Some sampleFeed)
          "beta" {| templateVersionSetting := Some "2.3.1"; contextProperties := [] |}).2
     = Some "2.3.1".
Proof.
  apply (listed_version_returned_without_prompt sampleGetFeedRuntime dismissingUI sampleFeed
           "beta" "v2" {| templateVersionSetting := Some "2.3.1"; contextProperties := [] |}
           "2.3.1").
  - reflexivity.
  - reflexivity.
  - eexists. reflexivity.
Defined.

(** X4. After the user answered 'Use latest' to a version setting that does
    not pass the test on the releases (it is neither listed nor the name of
    an inherited property), the setting is the empty string, which counts
    as unset: the next call, whatever the user would answer, returns the
    release tagged for the runtime without a dialog, provided the feed
    lists it. *)
Theorem use_latest_then_no_prompt
    (getFeedRuntime : string -> Completion string) (ui ui' : VersionUI)
    (feed : CliFeedJson) (runtime feedRuntime : string) (s : SettingsState)
    (requested latest : string) :
  getFeedRuntime runtime = Normal feedRuntime ->
  templateVersionSetting s = Some requested ->
  JsString.truthy requested = true ->
  JsObject.get (releases feed) requested = JsObject.Missing ->
  ui_showWarningMessage ui = Normal UseLatest ->
  ui_updateGlobalSetting ui "" = Normal tt ->
  tags feed !! feedRuntime = Some latest ->
  is_Some (releases feed !! latest) ->
  let s1 := (tryGetTemplateVersionSetting getFeedRuntime ui (Some feed) runtime s).2 in
  (tryGetTemplateVersionSetting getFeedRuntime ui (Some feed) runtime s).1
  = Normal (Some latest)
  /\ templateVersionSetting s1 = Some ""
  /\ (tryGetTemplateVersionSetting getFeedRuntime ui' (Some feed) runtime s1).1
     = Normal (Some latest)
  /\ templateVersionSetting
       (tryGetTemplateVersionSetting getFeedRuntime ui' (Some feed) runtime s1).2
     = Some "".
Proof.
  intros Hfr Hsetting Htruthy Hun Hwarn Hupd Htag Hlisted. cbv zeta.
  assert (Hfirst :
            (tryGetTemplateVersionSetting getFeedRuntime ui (Some feed) runtime s).1
            = Normal (Some latest)
            /\ templateVersionSetting
                 (tryGetTemplateVersionSetting getFeedRuntime ui (Some feed) runtime s).2
               = Some "").
  { unfold tryGetTemplateVersionSetting. run_eff. rewrite Hfr, Hsetting, Htruthy. simpl.
    rewrite Hun. simpl. rewrite Hwarn. simpl. rewrite (get_own _ _ _ Htag). simpl.
    by rewrite Hupd. }
  destruct Hfirst as [Hres Hset]. split; [done|]. split; [done|].
  pose proof (resolve_listed getFeedRuntime ui' feed runtime feedRuntime
                (tryGetTemplateVersionSetting getFeedRuntime ui (Some feed) runtime s).2
                latest Hfr) as Hsecond.
  rewrite Hset in Hsecond. by apply Hsecond.
Qed.

Lemma use_latest_then_no_prompt_witness :
  let s0 := {| templateVersionSetting := Some "0.0.1"; contextProperties := [] |} in
  let s1 :=
    (tryGetTemplateVersionSetting sampleGetFeedRuntime useLatestUI (Some sampleFeed) "~1" s0).2 in
  (tryGetTemplateVersionSetting sampleGetFeedRuntime useLatestUI (Some sampleFeed) "~1" s0).1
  = Normal (Some "1.4.0")
  /\ templateVersionSetting s1 = Some ""
  /\ (tryGetTemplateVersionSetting sampleGetFeedRuntime dismissingUI (Some sampleFeed)
        "~1" s1).1 = Normal (Some "1.4.0")
  /\ templateVersionSetting
       (tryGetTemplateVersionSetting sampleGetFeedRuntime dismissingUI (Some sampleFeed)
          "~1" s1).2 = Some "".
Proof.
  apply (use_latest_then_no_prompt sampleGetFeedRuntime useLatestUI dismissingUI sampleFeed
           "~1" "v1" {| templateVersionSetting := Some "0.0.1"; contextProperties := [] |}
           "0.0.1" "1.4.0").
  - reflexivity.
  - reflexivity.
  - reflexivity.
  - reflexivity.
  - reflexivity.
  - reflexivity.
  - reflexivity.
  - eexists. reflexivity.
Defined.

(** ** The cache written by a feed attempt *)

(** X5. A feed attempt for one runtime changes the persisted store at most
    at the five keys of that runtime, and these are never keys of another
    runtime: the cache of the other runtime is left as it was. *)
Theorem feed_attempt_keeps_other_runtime_cache
    (K : Constants)
    (parseScriptTemplates : Json -> Json -> Json -> Completion (list IFunctionTemplate))
    (parseDotnetTemplates : Json -> string -> Completion (list IFunctionTemplate))
    (io : FeedIO) (cliFeedJson : CliFeedJson) (templateVersion runtime : string)
    (globalState : option Memento) (st : State) :
  (forall key,
     key ∉ cacheKeys K runtime ->
     persisted
       (tryGetParsedTemplateDataFromCliFeed K parseScriptTemplates parseDotnetTemplates
          io cliFeedJson templateVersion runtime globalState st).2 !! key
     = persisted st !! key)
  /\ (forall runtime' key,
        runtime <> runtime' ->
        key ∈ cacheKeys K runtime' ->
        (key ∉ cacheKeys K runtime)
        /\ (persisted
              (tryGetParsedTemplateDataFromCliFeed K parseScriptTemplates
                 parseDotnetTemplates io cliFeedJson templateVersion runtime globalState
                 st).2 !! key
            = persisted st !! key)).
Proof.
  split.
  - intros key Hout. by apply tryFeed_store_frame.
  - intros runtime' key Hne Hkey.
    assert (Hout : key ∉ cacheKeys K runtime).
    { intros Hin. by apply (cacheKeys_disjoint K runtime runtime' key Hne). }
    split; [done|]. by apply tryFeed_store_frame.
Qed.

Lemma feed_attempt_keeps_other_runtime_cache_witness :
  let after :=
    (tryGetParsedTemplateDataFromCliFeed extensionConstants sampleParseScriptTemplates
       sampleParseDotnetTemplates onlineIO sampleFeed "2.4.0" "beta" (Some hostMemento)
       (initialState ∅)).2 in
  (versionKey "~1" ∉ cacheKeys extensionConstants "beta")
  /\ (persisted after !! versionKey "~1" = persisted (initialState ∅) !! versionKey "~1").
Proof.
  destruct (feed_attempt_keeps_other_runtime_cache extensionConstants
              sampleParseScriptTemplates sampleParseDotnetTemplates onlineIO sampleFeed
              "2.4.0" "beta" (Some hostMemento) (initialState ∅)) as [_ Hother].
  apply (Hother "~1" (versionKey "~1")).
  - discriminate.
  - vm_compute. left.
Defined.

(** X6. What a successful feed attempt stores can be read back: the stored
    version is strictly equal to the downloaded one, and on any state whose
    store is the one the attempt left, the [try] block of the cache reader
    parses the stored entries into the very list the attempt returned. *)
Theorem cache_holds_what_feed_returned
    (K : Constants)
    (parseScriptTemplates : Json -> Json -> Json -> Completion (list IFunctionTemplate))
    (parseDotnetTemplates : Json -> string -> Completion (list IFunctionTemplate))
    (io : FeedIO) (cliFeedJson : CliFeedJson) (templateVersion runtime : string)
    (st st' : State) (templates : list IFunctionTemplate) :
  feedFilesTruthy io ->
  (tryGetParsedTemplateDataFromCliFeed K parseScriptTemplates parseDotnetTemplates
     io cliFeedJson templateVersion runtime (Some hostMemento) st).1
  = Normal (Some templates) ->
  persisted st'
  = persisted
      (tryGetParsedTemplateDataFromCliFeed K parseScriptTemplates parseDotnetTemplates
         io cliFeedJson templateVersion runtime (Some hostMemento) st).2 ->
  JsValue.strictEq_string (persisted st' !! versionKey runtime) (Some templateVersion) = true
  /\ cache_try K parseScriptTemplates parseDotnetTemplates runtime hostMemento st'
     = (Normal templates, st').
Proof.
  intros [Hfiles Hlist] Hres Hst'.
  destruct (tryFeed_eq K parseScriptTemplates parseDotnetTemplates
              io cliFeedJson templateVersion runtime (Some hostMemento) st)
    as (_ & Hpers & _).
  rewrite Hpers in Hst'. clear Hpers.
  apply tryFeed_success in Hres.
  destruct (feedTry_success K parseScriptTemplates parseDotnetTemplates io cliFeedJson
              templateVersion runtime (Some hostMemento) st templates Hres)
    as (rT & rC & rR & rD & scripts & dn & HR & HT & HC & HD & HpS & HpD & -> & _ & Heq).
  rewrite Heq in Hst'.
  destruct (cacheEntries_lookups K runtime templateVersion rT rC rR rD (persisted st))
    as (Hv & Ht & Hc & Hr & Hd).
  rewrite <- Hst' in Hv, Ht, Hc, Hr, Hd.
  split.
  - rewrite Hv. simpl. apply String.eqb_refl.
  - assert (HtD : JsValue.truthy (Some rD) = true).
    { destruct HD as [->|HD]; [reflexivity | by eapply Hlist]. }
    unfold cache_try. run_monad. rewrite Hr, Ht, Hc.
    rewrite (Hfiles _ _ HR), (Hfiles _ _ HT), (Hfiles _ _ HC). simpl. rewrite HpS.
    rewrite Hd. cbv beta iota. simpl in HtD. rewrite HtD, HpD. reflexivity.
Qed.

Lemma cache_holds_what_feed_returned_witness :
  let after :=
    (tryGetParsedTemplateDataFromCliFeed extensionConstants sampleParseScriptTemplates
       sampleParseDotnetTemplates onlineIO sampleFeed "2.4.0" "beta" (Some hostMemento)
       (initialState ∅)).2 in
  JsValue.strictEq_string (persisted after !! versionKey "beta") (Some "2.4.0") = true
  /\ cache_try extensionConstants sampleParseScriptTemplates sampleParseDotnetTemplates
       "beta" hostMemento after
     = (Normal sampleParsed, after).
Proof.
  apply (cache_holds_what_feed_returned extensionConstants sampleParseScriptTemplates
           sampleParseDotnetTemplates onlineIO sampleFeed "2.4.0" "beta"
           (initialState ∅)).
  - split.
    + intros [] j [= <-]; reflexivity.
    + intros j [= <-]. reflexivity.
  - reflexivity.
  - reflexivity.
Defined.

(** ** [removeLanguageFromId] *)

Lemma before_first_lacks c s : lacks c (JsString.before_first c s).
Proof.
  induction s as [|d s' IH]; simpl; [done|].
  destruct (Ascii.eqb_spec d c); simpl; [done | by split].
Qed.

Lemma before_first_prefix c s : String.prefix (JsString.before_first c s) s = true.
Proof.
  induction s as [|d s' IH]; simpl; [done|].
  destruct (Ascii.eqb_spec d c); simpl; [done|].
  destruct (ascii_dec d d); [done | congruence].
Qed.

Lemma before_first_app c x y :
  lacks c x -> JsString.before_first c (x +:+ String c y) = x.
Proof.
  induction x as [|d x' IH]; intros Hx.
  - simpl. change ("" +:+ String c y) with (String c y). simpl.
    by rewrite Ascii.eqb_refl.
  - destruct Hx as [Hd Hx]. rewrite app_cons. simpl.
    destruct (Ascii.eqb_spec d c); [done|]. by rewrite IH.
Qed.

Lemma before_first_id c x : lacks c x -> JsString.before_first c x = x.
Proof.
  induction x as [|d x' IH]; intros Hx; simpl; [done|].
  destruct Hx as [Hd Hx]. destruct (Ascii.eqb_spec d c); [done|]. by rewrite IH.
Qed.

(** X7. [removeLanguageFromId] returns the part of the id before its first
    '-': the result never contains '-' and is a prefix of the id; an id
    'x-y' whose x has no '-' gives x, and an id without '-' is returned
    whole. *)
Theorem removeLanguageFromId_cuts_at_first_dash (i x y : string) :
  lacks "-"%char x ->
  removeLanguageFromId (x +:+ "-" +:+ y) = x
  /\ removeLanguageFromId x = x
  /\ lacks "-"%char (removeLanguageFromId i)
  /\ String.prefix (removeLanguageFromId i) i = true.
Proof.
  intros Hx. rewrite !removeLanguageFromId_before_first.
  split; [|split; [|split]].
  - change ("-" +:+ y) with (String "-"%char y). by apply before_first_app.
  - by apply before_first_id.
  - apply before_first_lacks.
  - apply before_first_prefix.
Qed.

Lemma removeLanguageFromId_cuts_at_first_dash_witness :
  removeLanguageFromId ("HttpTrigger" +:+ "-" +:+ "JavaScript-Preview") = "HttpTrigger"
  /\ removeLanguageFromId "HttpTrigger" = "HttpTrigger"
  /\ lacks "-"%char (removeLanguageFromId "Azure.Function.CSharp.HttpTrigger.2.x")
  /\ String.prefix (removeLanguageFromId "Azure.Function.CSharp.HttpTrigger.2.x")
       "Azure.Function.CSharp.HttpTrigger.2.x" = true.
Proof.
  apply (removeLanguageFromId_cuts_at_first_dash "Azure.Function.CSharp.HttpTrigger.2.x"
           "HttpTrigger" "JavaScript-Preview").
  simpl. repeat split; discriminate.
Defined.

(** ** [verifyTemplatesByRuntime] *)

Lemma carries_existsb templates i :
  existsb (fun t => String.eqb (Template.id t) i) templates = true <-> carries templates i.
Proof.
  unfold carries. rewrite existsb_exists.
  split; intros (t & Hin & H); exists t; (split; [done|]); by apply String.eqb_eq.
Qed.

Lemma verifyEach_throw templates ids e :
  verifyEach templates ids = Throw e ->
  exists before missing after,
    ids = before ++ missing :: after
    /\ Forall (carries templates) before
    /\ ~ carries templates missing
    /\ e = failedToVerifiedTemplate missing.
Proof.
  induction ids as [|i ids IH]; simpl; [discriminate|].
  destruct (existsb _ templates) eqn:E; simpl.
  - intros H. destruct (IH H) as (before & missing & after & -> & Hb & Hm & ->).
    exists (i :: before), missing, after. repeat split; [|done].
    constructor; [by apply carries_existsb | done].
  - intros [= <-]. exists [], i, ids. repeat split; [constructor|].
    intros Hc%carries_existsb. congruence.
Qed.

(** X8. [verifyTemplatesByRuntime] changes no state. It completes exactly
    when every id to verify (the list of the runtime's generation, without
    the 'CSharp' ids when the .NET CLI is missing) is the id of some
    template; otherwise the error it throws names the first id of the list
    that no template carries. *)
Theorem verifyTemplatesByRuntime_first_missing
    (K : Constants) (io : FeedIO) (templates : list IFunctionTemplate) (runtime : string)
    (st : State) :
  let ids :=
    idsToVerify io
      (if String.eqb runtime (ProjectRuntime_one K)
       then verifiedV1Templates else verifiedV2Templates) in
  (verifyTemplatesByRuntime K io templates runtime st).2 = st
  /\ match (verifyTemplatesByRuntime K io templates runtime st).1 with
     | Normal _ => Forall (carries templates) ids
     | Throw e =>
         exists before missing after,
           ids = before ++ missing :: after
           /\ Forall (carries templates) before
           /\ ~ carries templates missing
           /\ e = failedToVerifiedTemplate missing
     end.
Proof.
  cbv zeta. rewrite verifyTemplatesByRuntime_eq. simpl. split; [done|].
  destruct (verifyEach templates _) as [[]|e] eqn:E.
  - by apply verifyEach_ok.
  - by apply verifyEach_throw.
Qed.

(** ** Feed attempts and [getTemplateData], further *)

Ltac use_cache_store :=
  match goal with
  | |- context [tryGetParsedTemplateDataFromCache ?K ?pS ?pD ?r ?g ?s] =>
      let H := fresh "Hcache" in
      pose proof (tryCache_undefined K pS pD r g s) as H;
      destruct (tryGetParsedTemplateDataFromCache K pS pD r g s) as [? ?];
      simpl in H; destruct H as (-> & ? & ? & ? & ?)
  end.

Section FeedFurther.

Context (K : Constants).
Context (parseScriptTemplates : Json -> Json -> Json -> Completion (list IFunctionTemplate)).
Context (parseDotnetTemplates : Json -> string -> Completion (list IFunctionTemplate)).

Local Abbreviation tryFeed :=
  (tryGetParsedTemplateDataFromCliFeed K parseScriptTemplates parseDotnetTemplates).
Local Abbreviation feedTry := (cliFeed_try K parseScriptTemplates parseDotnetTemplates).
Local Abbreviation callback :=
  (getTemplateData_callback K parseScriptTemplates parseDotnetTemplates).
Local Abbreviation getData :=
  (getTemplateData K parseScriptTemplates parseDotnetTemplates).

Lemma tryFeed_full io feed version runtime gs st :
  templatesMap (tryFeed io feed version runtime gs st).2 = templatesMap st
  /\ (gs = None -> persisted (tryFeed io feed version runtime gs st).2 = persisted st)
  /\ ((tryFeed io feed version runtime gs st).1 = Normal None
      \/ (exists l, (tryFeed io feed version runtime gs st).1 = Normal (Some l)
                    /\ Forall (carries l) commonVerifiedIds)
      \/ (exists e, (tryFeed io feed version runtime gs st).1 = Throw e)).
Proof.
  destruct (tryFeed_eq K parseScriptTemplates parseDotnetTemplates
              io feed version runtime gs st) as ((Hmap & _) & Hpers & Hres).
  split; [done|]. split.
  - intros ->. rewrite Hpers.
    pose proof (feedTry_cases K parseScriptTemplates parseDotnetTemplates
                  io feed version runtime None st) as [_ Hbody].
    destruct (feedTry io feed version runtime None st) as [[[l|]|e] st1]; simpl in *;
      [|done|done].
    by destruct Hbody as (rT & rC & rR & rD & _ & ->).
  - destruct ((tryFeed io feed version runtime gs st).1) as [[l|]|e] eqn:E; eauto.
    right. left. exists l. split; [done|].
    apply tryFeed_success in E.
    by destruct (feedTry_success K parseScriptTemplates parseDotnetTemplates io feed
                   version runtime gs st l E)
      as (rT & rC & rR & rD & scripts & dn & _ & _ & _ & _ & _ & _ & _ & Hc & _).
Qed.

Ltac use_feed_full :=
  match goal with
  | |- context [tryGetParsedTemplateDataFromCliFeed ?K ?pS ?pD ?io ?f ?v ?r ?g ?s] =>
      let H := fresh "Hfeed" in
      pose proof (tryFeed_full io f v r g s) as H;
      destruct (tryGetParsedTemplateDataFromCliFeed K pS pD io f v r g s) as [? ?];
      simpl in H; destruct H as (? & ? & [-> | [(? & -> & ?) | (? & ->)]])
  end.

Lemma callback_frame w gs feed runtime st :
  (gs = None -> persisted (callback w gs feed runtime st).2 = persisted st)
  /\ (feed = None ->
      templatesMap (callback w gs feed runtime st).2 = templatesMap st
      /\ persisted (callback w gs feed runtime st).2 = persisted st)
  /\ (templatesMap (callback w gs feed runtime st).2 = templatesMap st
      \/ exists l,
           Forall (carries l) commonVerifiedIds
           /\ templatesMap (callback w gs feed runtime st).2
              = <[runtime := l]> (templatesMap st)).
Proof.
  unfold getTemplateData_callback. run_monad.
  destruct gs as [[]|], feed as [feed|], (w_templateVersion w runtime) as [version|].
  all: repeat first [use_cache_store | use_feed_full | case_completion]; simpl in *.
  all: repeat match goal with
         | H : None = None -> _ |- _ => specialize (H eq_refl)
         | H : persisted ?s = _ |- context [persisted ?s] => rewrite H
         | H : templatesMap ?s = _ |- context [templatesMap ?s] => rewrite H
         end; simpl.
  all: split; [try done|]; (split; [try done|]); eauto.
Qed.

Lemma getTemplateData_frame w gs st :
  exists data,
    (getData w gs st).1 = Normal data
    /\ (gs = None -> persisted (getData w gs st).2 = persisted st)
    /\ (w_cliFeedJson w = None ->
        _templatesMap data = ∅ /\ persisted (getData w gs st).2 = persisted st)
    /\ (forall runtime l,
          _templatesMap data !! runtime = Some l ->
          (runtime = ProjectRuntime_one K \/ runtime = ProjectRuntime_beta K)
          /\ Forall (carries l) commonVerifiedIds).
Proof.
  unfold getTemplateData, projectRuntimes, forEach, callWithTelemetryAndErrorHandling.
  run_monad.
  match goal with
  | |- context [getTemplateData_callback ?K ?pS ?pD ?w ?g ?f ?r ?s] =>
      pose proof (callback_frame w g f r s) as (Hgs1 & Hfeed1 & Hmap1);
      destruct (getTemplateData_callback K pS pD w g f r s) as [c1 s1]
  end.
  simpl in Hgs1, Hfeed1, Hmap1.
  assert (Hstep : forall (sa : State),
            persisted sa = persisted s1 -> templatesMap sa = templatesMap s1 ->
            let r2 :=
              getTemplateData_callback K parseScriptTemplates parseDotnetTemplates w gs
                (w_cliFeedJson w) (ProjectRuntime_beta K)
                (set_properties (fun _ => []) sa) in
            (gs = None -> persisted r2.2 = persisted st)
            /\ (w_cliFeedJson w = None ->
                templatesMap r2.2 = ∅ /\ persisted r2.2 = persisted st)
            /\ (forall runtime l,
                  templatesMap r2.2 !! runtime = Some l ->
                  (runtime = ProjectRuntime_one K \/ runtime = ProjectRuntime_beta K)
                  /\ Forall (carries l) commonVerifiedIds)).
  { intros sa Hp Hm. cbv zeta.
    pose proof (callback_frame w gs (w_cliFeedJson w) (ProjectRuntime_beta K)
                  (set_properties (fun _ => []) sa)) as (Hgs2 & Hfeed2 & Hmap2).
    simpl in Hgs2, Hfeed2, Hmap2. rewrite Hp, Hm in *.
    split; [|split].
    - intros Hgs. by rewrite Hgs2, Hgs1.
    - intros Hfeed. destruct (Hfeed1 Hfeed) as [Ha Hb].
      destruct (Hfeed2 Hfeed) as [Hc Hd]. split; etrans; eauto.
    - intros runtime l.
      assert (Hone : forall runtime l,
                templatesMap s1 !! runtime = Some l ->
                runtime = ProjectRuntime_one K /\ Forall (carries l) commonVerifiedIds).
      { intros r0 l0. destruct Hmap1 as [->|(l1 & Hl1 & ->)]; simpl.
        - by rewrite lookup_empty.
        - rewrite lookup_insert. case_decide; [|by rewrite lookup_empty].
          intros [= <-]. done. }
      destruct Hmap2 as [->|(l2 & Hl2 & ->)].
      + intros Hl. destruct (Hone _ _ Hl). auto.
      + rewrite lookup_insert. case_decide.
        * intros [= <-]. auto.
        * intros Hl. destruct (Hone _ _ Hl). auto. }
  destruct c1 as [[]|e1]; simpl.
  all: match goal with
       | |- context [getTemplateData_callback _ _ _ _ _ _ _ (set_properties _ ?sa)] =>
           specialize (Hstep sa eq_refl eq_refl)
       end;
    cbv zeta in Hstep;
    match goal with
    | |- context [getTemplateData_callback ?K ?pS ?pD ?w ?g ?f ?r ?s] =>
        destruct (getTemplateData_callback K pS pD w g f r s) as [[[]|e2] s2]
    end; simpl in *; eexists; (split; [reflexivity|]); simpl; exact Hstep.
Qed.

End FeedFurther.

(** X9. Called without a global state, [getTemplateData] leaves the
    persisted store as it was, whatever the feed attempts do. *)
Theorem getTemplateData_without_store_writes_nothing
    (K : Constants)
    (parseScriptTemplates : Json -> Json -> Json -> Completion (list IFunctionTemplate))
    (parseDotnetTemplates : Json -> string -> Completion (list IFunctionTemplate))
    (w : World) (st : State) :
  persisted (getTemplateData K parseScriptTemplates parseDotnetTemplates w None st).2
  = persisted st.
Proof.
  destruct (getTemplateData_frame K parseScriptTemplates parseDotnetTemplates w None st)
    as (data & _ & Hgs & _).
  by apply Hgs.
Qed.

(** X10. Without a feed manifest [getTemplateData] obtains no templates,
    whatever the persisted store holds: the map of the result is empty, the
    store is unchanged, and every call of [getTemplates] on the result
    throws: the recheck-internet error, or a [TypeError] when the runtime
    asked for is the name of a property every object inherits. *)
Theorem no_feed_manifest_no_templates
    (K : Constants)
    (parseScriptTemplates : Json -> Json -> Json -> Completion (list IFunctionTemplate))
    (parseDotnetTemplates : Json -> string -> Completion (list IFunctionTemplate))
    (w : World) (globalState : option Memento) (st : State) :
  w_cliFeedJson w = None ->
  exists data,
    (getTemplateData K parseScriptTemplates parseDotnetTemplates w globalState st).1
    = Normal data
    /\ _templatesMap data = ∅
    /\ persisted
         (getTemplateData K parseScriptTemplates parseDotnetTemplates w globalState st).2
       = persisted st
    /\ forall language runtime templateFilter,
         (getTemplates K data language runtime templateFilter).1
         = Throw (if bool_decide (effectiveRuntime K runtime ∈ JsObject.prototypeNames)
                  then filterIsNotAFunction else retryInternet).
Proof.
  intros Hfeed.
  destruct (getTemplateData_frame K parseScriptTemplates parseDotnetTemplates w globalState st)
    as (data & Hres & _ & Hno & _).
  destruct (Hno Hfeed) as [Hempty Hpers].
  destruct (getTemplateData_run K parseScriptTemplates parseDotnetTemplates w globalState st)
    as (t1 & t2 & Hrun & _).
  rewrite Hres in Hrun. injection Hrun as Hdata.
  exists data. repeat (split; [done|]).
  intros language runtime templateFilter. unfold getTemplates, JsObject.get.
  fold (effectiveRuntime K runtime). rewrite Hempty, lookup_empty.
  destruct (bool_decide _); simpl; [done|]. by rewrite Hdata.
Qed.

Lemma no_feed_manifest_no_templates_witness :
  exists data,
    (getTemplateData extensionConstants sampleParseScriptTemplates
       sampleParseDotnetTemplates noFeedWorld (Some hostMemento) (initialState sampleStore)).1
    = Normal data
    /\ _templatesMap data = ∅
    /\ persisted
         (getTemplateData extensionConstants sampleParseScriptTemplates
            sampleParseDotnetTemplates noFeedWorld (Some hostMemento)
            (initialState sampleStore)).2
       = persisted (initialState sampleStore)
    /\ forall language runtime templateFilter,
         (getTemplates extensionConstants data language runtime templateFilter).1
         = Throw (if bool_decide (effectiveRuntime extensionConstants runtime
                                  ∈ JsObject.prototypeNames)
                  then filterIsNotAFunction else retryInternet).
Proof.
  apply (no_feed_manifest_no_templates extensionConstants sampleParseScriptTemplates
           sampleParseDotnetTemplates noFeedWorld (Some hostMemento)
           (initialState sampleStore)).
  reflexivity.
Defined.

(** X11. [getTemplateData] only fills the entries of the two enum runtimes,
    and every list it stores has passed the verification: it carries each
    of the four verified JavaScript trigger ids. For any other runtime
    [getTemplates] on the result throws: the recheck-internet error, or a
    [TypeError] when the runtime is the name of a property every object
    inherits. *)
Theorem stored_templates_are_verified
    (K : Constants)
    (parseScriptTemplates : Json -> Json -> Json -> Completion (list IFunctionTemplate))
    (parseDotnetTemplates : Json -> string -> Completion (list IFunctionTemplate))
    (w : World) (globalState : option Memento) (st : State) :
  exists data,
    (getTemplateData K parseScriptTemplates parseDotnetTemplates w globalState st).1
    = Normal data
    /\ (forall runtime l,
          _templatesMap data !! runtime = Some l ->
          (runtime = ProjectRuntime_one K \/ runtime = ProjectRuntime_beta K)
          /\ Forall (carries l) commonVerifiedIds)
    /\ (forall language runtime templateFilter,
          runtime <> ProjectRuntime_one K -> runtime <> ProjectRuntime_beta K ->
          (getTemplates K data language (Some runtime) templateFilter).1
          = Throw (if bool_decide (runtime ∈ JsObject.prototypeNames)
                   then filterIsNotAFunction else retryInternet)).
Proof.
  destruct (getTemplateData_frame K parseScriptTemplates parseDotnetTemplates w globalState st)
    as (data & Hres & _ & _ & Hstored).
  destruct (getTemplateData_run K parseScriptTemplates parseDotnetTemplates w globalState st)
    as (t1 & t2 & Hrun & _).
  rewrite Hres in Hrun. injection Hrun as Hdata.
  exists data. split; [done|]. split; [done|].
  intros language runtime templateFilter Hone Hbeta. unfold getTemplates, JsObject.get.
  simpl.
  destruct (_templatesMap data !! runtime) as [l|] eqn:E.
  - destruct (Hstored _ _ E) as [[?|?] _]; congruence.
  - destruct (bool_decide _); [done|]. by rewrite Hdata.
Qed.

(** X12. A missing .NET CLI does not fail a feed attempt: when the archive
    downloads and extracts, the three files parse, the parser accepts the
    empty list of C# templates and every verified id without 'CSharp' is
    carried, the attempt returns the parsed templates and stores an empty
    array under the dotnet key; the C# packages are not needed. *)
Theorem feed_attempt_succeeds_without_dotnet
    (K : Constants)
    (parseScriptTemplates : Json -> Json -> Json -> Completion (list IFunctionTemplate))
    (parseDotnetTemplates : Json -> string -> Completion (list IFunctionTemplate))
    (io : FeedIO) (cliFeedJson : CliFeedJson) (templateVersion runtime : string)
    (globalState : option Memento) (st : State)
    (release : Release) (rR rT rC : Json) (scripts dotnet : list IFunctionTemplate)
    (e : string) :
  io_validateDotnetInstalled io = Throw e ->
  releases cliFeedJson !! templateVersion = Some release ->
  io_downloadFile io (templateApiZip release) = Normal tt ->
  io_extract io = Normal tt ->
  io_readJSON io ResourcesJson = Normal rR ->
  io_readJSON io TemplatesJson = Normal rT ->
  io_readJSON io BindingsJson = Normal rC ->
  parseScriptTemplates rR rT rC = Normal scripts ->
  parseDotnetTemplates (JArr []) runtime = Normal dotnet ->
  Forall (carries (scripts ++ dotnet))
    (List.filter (fun i => negb (JsString.includes "CSharp" i))
       (if String.eqb runtime (ProjectRuntime_one K)
        then verifiedV1Templates else verifiedV2Templates)) ->
  cleanup io = Normal tt ->
  (tryGetParsedTemplateDataFromCliFeed K parseScriptTemplates parseDotnetTemplates
     io cliFeedJson templateVersion runtime globalState st).1
  = Normal (Some (scripts ++ dotnet))
  /\ persisted
       (tryGetParsedTemplateDataFromCliFeed K parseScriptTemplates parseDotnetTemplates
          io cliFeedJson templateVersion runtime globalState st).2
     = match globalState with
       | Some _ =>
           cacheEntries K runtime templateVersion rT rC rR (JArr []) (persisted st)
       | None => persisted st
       end.
Proof.
  intros Hdotnet Hrel Hdl Hext HR HT HC HpS HpD Hver Hclean.
  destruct (tryFeed_eq K parseScriptTemplates parseDotnetTemplates
              io cliFeedJson templateVersion runtime globalState st) as (_ & -> & ->).
  rewrite Hclean.
  assert (Hbody :
            (cliFeed_try K parseScriptTemplates parseDotnetTemplates
               io cliFeedJson templateVersion runtime globalState st).1
            = Normal (Some (scripts ++ dotnet))
            /\ persisted
                 (cliFeed_try K parseScriptTemplates parseDotnetTemplates
                    io cliFeedJson templateVersion runtime globalState st).2
               = match globalState with
                 | Some _ =>
                     cacheEntries K runtime templateVersion rT rC rR (JArr []) (persisted st)
                 | None => persisted st
                 end).
  { unfold cliFeed_try, downloadAndExtractTemplates, downloadAndExtractCSharpTemplates,
      releaseField.
    run_monad. rewrite Hrel. cbv beta iota. rewrite Hdl, Hext, Hdotnet. simpl.
    rewrite HR, HT, HC, HpS, HpD. rewrite verifyTemplatesByRuntime_eq.
    unfold idsToVerify. rewrite Hdotnet.
    apply verifyEach_ok in Hver. rewrite Hver.
    destruct globalState as [[]|]; simpl; by unfold cacheEntries. }
  destruct Hbody as [-> ->]. done.
Qed.

Lemma feed_attempt_succeeds_without_dotnet_witness :
  (tryGetParsedTemplateDataFromCliFeed extensionConstants sampleParseScriptTemplates
     sampleParseDotnetTemplates onlineIO sampleFeed "2.4.0" "beta" None
     (initialState sampleStore)).1
  = Normal (Some (sampleParsed ++ []))
  /\ persisted
       (tryGetParsedTemplateDataFromCliFeed extensionConstants sampleParseScriptTemplates
          sampleParseDotnetTemplates onlineIO sampleFeed "2.4.0" "beta" None
          (initialState sampleStore)).2
     = persisted (initialState sampleStore).
Proof.
  apply (feed_attempt_succeeds_without_dotnet extensionConstants sampleParseScriptTemplates
           sampleParseDotnetTemplates onlineIO sampleFeed "2.4.0" "beta" None
           (initialState sampleStore) (sampleRelease "2.4.0")
           (JObj [("en", JObj [])]) sampleRawTemplates (JObj [("en", JObj [])])
           sampleParsed [] "dotnet: command not found"); try reflexivity.
  apply verifyEach_ok. reflexivity.
Defined.

(** ** [TemplateData.getTemplates], further *)

Lemma filter_sublist_impl {A} (p q : A -> bool) (l : list A) :
  (forall x, p x = true -> q x = true) -> List.filter p l `sublist_of` List.filter q l.
Proof.
  intros Himpl. induction l as [|a l IH]; simpl; [constructor|].
  destruct (p a) eqn:Hp.
  - rewrite (Himpl a Hp). by constructor.
  - destruct (q a); [by constructor | done].
Qed.

(** X13. For a language other than Java, a filter only narrows the
    selection: whatever the filter, the result is a subsequence of the
    result for the filter [All]; and any filter other than [All] and [Core]
    gives the result of the omitted filter (the verified templates). *)
Theorem template_filters_only_narrow
    (K : Constants) (this : TemplateData) (language : string)
    (runtime templateFilter : option string) (templates : list IFunctionTemplate) :
  language <> ProjectLanguage_Java K ->
  _templatesMap this !! effectiveRuntime K runtime = Some templates ->
  (exists selected all,
     (getTemplates K this language runtime templateFilter).1 = Normal selected
     /\ (getTemplates K this language runtime (Some (TemplateFilter_All K))).1 = Normal all
     /\ selected `sublist_of` all)
  /\ (templateFilter <> Some (TemplateFilter_All K) ->
      templateFilter <> Some (TemplateFilter_Core K) ->
      getTemplates K this language runtime templateFilter
      = getTemplates K this language runtime None).
Proof.
  intros Hlang Hmap. split.
  - destruct (getTemplates_other K this language runtime templateFilter templates Hlang Hmap)
      as (selected & Hsel & Hsub & _).
    destruct (getTemplates_other K this language runtime (Some (TemplateFilter_All K))
                templates Hlang Hmap) as (all & Hall & _ & Heq).
    specialize (Heq eq_refl). subst all. by exists selected, (List.filter (sameLanguage language) templates).
  - intros HAll HCore. unfold getTemplates.
    destruct (JsObject.get _ _); [|done..].
    destruct (String.eqb language _); [done|].
    destruct templateFilter as [f|]; [|done].
    destruct (String.eqb_spec f (TemplateFilter_All K)) as [->|_]; [done|].
    destruct (String.eqb_spec f (TemplateFilter_Core K)) as [->|_]; done.
Qed.

Lemma template_filters_only_narrow_witness :
  exists selected all,
    (getTemplates extensionConstants sampleData "JavaScript" (Some "beta") (Some "Newest")).1
    = Normal selected
    /\ (getTemplates extensionConstants sampleData "JavaScript" (Some "beta")
          (Some (TemplateFilter_All extensionConstants))).1 = Normal all
    /\ selected `sublist_of` all.
Proof.
  apply (template_filters_only_narrow extensionConstants sampleData "JavaScript"
           (Some "beta") (Some "Newest") sampleTemplates); [discriminate | reflexivity].
Defined.

(** X14. Outside the Java branch the requested language is compared
    ignoring case: two languages, neither of them the string Java, that are
    equal once lower-cased give the same result for every runtime and
    filter. *)
Theorem language_compared_ignoring_case
    (K : Constants) (this : TemplateData) (language language' : string)
    (runtime templateFilter : option string) :
  language <> ProjectLanguage_Java K ->
  language' <> ProjectLanguage_Java K ->
  JsString.toLowerCase language = JsString.toLowerCase language' ->
  getTemplates K this language runtime templateFilter
  = getTemplates K this language' runtime templateFilter.
Proof.
  intros Hl Hl' Hlower. unfold getTemplates.
  destruct (JsObject.get _ _); [|done..].
  destruct (String.eqb_spec language (ProjectLanguage_Java K)); [done|].
  destruct (String.eqb_spec language' (ProjectLanguage_Java K)); [done|].
  by rewrite Hlower.
Qed.

Lemma language_compared_ignoring_case_witness :
  getTemplates extensionConstants sampleData "c#script" (Some "~1") (Some "Core")
  = getTemplates extensionConstants sampleData "C#Script" (Some "~1") (Some "Core").
Proof.
  apply (language_compared_ignoring_case extensionConstants sampleData "c#script"
           "C#Script" (Some "~1") (Some "Core")); [discriminate | discriminate | reflexivity].
Defined.

(** X15. The templates offered for Java are JavaScript templates: provided
    the two language names differ, the result for Java is, for every
    filter, a subsequence of the result for JavaScript with the filter
    [All]. *)
Theorem java_templates_are_javascript_templates
    (K : Constants) (this : TemplateData) (runtime templateFilter : option string)
    (templates : list IFunctionTemplate) :
  ProjectLanguage_JavaScript K <> ProjectLanguage_Java K ->
  _templatesMap this !! effectiveRuntime K runtime = Some templates ->
  exists java javascript,
    (getTemplates K this (ProjectLanguage_Java K) runtime templateFilter).1 = Normal java
    /\ (getTemplates K this (ProjectLanguage_JavaScript K) runtime
          (Some (TemplateFilter_All K))).1 = Normal javascript
    /\ java `sublist_of` javascript.
Proof.
  intros Hne Hmap.
  destruct (getTemplates_other K this (ProjectLanguage_JavaScript K) runtime
              (Some (TemplateFilter_All K)) templates Hne Hmap) as (js & Hjs & _ & Heq).
  specialize (Heq eq_refl). subst js.
  exists (List.filter (javaSelected K) templates),
         (List.filter (sameLanguage (ProjectLanguage_JavaScript K)) templates).
  split; [by rewrite (getTemplates_java K this runtime templateFilter templates Hmap)|].
  split; [done|].
  apply filter_sublist_impl. intros t. unfold javaSelected, sameLanguage.
  intros [Hlang _]%andb_true_iff. apply String.eqb_eq in Hlang. rewrite Hlang.
  apply String.eqb_refl.
Qed.

Lemma java_templates_are_javascript_templates_witness :
  exists java javascript,
    (getTemplates extensionConstants sampleData "Java" None (Some "Core")).1 = Normal java
    /\ (getTemplates extensionConstants sampleData "JavaScript" None (Some "All")).1
       = Normal javascript
    /\ java `sublist_of` javascript.
Proof.
  apply (java_templates_are_javascript_templates extensionConstants sampleData None
           (Some "Core") sampleTemplates); [discriminate | reflexivity].
Defined.

(** X16. With the filter [Core] (a string other than [All]) and a language
    other than Java, a template is returned exactly when it is stored for
    the runtime, its language equals the requested one ignoring case, and
    its categories include the Core category. *)
Theorem core_filter_selects_core_category
    (K : Constants) (this : TemplateData) (language : string) (runtime : option string)
    (templates : list IFunctionTemplate) :
  language <> ProjectLanguage_Java K ->
  TemplateFilter_Core K <> TemplateFilter_All K ->
  _templatesMap this !! effectiveRuntime K runtime = Some templates ->
  exists selected,
    (getTemplates K this language runtime (Some (TemplateFilter_Core K))).1 = Normal selected
    /\ forall t,
         In t selected
         <-> In t templates
             /\ JsString.toLowerCase (Template.language t) = JsString.toLowerCase language
             /\ In (TemplateCategory_Core K) (Template.categories t).
Proof.
  intros Hlang Hcore Hmap. unfold getTemplates. fold (effectiveRuntime K runtime).
  rewrite (get_own _ _ _ Hmap).
  destruct (String.eqb_spec language (ProjectLanguage_Java K)); [done|].
  destruct (String.eqb_spec (TemplateFilter_Core K) (TemplateFilter_All K)); [done|].
  rewrite String.eqb_refl. eexists. split; [reflexivity|].
  intros t. rewrite !filter_In, bool_decide_eq_true, String.eqb_eq.
  assert (Hfind : Array_find (fun c => String.eqb c (TemplateCategory_Core K))
                    (Template.categories t) <> None
                  <-> In (TemplateCategory_Core K) (Template.categories t)).
  { unfold Array_find. split.
    - destruct (find _ _) as [c|] eqn:E; [|done]. intros _.
      apply find_some in E as [Hin Heq%String.eqb_eq]. by subst.
    - intros Hin Hnone. eapply find_none in Hnone; [|exact Hin].
      by rewrite String.eqb_refl in Hnone. }
  rewrite Hfind. tauto.
Qed.

Lemma core_filter_selects_core_category_witness :
  exists selected,
    (getTemplates extensionConstants sampleData "JavaScript" None
       (Some (TemplateFilter_Core extensionConstants))).1 = Normal selected
    /\ forall t,
         In t selected
         <-> In t sampleTemplates
             /\ JsString.toLowerCase (Template.language t) = JsString.toLowerCase "JavaScript"
             /\ In (TemplateCategory_Core extensionConstants) (Template.categories t).
Proof.
  apply (core_filter_selects_core_category extensionConstants sampleData "JavaScript" None
           sampleTemplates); [discriminate | discriminate | reflexivity].
Defined.

(** * Properties of the further commands *)

Ltac in_inv :=
  repeat match goal with
    | H : _ ∈ [] |- _ => by apply elem_of_nil in H
    | H : _ ∈ _ :: _ |- _ => apply elem_of_cons in H as [H|H]
    end.

(** ** [installFuncCoreTools] *)

Section InstallFacts.

Context (env : InstallEnv).

Lemma askRuntimeVersion_S fuel s :
  askRuntimeVersion env (S fuel) s
  = match clicks s with
    | [] => (Throw "UserCancelledError", s)
    | b :: rest =>
        if String.eqb (buttonTitle env b) (learnMoreTitle env) then
          match env_opn env learnMoreLink with
          | Normal _ => askRuntimeVersion env fuel (afterLearnMore 1 rest s)
          | Throw e => (Throw e, afterLearnMore 1 rest s)
          end
        else (Normal (buttonTitle env b), afterLearnMore 0 rest s)
    end.
Proof.
  simpl. unfold ebind, showVersionDialog, afterLearnMore.
  destruct (clicks s) as [|b rest]; [reflexivity|].
  destruct (String.eqb (buttonTitle env b) (learnMoreTitle env)).
  - unfold opn. cbn [clicks openedLinks outputShown executed replicate].
    destruct (env_opn env learnMoreLink); reflexivity.
  - unfold eret. cbn [replicate]. by rewrite app_nil_r.
Qed.

Lemma askRuntimeVersion_frame fuel s :
  executed (askRuntimeVersion env fuel s).2 = executed s
  /\ outputShown (askRuntimeVersion env fuel s).2 = outputShown s.
Proof.
  revert s. induction fuel as [|fuel IH]; intros s; [split; reflexivity|].
  rewrite askRuntimeVersion_S.
  destruct (clicks s) as [|b rest]; [split; reflexivity|].
  destruct (String.eqb (buttonTitle env b) (learnMoreTitle env)); [|split; reflexivity].
  destruct (env_opn env learnMoreLink) as [[]|e]; [|split; reflexivity].
  destruct (IH (afterLearnMore 1 rest s)) as [-> ->]. split; reflexivity.
Qed.

Lemma askRuntimeVersion_title fuel s title s' :
  askRuntimeVersion env fuel s = (Normal title, s') ->
  (title = v1 \/ title = v2) /\ title <> learnMoreTitle env.
Proof.
  revert s. induction fuel as [|fuel IH]; intros s; [done|].
  rewrite askRuntimeVersion_S.
  destruct (clicks s) as [|b rest]; [done|].
  destruct (String.eqb_spec (buttonTitle env b) (learnMoreTitle env)) as [Heq|Hne].
  - destruct (env_opn env learnMoreLink) as [[]|e]; [|done]. apply IH.
  - intros [= <- <-]. split; [|done].
    destruct b; simpl in *; auto. done.
Qed.

Lemma afterLearnMore_S n rest rest' s :
  afterLearnMore n rest (afterLearnMore 1 rest' s) = afterLearnMore (S n) rest s.
Proof. unfold afterLearnMore. simpl. by rewrite <- app_assoc. Qed.

Lemma askRuntimeVersion_learnMore n : forall fuel b rest s,
  n < fuel ->
  b <> ButtonLearnMore ->
  learnMoreTitle env <> v1 -> learnMoreTitle env <> v2 ->
  env_opn env learnMoreLink = Normal tt ->
  clicks s = replicate n ButtonLearnMore ++ b :: rest ->
  askRuntimeVersion env fuel s = (Normal (buttonTitle env b), afterLearnMore n rest s).
Proof.
  induction n as [|n IH]; intros fuel b rest s Hfuel Hb H1 H2 Hopn Hclicks;
    (destruct fuel as [|fuel]; [lia|]); rewrite askRuntimeVersion_S, Hclicks; simpl.
  - destruct (String.eqb_spec (buttonTitle env b) (learnMoreTitle env)) as [Heq|Hne];
      [|reflexivity].
    destruct b; simpl in Heq; congruence.
  - rewrite String.eqb_refl, Hopn.
    rewrite (IH fuel b rest); [|lia|done..].
    by rewrite afterLearnMore_S.
Qed.

Lemma askRuntimeVersion_dismissed fuel : forall s,
  Forall (eq ButtonLearnMore) (clicks s) ->
  exists e, (askRuntimeVersion env fuel s).1 = Throw e.
Proof.
  induction fuel as [|fuel IH]; intros s Hall; [by eexists|].
  rewrite askRuntimeVersion_S.
  destruct (clicks s) as [|b rest] eqn:Hclicks; [by eexists|].
  apply Forall_cons in Hall as [<- Hrest].
  simpl buttonTitle. rewrite String.eqb_refl.
  destruct (env_opn env learnMoreLink) as [[]|e]; [|by eexists].
  apply IH. done.
Qed.

(** X17. On Windows, with no runtime version given, every click on 'Learn
    more' opens the link and shows the dialog again; after [n] such clicks
    and a click on a version, the call goes on as if that version had been
    given, with the link opened [n] times. The title of 'Learn more' is
    taken to differ from the two version titles. *)
Theorem learn_more_reopens_version_dialog packageManager runtimeVersion n button rest s :
  onWindows env = true ->
  truthy_opt runtimeVersion = false ->
  button <> ButtonLearnMore ->
  learnMoreTitle env <> v1 -> learnMoreTitle env <> v2 ->
  env_opn env learnMoreLink = Normal tt ->
  clicks s = replicate n ButtonLearnMore ++ button :: rest ->
  installFuncCoreTools env packageManager runtimeVersion s
  = installFuncCoreTools env packageManager (Some (buttonTitle env button))
      (afterLearnMore n rest s).
Proof.
  intros Hwin Hrv Hb H1 H2 Hopn Hclicks.
  assert (Hask : askRuntimeVersion env (S (length (clicks s))) s
                 = (Normal (buttonTitle env button), afterLearnMore n rest s)).
  { apply askRuntimeVersion_learnMore; try done.
    rewrite Hclicks, List.length_app, length_replicate; simpl. lia. }
  assert (Htruthy : JsString.truthy (buttonTitle env button) = true)
    by (destruct button; done).
  unfold installFuncCoreTools. rewrite Hwin. simpl negb. cbv iota.
  rewrite Htruthy. unfold ebind at 1 3.
  destruct runtimeVersion as [version|]; simpl in Hrv; [rewrite Hrv|]; rewrite Hask;
    reflexivity.
Qed.

(** X18. On Windows, with no runtime version given, a user who only
    clicks 'Learn more' and then dismisses the dialog makes the call throw:
    no command has been run and the output channel has not been shown. *)
Theorem dismissed_version_dialog_installs_nothing packageManager runtimeVersion s :
  onWindows env = true ->
  truthy_opt runtimeVersion = false ->
  Forall (eq ButtonLearnMore) (clicks s) ->
  exists e s',
    installFuncCoreTools env packageManager runtimeVersion s = (Throw e, s')
    /\ executed s' = executed s
    /\ outputShown s' = outputShown s.
Proof.
  intros Hwin Hrv Hall.
  destruct (askRuntimeVersion_dismissed (S (length (clicks s))) s Hall) as [e He].
  destruct (askRuntimeVersion_frame (S (length (clicks s))) s) as [Hex Hout].
  destruct (askRuntimeVersion env (S (length (clicks s))) s) as [c s'] eqn:Hask.
  simpl in He, Hex, Hout. subst c.
  exists e, s'. split; [|done].
  unfold installFuncCoreTools. rewrite Hwin. simpl negb. cbv iota.
  unfold ebind at 1.
  destruct runtimeVersion as [version|]; simpl in Hrv; [rewrite Hrv|]; rewrite Hask;
    reflexivity.
Qed.

(** X19. On Windows, with npm, a given runtime version that is neither
    of the two titles makes the call throw a [RangeError] naming it; no
    command is run and no dialog is shown. *)
Theorem invalid_runtime_version_installs_nothing version s :
  onWindows env = true ->
  JsString.truthy version = true ->
  version <> v1 -> version <> v2 ->
  exists s',
    installFuncCoreTools env npm (Some version) s
    = (Throw ("RangeError: Invalid runtime " +:+ dquote +:+ version +:+ dquote +:+ "."), s')
    /\ executed s' = executed s
    /\ clicks s' = clicks s.
Proof.
  intros Hwin Htruthy H1 H2. unfold installFuncCoreTools. rewrite Hwin, Htruthy.
  simpl negb. cbv iota. unfold ebind, eret, outputChannel_show, ethrow.
  destruct (String.eqb_spec version v1); [done|].
  destruct (String.eqb_spec version v2); [done|].
  by eexists.
Qed.

(** X20. A call that returns normally has shown the output channel and
    has run, with success, either one npm command (the one of v1 or the one
    of v2; off Windows always the one of v2) or the two brew commands, and
    nothing else. *)
Theorem install_returns_only_after_commands_succeeded packageManager runtimeVersion s s' :
  installFuncCoreTools env packageManager runtimeVersion s = (Normal tt, s') ->
  outputShown s' = true
  /\ ((packageManager = npm
       /\ exists command,
            executed s' = executed s ++ [command]
            /\ env_executeCommand env command = Normal tt
            /\ (command = npmInstallV1 env \/ command = npmInstallV2 env)
            /\ (onWindows env = false -> command = npmInstallV2 env))
      \/ (packageManager = brew
          /\ executed s' = executed s ++ [brewTap; brewInstall env]
          /\ env_executeCommand env brewTap = Normal tt
          /\ env_executeCommand env (brewInstall env) = Normal tt)).
Proof.
  unfold installFuncCoreTools. unfold ebind at 1.
  match goal with |- context [match ?m s with _ => _ end] => set (chosen := m s) end.
  assert (Hframe : executed chosen.2 = executed s
                   /\ (onWindows env = false -> chosen.1 = Normal v2)).
  { subst chosen. destruct (onWindows env); simpl negb; cbv iota.
    - split; [|done].
      destruct runtimeVersion as [version|]; [destruct (JsString.truthy version)|];
        first [reflexivity | apply askRuntimeVersion_frame].
    - split; reflexivity. }
  destruct chosen as [[version|e] s1]; [|done]. simpl in Hframe.
  destruct Hframe as [Hex Hoff].
  unfold ebind at 1. unfold outputChannel_show.
  destruct packageManager as [| |shown]; [| |done].
  - destruct (String.eqb_spec version v1) as [->|Hn1];
      [|destruct (String.eqb_spec version v2) as [->|Hn2]; [|done]];
      unfold executeCommand; cbn [clicks openedLinks outputShown executed];
      intros [= Hcmd <-]; (split; [reflexivity|]); left; (split; [reflexivity|]);
      eexists; cbn [executed]; rewrite Hex.
    + split; [reflexivity|]. split; [by destruct (env_executeCommand env _) as [[]|]|].
      split; [by left|]. intros Hoff'. specialize (Hoff Hoff'). done.
    + split; [reflexivity|]. split; [by destruct (env_executeCommand env _) as [[]|]|].
      split; [by right|]. done.
  - unfold ebind, executeCommand. cbn [clicks openedLinks outputShown executed].
    destruct (env_executeCommand env ["brew"; "tap"; "azure/functions"]) as [[]|] eqn:Htap;
      [|done].
    intros [= Hcmd <-]. split; [reflexivity|]. right. split; [reflexivity|].
    cbn [executed]. rewrite Hex, <- app_assoc. split; [reflexivity|]. split; [done|].
    unfold brewInstall. by destruct (env_executeCommand env _) as [[]|].
Qed.

End InstallFacts.

Lemma learn_more_reopens_version_dialog_witness :
  installFuncCoreTools sampleInstallEnv npm None
    (installStart [ButtonLearnMore; ButtonLearnMore; ButtonV1; ButtonV2])
  = installFuncCoreTools sampleInstallEnv npm (Some v1)
      (afterLearnMore 2 [ButtonV2]
         (installStart [ButtonLearnMore; ButtonLearnMore; ButtonV1; ButtonV2])).
Proof.
  apply (learn_more_reopens_version_dialog sampleInstallEnv npm None 2 ButtonV1 [ButtonV2]);
    first [reflexivity | discriminate].
Defined.

Lemma dismissed_version_dialog_installs_nothing_witness :
  exists e s',
    installFuncCoreTools sampleInstallEnv brew (Some "")
      (installStart [ButtonLearnMore; ButtonLearnMore]) = (Throw e, s')
    /\ executed s' = []
    /\ outputShown s' = false.
Proof.
  apply (dismissed_version_dialog_installs_nothing sampleInstallEnv brew (Some "")
           (installStart [ButtonLearnMore; ButtonLearnMore]));
    [reflexivity | reflexivity | repeat constructor].
Defined.

Lemma invalid_runtime_version_installs_nothing_witness :
  exists s',
    installFuncCoreTools sampleInstallEnv npm (Some "v3") (installStart [ButtonV1])
    = (Throw ("RangeError: Invalid runtime " +:+ dquote +:+ "v3" +:+ dquote +:+ "."), s')
    /\ executed s' = []
    /\ clicks s' = [ButtonV1].
Proof.
  apply (invalid_runtime_version_installs_nothing sampleInstallEnv "v3"
           (installStart [ButtonV1]));
    first [reflexivity | discriminate].
Defined.

Lemma install_returns_only_after_commands_succeeded_witness :
  outputShown
    (installFuncCoreTools sampleInstallEnv brew (Some v1) (installStart [])).2 = true.
Proof.
  exact (proj1 (install_returns_only_after_commands_succeeded sampleInstallEnv brew (Some v1)
                  (installStart []) _ eq_refl)).
Defined.

(** ** [createFunction]: the settings given by the caller *)

Lemma set_lookup_ne {A} key key' (value : A) (own : gmap string A) :
  key <> key' -> JsObject.set key value own !! key' = own !! key'.
Proof.
  intros Hne. unfold JsObject.set. destruct (String.eqb key "__proto__"); [done|].
  by apply lookup_insert_ne.
Qed.

Lemma set_lookup_eq {A} key (value : A) (own : gmap string A) :
  key <> "__proto__" -> JsObject.set key value own !! key = Some value.
Proof.
  intros Hne. unfold JsObject.set.
  destruct (String.eqb_spec key "__proto__"); [done|]. apply lookup_insert_eq.
Qed.

Lemma set_proto {A} (value : A) (own : gmap string A) :
  JsObject.set "__proto__" value own = own.
Proof. reflexivity. Qed.

Lemma lowerCaseSettings_snoc entries k v :
  lowerCaseSettings (Some (entries ++ [(k, v)]))
  = JsObject.set (JsString.toLowerCase k) v (lowerCaseSettings (Some entries)).
Proof. unfold lowerCaseSettings. by rewrite fold_left_app. Qed.

Lemma lowerCaseSettings_after entries : forall after key,
  Forall (fun kv => JsString.toLowerCase kv.1 <> key) after ->
  lowerCaseSettings (Some (entries ++ after)) !! key
  = lowerCaseSettings (Some entries) !! key.
Proof.
  intros after. induction after as [|[k v] after IH] using rev_ind; intros key Hall.
  - by rewrite app_nil_r.
  - apply Forall_app in Hall as [Hall Hlast]. rewrite Forall_singleton in Hlast. simpl in Hlast.
    rewrite app_assoc, lowerCaseSettings_snoc, set_lookup_ne by done. by apply IH.
Qed.

(** X21. [createFunction] reads the settings of its caller by their
    lower-cased keys: a setting is found under any casing of its name, and
    of several keys that lower-case to the same string the last one gives
    the value. The key '__proto__' is the exception: assigning to it adds
    no property. *)
Theorem settings_keys_compared_in_lower_case before k v after name :
  JsString.toLowerCase k <> "__proto__" ->
  JsString.toLowerCase name = JsString.toLowerCase k ->
  Forall (fun kv => JsString.toLowerCase kv.1 <> JsString.toLowerCase k) after ->
  settingOf (lowerCaseSettings (Some (before ++ (k, v) :: after))) (JsString.toLowerCase name)
  = v.
Proof.
  intros Hproto -> Hafter. unfold settingOf.
  change (before ++ (k, v) :: after) with (before ++ [(k, v)] ++ after).
  rewrite app_assoc, lowerCaseSettings_after, lowerCaseSettings_snoc, set_lookup_eq by done.
  reflexivity.
Qed.

Lemma settings_keys_compared_in_lower_case_witness :
  settingOf (lowerCaseSettings (Some sampleSettings)) (JsString.toLowerCase "authLevel")
  = Some "function".
Proof.
  apply (settings_keys_compared_in_lower_case [("Name", Some "HttpTrigger1")] "AuthLevel"
           (Some "function") [("Route", None)] "authLevel");
    [discriminate | reflexivity | repeat constructor; discriminate].
Defined.

(** A value given under the key '__proto__' is not kept: reading the key
    back gives the prototype of the object. *)
Example settings_key_proto_is_dropped :
  settingOf (lowerCaseSettings (Some [("__proto__", Some "x")])) "__proto__" = None
  /\ readSetting (lowerCaseSettings (Some [("__proto__", Some "x")])) "__proto__"
     = Some (PrototypeValue "__proto__").
Proof. split; reflexivity. Qed.

Lemma orEmpty_id settingValue : orEmpty settingValue = settingValue.
Proof.
  destruct settingValue as [s|n]; [|reflexivity]. simpl. unfold JsString.truthy.
  by destruct (String.eqb_spec s "") as [->|].
Qed.

Lemma collectUserSettings_cons prompt fs setting rest us prompted :
  collectUserSettings prompt fs (setting :: rest) us prompted
  = match valueFor prompt fs setting with
    | Normal value =>
        collectUserSettings prompt fs rest (JsObject.set setting value us)
          (prompted ++ if settingGiven fs setting then [] else [setting])
    | Throw e => (Throw e, prompted ++ if settingGiven fs setting then [] else [setting])
    end.
Proof.
  simpl. unfold ebind, valueFor, settingGiven.
  destruct (readSetting fs (JsString.toLowerCase setting)) as [value|].
  - unfold eret. by rewrite orEmpty_id, app_nil_r.
  - destruct (prompt setting) as [value|e]; [|reflexivity]. by rewrite orEmpty_id.
Qed.

Lemma filter_not_given_cons fs setting rest :
  List.filter (fun n => negb (settingGiven fs n)) (setting :: rest)
  = (if settingGiven fs setting then [] else [setting])
    ++ List.filter (fun n => negb (settingGiven fs n)) rest.
Proof. simpl. by destruct (settingGiven fs setting). Qed.

Lemma collectUserSettings_all prompt fs settings : forall us prompted,
  (forall n, n ∈ settings -> exists value, valueFor prompt fs n = Normal value) ->
  exists userSettings,
    collectUserSettings prompt fs settings us prompted
    = (Normal userSettings,
       prompted ++ List.filter (fun n => negb (settingGiven fs n)) settings)
    /\ (forall n, n ∈ settings -> n <> "__proto__" ->
          exists value, userSettings !! n = Some value
                        /\ valueFor prompt fs n = Normal value)
    /\ (forall n, n ∉ settings \/ n = "__proto__" -> userSettings !! n = us !! n).
Proof.
  induction settings as [|setting rest IH]; intros us prompted Hall.
  - exists us. simpl. rewrite app_nil_r. split; [reflexivity|]. split; [|done].
    intros n Hn. by apply elem_of_nil in Hn.
  - destruct (Hall setting) as [value Hvalue]; [left|].
    rewrite collectUserSettings_cons, Hvalue, filter_not_given_cons, app_assoc.
    destruct (IH (JsObject.set setting value us)
                (prompted ++ if settingGiven fs setting then [] else [setting]))
      as (m & -> & Hin & Hout).
    { intros n Hn. apply Hall. by right. }
    exists m. split; [reflexivity|]. split.
    + intros n Hn Hproto. destruct (decide (n ∈ rest)) as [Hrest|Hrest]; [by apply Hin|].
      apply elem_of_cons in Hn as [->|Hn]; [|done].
      exists value. rewrite (Hout setting) by (by left). by rewrite set_lookup_eq.
    + intros n [Hn| ->].
      * apply not_elem_of_cons in Hn as [Hne Hn].
        rewrite (Hout n) by (by left). by rewrite set_lookup_ne.
      * rewrite (Hout "__proto__") by (by right).
        destruct (String.eqb_spec setting "__proto__") as [->|Hne];
          [by rewrite set_proto | by rewrite set_lookup_ne].
Qed.

(** X22. When no prompt is dismissed, the loop over the settings of the
    template prompts exactly for the settings that have no value in
    [functionSettings], in the order of the template, and stores a value
    for every setting of the template (but for one named '__proto__') and
    for nothing else: the value found, or else the one prompted. A value
    inherited from [Object.prototype] counts as found: a setting named
    'constructor' is not prompted for. *)
Theorem given_settings_are_not_prompted prompt fs settings :
  (forall n, n ∈ settings -> exists value, valueFor prompt fs n = Normal value) ->
  exists userSettings,
    collectUserSettings prompt fs settings ∅ []
    = (Normal userSettings, List.filter (fun n => negb (settingGiven fs n)) settings)
    /\ (forall n, n ∈ settings -> n <> "__proto__" ->
          exists value, userSettings !! n = Some value
                        /\ valueFor prompt fs n = Normal value)
    /\ (forall n, n ∉ settings \/ n = "__proto__" -> userSettings !! n = None)
    /\ (forall n, fs !! JsString.toLowerCase n = None ->
          settingGiven fs n = bool_decide (JsString.toLowerCase n ∈ JsObject.prototypeNames)).
Proof.
  intros Hall.
  destruct (collectUserSettings_all prompt fs settings ∅ [] Hall) as (m & Hrun & Hin & Hout).
  exists m. split; [exact Hrun|]. split; [exact Hin|]. split.
  - intros n Hn. by rewrite (Hout _ Hn).
  - intros n Hn. unfold settingGiven, readSetting, JsObject.get. rewrite Hn.
    by destruct (bool_decide _).
Qed.

Lemma given_settings_are_not_prompted_witness :
  exists userSettings,
    collectUserSettings samplePrompt (lowerCaseSettings (Some sampleSettings))
      ["name"; "methods"; "constructor"] ∅ []
    = (Normal userSettings,
       List.filter
         (fun n => negb (settingGiven (lowerCaseSettings (Some sampleSettings)) n))
         ["name"; "methods"; "constructor"])
    /\ (forall n, n ∈ ["name"; "methods"; "constructor"] -> n <> "__proto__" ->
          exists value,
            userSettings !! n = Some value
            /\ valueFor samplePrompt (lowerCaseSettings (Some sampleSettings)) n
               = Normal value)
    /\ (forall n, n ∉ ["name"; "methods"; "constructor"] \/ n = "__proto__" ->
          userSettings !! n = None)
    /\ (forall n, lowerCaseSettings (Some sampleSettings) !! JsString.toLowerCase n = None ->
          settingGiven (lowerCaseSettings (Some sampleSettings)) n
          = bool_decide (JsString.toLowerCase n ∈ JsObject.prototypeNames)).
Proof.
  apply (given_settings_are_not_prompted samplePrompt (lowerCaseSettings (Some sampleSettings))
           ["name"; "methods"; "constructor"]).
  intros n Hn. in_inv; subst n; eexists; reflexivity.
Defined.

(** The run of the sample: only 'methods' is prompted for; 'name' was given
    by the caller and 'constructor' is found on the prototype. *)
Example sample_settings_run :
  collectUserSettings samplePrompt (lowerCaseSettings (Some sampleSettings))
    ["name"; "methods"; "constructor"] ∅ []
  = (Normal (<["constructor" := PrototypeValue "constructor"]>
               (<["methods" := StringValue "typed"]>
                  (<["name" := StringValue "HttpTrigger1"]> ∅))),
     ["methods"]).
Proof. reflexivity. Qed.

(** X23. A dismissed prompt ends the loop with its error: the settings
    after it are not prompted for. *)
Theorem dismissed_setting_prompt_stops_the_loop prompt fs before setting after e :
  (forall n, n ∈ before -> exists value, valueFor prompt fs n = Normal value) ->
  settingGiven fs setting = false ->
  prompt setting = Throw e ->
  collectUserSettings prompt fs (before ++ setting :: after) ∅ []
  = (Throw e, List.filter (fun n => negb (settingGiven fs n)) before ++ [setting]).
Proof.
  intros Hall Hgiven Hprompt.
  assert (Hgen : forall us prompted,
    collectUserSettings prompt fs (before ++ setting :: after) us prompted
    = (Throw e, prompted ++ List.filter (fun n => negb (settingGiven fs n)) before
                ++ [setting])); [|apply Hgen].
  induction before as [|b before IH]; intros us prompted.
  - simpl app. rewrite collectUserSettings_cons, Hgiven. unfold valueFor.
    unfold settingGiven in Hgiven.
    destruct (readSetting fs (JsString.toLowerCase setting)); [done|]. by rewrite Hprompt.
  - destruct (Hall b) as [value Hvalue]; [left|].
    rewrite <- app_comm_cons, collectUserSettings_cons, Hvalue, IH.
    + by rewrite filter_not_given_cons, <- !app_assoc.
    + intros n Hn. apply Hall. by right.
Qed.

Lemma dismissed_setting_prompt_stops_the_loop_witness :
  collectUserSettings samplePrompt (lowerCaseSettings (Some sampleSettings))
    (["name"; "methods"] ++ "connection" :: ["path"]) ∅ []
  = (Throw "UserCancelledError",
     List.filter (fun n => negb (settingGiven (lowerCaseSettings (Some sampleSettings)) n))
       ["name"; "methods"] ++ ["connection"]).
Proof.
  apply (dismissed_setting_prompt_stops_the_loop samplePrompt
           (lowerCaseSettings (Some sampleSettings)) ["name"; "methods"] "connection" ["path"]);
    [|reflexivity|reflexivity].
  intros n Hn. in_inv; subst n; eexists; reflexivity.
Defined.

(** ** [createFunction]: the template of a given id *)

Lemma find_filter {A} (p q : A -> bool) (l : list A) :
  List.find p (List.filter q l) = List.find (fun x => p x && q x) l.
Proof.
  induction l as [|x l IH]; [reflexivity|]. simpl.
  destruct (q x); simpl; [destruct (p x); [reflexivity|exact IH]|].
  rewrite andb_false_r. exact IH.
Qed.

(** X24. With a non-empty template id, [createFunction] takes the first
    stored template of the runtime that has this id and is of the language
    (for Java: a verified JavaScript template), whatever the template filter
    of the project, and throws 'templateNotFound' when there is none.
    Without an id, or with the empty string, the template is the one the
    user picks. *)
Theorem template_by_id_ignores_filter K templateData promptForTemplate language runtime
    templateId templates :
  _templatesMap templateData !! runtime = Some templates ->
  (JsString.truthy templateId = true ->
   createFunction_findTemplate K templateData promptForTemplate language runtime
     (Some templateId)
   = match List.find (creatable K language templateId) templates with
     | Some t => Normal t
     | None => Throw (templateNotFound language runtime templateId)
     end)
  /\ createFunction_findTemplate K templateData promptForTemplate language runtime (Some "")
     = promptForTemplate
  /\ createFunction_findTemplate K templateData promptForTemplate language runtime None
     = promptForTemplate.
Proof.
  intros Hmap. split; [|split; reflexivity].
  intros Htruthy. unfold createFunction_findTemplate, truthy_opt, Array_find.
  rewrite Htruthy. simpl negb. cbv iota. simpl default.
  destruct (String.eqb_spec language (ProjectLanguage_Java K)) as [->|Hlang].
  - rewrite (getTemplates_java K _ _ _ templates) by exact Hmap. cbn [fst].
    rewrite find_filter. unfold creatable. rewrite String.eqb_refl. reflexivity.
  - destruct (getTemplates_other K templateData language (Some runtime)
                (Some (TemplateFilter_All K)) templates Hlang Hmap) as (result & -> & _ & Hall).
    rewrite (Hall eq_refl), find_filter. unfold creatable.
    destruct (String.eqb_spec language (ProjectLanguage_Java K)); [done|]. reflexivity.
Qed.

Lemma template_by_id_ignores_filter_witness :
  createFunction_findTemplate extensionConstants sampleData (Throw "UserCancelledError")
    "javascript" "~1" (Some "EventGridTrigger-JavaScript")
  = match List.find (creatable extensionConstants "javascript" "EventGridTrigger-JavaScript")
            sampleTemplates with
    | Some t => Normal t
    | None => Throw (templateNotFound "javascript" "~1" "EventGridTrigger-JavaScript")
    end.
Proof.
  apply (template_by_id_ignores_filter extensionConstants sampleData
           (Throw "UserCancelledError") "javascript" "~1" "EventGridTrigger-JavaScript"
           sampleTemplates); reflexivity.
Defined.

(** ** [tryGetCsprojFile] *)

Lemma endsWith_spec suffix s :
  JsStringMore.endsWith suffix s = true <-> hasExtension suffix s.
Proof.
  unfold hasExtension. induction s as [|a s' IH]; cbn [JsStringMore.endsWith].
  - rewrite orb_false_r, String.eqb_eq. split.
    + intros <-. by exists "".
    + intros [[|b p] H]; [exact H|]. rewrite app_cons in H. discriminate.
  - rewrite orb_true_iff, IH, String.eqb_eq. split.
    + intros [<-|[p ->]]; [by exists ""|by exists (String a p)].
    + intros [[|b p] H]; [left; exact H|].
      right. rewrite app_cons in H. injection H as <- ->. by exists p.
Qed.

Lemma filter_nil {A} (p : A -> bool) (l : list A) :
  List.filter p l = [] <-> Forall (fun y => p y = false) l.
Proof.
  induction l as [|y l IH]; simpl.
  - split; [constructor|reflexivity].
  - rewrite Forall_cons. destruct (p y); [split; [discriminate|by intros [? _]]|].
    rewrite IH. tauto.
Qed.

Lemma filter_singleton {A} (p : A -> bool) (l : list A) (x : A) :
  List.filter p l = [x]
  <-> exists before after,
        l = before ++ x :: after /\ p x = true
        /\ Forall (fun y => p y = false) before /\ Forall (fun y => p y = false) after.
Proof.
  split.
  - induction l as [|y l IH]; [discriminate|]. simpl.
    destruct (p y) eqn:Hy.
    + intros [= -> Hnil]. exists [], l. split; [reflexivity|]. split; [exact Hy|].
      split; [constructor|by apply filter_nil].
    + intros H. destruct (IH H) as (before & after & -> & Hx & Hb & Ha).
      exists (y :: before), after. split; [reflexivity|]. split; [exact Hx|].
      split; [by constructor|exact Ha].
  - intros (before & after & -> & Hx & Hb & Ha).
    rewrite List.filter_app. simpl. rewrite Hx.
    apply filter_nil in Hb, Ha. by rewrite Hb, Ha.
Qed.

(** X25. [tryGetCsprojFile] returns a file exactly when it is the only
    entry of the folder whose name ends in '.csproj'. *)
Theorem tryGetCsprojFile_single_project_file files file :
  tryGetCsprojFile (Normal files) = Normal (Some file)
  <-> exists before after,
        files = before ++ file :: after
        /\ hasExtension ".csproj" file
        /\ Forall (fun f => ~ hasExtension ".csproj" f) before
        /\ Forall (fun f => ~ hasExtension ".csproj" f) after.
Proof.
  unfold tryGetCsprojFile.
  assert (Hno : forall l, Forall (fun y => JsStringMore.endsWith ".csproj" y = false) l
                          <-> Forall (fun f => ~ hasExtension ".csproj" f) l).
  { intros l. apply Forall_iff. intros f. rewrite <- endsWith_spec.
    by destruct (JsStringMore.endsWith ".csproj" f). }
  setoid_rewrite <- Hno. setoid_rewrite <- endsWith_spec. rewrite <- filter_singleton.
  destruct (List.filter _ files) as [|f [|g rest]]; simpl; split; intros H;
    try discriminate; congruence.
Qed.

(** ** [CSharpProjectCreator.addNonVSCodeFiles] *)

Section CSharpProjectFacts.

Context (K : Constants) (env : ProjectEnv).

(** X26. [addNonVSCodeFiles] runs the dotnet template command, which
    writes the files of the project, at most once, as its last step, and
    only when none of the four files it checks exists or after the warning
    that names the existing ones has returned without a cancellation. *)
Theorem project_files_overwritten_only_after_confirmation projectName events runtime args :
  DotnetTemplateCommand runtime args ∈ (addNonVSCodeFiles K env projectName events).2 ->
  DotnetTemplateCommand runtime args ∉ events ->
  (existingProjectFiles env projectName = []
   /\ (addNonVSCodeFiles K env projectName events).2
      = events ++ [DotnetTemplateCommand runtime args])
  \/ (pe_showWarningMessage env (overwriteExistingFiles (existingProjectFiles env projectName))
      = Normal tt
      /\ (addNonVSCodeFiles K env projectName events).2
         = events ++ [AskedToOverwrite
                        (overwriteExistingFiles (existingProjectFiles env projectName));
                      DotnetTemplateCommand runtime args]).
Proof.
  unfold addNonVSCodeFiles, confirmOverwriteExisting. fold (existingProjectFiles env projectName).
  destruct (existingProjectFiles env projectName) as [|f files] eqn:Hexisting.
  - simpl Nat.ltb. cbv iota. unfold ebind, eret, eawait.
    destruct (pe_tryGetLocalRuntimeVersion env) as [localRuntime|e]; [|done].
    intros Hin Hold. left. split; [reflexivity|]. revert Hin.
    destruct (truthy_opt localRuntime); [|destruct (pe_promptForProjectRuntime env); [|done]];
      simpl; intros Hin; apply elem_of_app in Hin as [Hin|Hin]; try done;
      in_inv; by injection Hin as -> ->.
  - simpl Nat.ltb. cbv iota. rewrite <- Hexisting. unfold ebind, eret, eawait.
    intros Hin Hold. right. revert Hin.
    assert (Hnot : forall l, DotnetTemplateCommand runtime args ∈ events ++ [AskedToOverwrite l]
                             -> False).
    { intros l Hin. apply elem_of_app in Hin as [Hin|Hin]; [done|]. in_inv. discriminate. }
    destruct (pe_showWarningMessage env _) as [[]|e]; [|by intros ?%Hnot].
    destruct (pe_tryGetLocalRuntimeVersion env) as [localRuntime|e]; [|by intros ?%Hnot].
    split; [reflexivity|]. revert Hin.
    destruct (truthy_opt localRuntime);
      [|destruct (pe_promptForProjectRuntime env); [|by intros ?%Hnot]];
      simpl; intros Hin; apply elem_of_app in Hin as [Hin|Hin]; try (by apply Hnot in Hin);
      in_inv; injection Hin as -> ->; by rewrite <- app_assoc.
Qed.

End CSharpProjectFacts.

Lemma project_files_overwritten_only_after_confirmation_witness :
  (existingProjectFiles sampleProjectEnv "app" = []
   /\ (addNonVSCodeFiles extensionConstants sampleProjectEnv "app" []).2
      = [] ++ [DotnetTemplateCommand "beta"
                 ["create"; "--identity"; "Microsoft.AzureFunctions.ProjectTemplate.CSharp.2.x";
                  "--arg:name"; "app"]])
  \/ (pe_showWarningMessage sampleProjectEnv
        (overwriteExistingFiles (existingProjectFiles sampleProjectEnv "app")) = Normal tt
      /\ (addNonVSCodeFiles extensionConstants sampleProjectEnv "app" []).2
         = [] ++ [AskedToOverwrite
                    (overwriteExistingFiles (existingProjectFiles sampleProjectEnv "app"));
                  DotnetTemplateCommand "beta"
                    ["create"; "--identity";
                     "Microsoft.AzureFunctions.ProjectTemplate.CSharp.2.x"; "--arg:name"; "app"]]).
Proof.
  apply (project_files_overwritten_only_after_confirmation extensionConstants sampleProjectEnv
           "app" [] "beta"
           ["create"; "--identity"; "Microsoft.AzureFunctions.ProjectTemplate.CSharp.2.x";
            "--arg:name"; "app"]);
    [vm_compute; repeat constructor | apply not_elem_of_nil].
Defined.

(** ** [validateFuncCoreToolsIsLatest] *)

Ltac run_tools :=
  cbv beta iota zeta delta
    [ebind eret eawait ethrow etry_catch setToolsProperty request showOutdatedWarning
     updateShowCoreToolsWarning].

Section ValidateFacts.

Context (K : Constants) (env : ToolsEnv).

Lemma getNewest_cases packageManager projectRuntime s :
  exists version s' uri,
    getNewestFunctionRuntimeVersion K env packageManager projectRuntime s = (Normal version, s')
    /\ toolsEvents s' = toolsEvents s ++ [Requested uri]
    /\ toolsClicks s' = toolsClicks s
    /\ showCoreToolsWarning s' = showCoreToolsWarning s
    /\ (truthy_opt version = true -> exists response, te_request env uri = Normal response).
Proof.
  unfold getNewestFunctionRuntimeVersion.
  destruct packageManager as [[| |shown]|]; run_tools;
    match goal with
    | |- context [te_request env ?u] =>
        destruct (te_request env u) as [response|e] eqn:Hreq;
          [|by eexists _, _, u; split; [reflexivity|]]
    end;
    repeat match goal with
      | |- context [match ?c with Normal _ => _ | Throw _ => _ end] => destruct c eqn:?
      | |- context [match ?o with Some _ => _ | None => _ end] => destruct o eqn:?
      | |- context [if ?b then _ else _] => destruct b eqn:?
      end;
    eexists _, _, _; (split; [reflexivity|]); simpl; eauto 6.
Qed.

Lemma warnUntilAnswered_loop message packageManager projectRuntime fuel : forall s,
  WarningLoop env packageManager projectRuntime s
    (warnUntilAnswered env message packageManager projectRuntime fuel s).2.
Proof.
  induction fuel as [|fuel IH]; intros s.
  - exists []. simpl. rewrite app_nil_r. split; [reflexivity|].
    split; [by intros ? ?%elem_of_nil|]. split; [by intros ? ? ?%elem_of_nil|done].
  - simpl. unfold ebind at 1. unfold showOutdatedWarning.
    destruct (toolsClicks s) as [|item rest] eqn:Hclicks.
    + eexists [_]. simpl. split; [reflexivity|].
      split; [intros uri Hin; in_inv; discriminate|].
      split; [intros pm rt Hin; in_inv; discriminate|done].
    + destruct item.
      * eexists [_; _]. simpl. rewrite <- app_assoc. split; [reflexivity|].
        split; [intros uri Hin; in_inv; discriminate|]. split; [|done].
        intros pm rt Hin. in_inv; try discriminate. injection Hin as -> ->.
        rewrite Hclicks. split; [done|]. split; [done|]. left.
      * unfold ebind.
        match goal with
        | |- context [warnUntilAnswered _ _ _ _ _ ?s1] => set (sa := s1); specialize (IH sa)
        end.
        destruct (te_opn env outdatedLink) as [[]|e].
        -- destruct IH as (new & Hev & Hreq & Hupd & Hset).
           exists (Warned message (bool_decide (packageManager <> None))
                   :: Opened outdatedLink :: new).
           rewrite Hev. subst sa. simpl. rewrite <- !app_assoc. split; [reflexivity|].
           split; [intros uri Hin; in_inv; try discriminate; by apply (Hreq uri)|].
           rewrite Hclicks. split.
           ++ intros pm rt Hin. in_inv; try discriminate.
              destruct (Hupd pm rt Hin) as (-> & -> & Hclick).
              simpl in Hclick. split; [done|]. split; [done|]. by right.
           ++ intros Hne. destruct (Hset Hne) as (? & Hclick & ?). simpl in Hclick.
              split; [done|]. split; [by right|done].
        -- eexists [_; _]. subst sa. simpl. rewrite <- app_assoc. split; [reflexivity|].
           split; [intros uri Hin; in_inv; discriminate|]. split; [|done].
           intros pm rt Hin. in_inv; discriminate.
      * unfold updateShowCoreToolsWarning.
        destruct (te_updateGlobalSetting env) as [[]|e] eqn:Hupdate.
        -- eexists [_]. simpl. split; [reflexivity|].
           split; [intros uri Hin; in_inv; discriminate|].
           split; [intros pm rt Hin; in_inv; discriminate|].
           intros _. rewrite Hclicks. split; [done|]. split; [left|done].
        -- eexists [_]. simpl. split; [reflexivity|].
           split; [intros uri Hin; in_inv; discriminate|].
           split; [intros pm rt Hin; in_inv; discriminate|done].
Qed.

Lemma callback_outcome s :
  CheckOutcome env s (validateFuncCoreToolsIsLatest_callback K env s).2.
Proof.
  unfold validateFuncCoreToolsIsLatest_callback. unfold ebind at 1. unfold setToolsProperty at 1.
  cbn [showCoreToolsWarning set_toolsProperties].
  destruct (showCoreToolsWarning s) eqn:Hsetting; [|by apply check_quiet].
  unfold ebind at 1. unfold eawait at 1.
  destruct (te_getLocalFuncCoreToolsVersion env) as [localVersion|e] eqn:Hlocal;
    [|by apply check_quiet].
  destruct (truthy_opt localVersion) eqn:Htruthy; [|by apply check_quiet].
  destruct localVersion as [localVersion|]; [|discriminate]. simpl default.
  unfold ebind at 1. unfold setToolsProperty at 1.
  destruct (te_getProjectRuntimeFromVersion env localVersion) as [projectRuntime|] eqn:Hrt;
    [|by apply check_quiet].
  unfold ebind at 1. unfold eawait at 1.
  destruct (te_getFuncPackageManager env) as [packageManager|e] eqn:Hpm;
    [|by apply check_quiet].
  unfold ebind at 1.
  match goal with
  | |- context [getNewestFunctionRuntimeVersion K env _ _ ?sa] =>
      destruct (getNewest_cases packageManager projectRuntime sa)
        as (version & s1 & uri & -> & Hev & Hclicks & Hset & Hreq)
  end.
  simpl in Hev, Hclicks, Hset.
  destruct (truthy_opt version) eqn:Hnewest;
    [|by apply (check_requested _ _ _ uri)].
  destruct version as [newestVersion|]; [|discriminate]. simpl default.
  unfold ebind at 1. unfold eawait at 1.
  destruct (te_semver_gt env newestVersion localVersion) as [[|]|e] eqn:Hgt;
    try by apply (check_requested _ _ _ uri).
  apply (check_warned _ _ _ uri localVersion newestVersion projectRuntime packageManager s1);
    try done; [by apply Hreq|congruence|].
  apply warnUntilAnswered_loop.
Qed.

Lemma validate_outcome s :
  (validateFuncCoreToolsIsLatest K env s).1 = Normal tt
  /\ CheckOutcome env s (validateFuncCoreToolsIsLatest K env s).2.
Proof.
  unfold validateFuncCoreToolsIsLatest.
  pose proof (callback_outcome (set_toolsProperties (fun _ => []) s)) as Hout.
  destruct (validateFuncCoreToolsIsLatest_callback K env _) as [c s'].
  split; [reflexivity|]. simpl in *.
  assert (Hsame : forall s'', toolsEvents s'' = toolsEvents s' ->
                    toolsClicks s'' = toolsClicks s' ->
                    showCoreToolsWarning s'' = showCoreToolsWarning s' ->
                    CheckOutcome env s s'').
  { intros s'' He Hc Hs. destruct Hout as [H1 H2 H3|uri H0 H1 H2 H3|
      uri lv nv rt pm s1 H0 H1 H2 H3 H4 H5 H6 H7 H8 (new & Hn1 & Hn2 & Hn3 & Hn4)];
      simpl in *.
    - apply check_quiet; congruence.
    - apply (check_requested _ _ _ uri); congruence.
    - apply (check_warned _ _ _ uri lv nv rt pm s1); try done.
      exists new. rewrite He, Hs. done. }
  destruct c; apply Hsame; reflexivity.
Qed.

End ValidateFacts.

Section ValidateTheorems.

Context (K : Constants) (env : ToolsEnv).

(** X27. [validateFuncCoreToolsIsLatest] calls [updateFuncCoreTools]
    only when the warning setting is on, the local version is known and
    maps to the runtime passed on, a newer version was found, and the user
    clicked 'Update'; the package manager passed on is the one
    [getFuncPackageManager] returned. *)
Theorem tools_updated_only_when_outdated_and_chosen s packageManager projectRuntime :
  UpdateFuncCoreTools packageManager projectRuntime
    ∈ toolsEvents (validateFuncCoreToolsIsLatest K env s).2 ->
  UpdateFuncCoreTools packageManager projectRuntime ∉ toolsEvents s ->
  showCoreToolsWarning s = true
  /\ ItemUpdate ∈ toolsClicks s
  /\ exists localVersion newestVersion,
       te_getLocalFuncCoreToolsVersion env = Normal (Some localVersion)
       /\ te_getProjectRuntimeFromVersion env localVersion = Some projectRuntime
       /\ te_getFuncPackageManager env = Normal packageManager
       /\ te_semver_gt env newestVersion localVersion = Normal true.
Proof.
  intros Hin Hold.
  destruct (validate_outcome K env s) as [_ [H1 H2 H3|uri H0 H1 H2 H3|
    uri lv nv rt pm s1 H0 H1 H2 H3 H4 H5 H6 H7 H8 (new & Hn1 & Hn2 & Hn3 & Hn4)]].
  - rewrite H1 in Hin. done.
  - rewrite H1 in Hin. apply elem_of_app in Hin as [Hin|Hin]; [done|]. in_inv. discriminate.
  - rewrite Hn1, H6 in Hin.
    apply elem_of_app in Hin as [Hin|Hin];
      [apply elem_of_app in Hin as [Hin|Hin]; [done|in_inv; discriminate]|].
    destruct (Hn3 _ _ Hin) as (-> & -> & Hclick). rewrite H7 in Hclick.
    split; [done|]. split; [done|]. by exists lv, nv.
Qed.

(** X28. When the registry cannot be reached, the check shows no
    warning: at most the request is made, no click of the user is consumed
    and the setting is left as it was. *)
Theorem registry_failure_shows_no_warning s :
  (forall uri, exists e, te_request env uri = Throw e) ->
  toolsClicks (validateFuncCoreToolsIsLatest K env s).2 = toolsClicks s
  /\ showCoreToolsWarning (validateFuncCoreToolsIsLatest K env s).2 = showCoreToolsWarning s
  /\ (toolsEvents (validateFuncCoreToolsIsLatest K env s).2 = toolsEvents s
      \/ exists uri,
           toolsEvents (validateFuncCoreToolsIsLatest K env s).2
           = toolsEvents s ++ [Requested uri]).
Proof.
  intros Hfail.
  destruct (validate_outcome K env s) as [_ [H1 H2 H3|uri H0 H1 H2 H3|
    uri lv nv rt pm s1 H0 H1 H2 H3 [response H4] H5 H6 H7 H8 _]].
  - by repeat split; [..|left].
  - by repeat split; [..|right; exists uri].
  - destruct (Hfail uri) as [e He]. congruence.
Qed.

(** X29. The check never throws. With the warning setting off it does
    nothing; and it changes the setting only by switching it off, after a
    click on 'Don't warn again' and a successful update of the setting. *)
Theorem warning_setting_only_switched_off_by_user s :
  (validateFuncCoreToolsIsLatest K env s).1 = Normal tt
  /\ (showCoreToolsWarning s = false ->
      toolsEvents (validateFuncCoreToolsIsLatest K env s).2 = toolsEvents s
      /\ toolsClicks (validateFuncCoreToolsIsLatest K env s).2 = toolsClicks s
      /\ showCoreToolsWarning (validateFuncCoreToolsIsLatest K env s).2 = false)
  /\ (showCoreToolsWarning (validateFuncCoreToolsIsLatest K env s).2 <> showCoreToolsWarning s ->
      showCoreToolsWarning (validateFuncCoreToolsIsLatest K env s).2 = false
      /\ ItemDontWarnAgain ∈ toolsClicks s
      /\ te_updateGlobalSetting env = Normal tt).
Proof.
  destruct (validate_outcome K env s) as [Hret [H1 H2 H3|uri H0 H1 H2 H3|
    uri lv nv rt pm s1 H0 H1 H2 H3 H4 H5 H6 H7 H8 (new & Hn1 & Hn2 & Hn3 & Hn4)]];
    (split; [exact Hret|]).
  - split; [intros Hoff; by rewrite H3|done].
  - split; [congruence|done].
  - split; [congruence|]. rewrite H0, <- H8, <- H7. exact Hn4.
Qed.

End ValidateTheorems.

Lemma tools_updated_only_when_outdated_and_chosen_witness :
  showCoreToolsWarning (toolsStart [ItemLearnMore; ItemUpdate]) = true
  /\ ItemUpdate ∈ toolsClicks (toolsStart [ItemLearnMore; ItemUpdate])
  /\ exists localVersion newestVersion,
       te_getLocalFuncCoreToolsVersion sampleToolsEnv = Normal (Some localVersion)
       /\ te_getProjectRuntimeFromVersion sampleToolsEnv localVersion = Some "beta"
       /\ te_getFuncPackageManager sampleToolsEnv = Normal (Some npm)
       /\ te_semver_gt sampleToolsEnv newestVersion localVersion = Normal true.
Proof.
  apply (tools_updated_only_when_outdated_and_chosen extensionConstants sampleToolsEnv
           (toolsStart [ItemLearnMore; ItemUpdate]) (Some npm) "beta");
    [vm_compute; repeat constructor | apply not_elem_of_nil].
Defined.

Lemma registry_failure_shows_no_warning_witness :
  toolsClicks
    (validateFuncCoreToolsIsLatest extensionConstants offlineToolsEnv (toolsStart [ItemUpdate])).2
  = [ItemUpdate].
Proof.
  exact (proj1 (registry_failure_shows_no_warning extensionConstants offlineToolsEnv
                  (toolsStart [ItemUpdate]) (fun uri => ex_intro _ _ eq_refl))).
Defined.
